(** * ORP data logger: a shallow embedding of the Arduino sketch

    The sketch drives an LCD + keypad shield, an Atlas ORP circuit on a
    software serial port, a DS1307 clock and a serial data logger.  This
    file embeds the sketch's globals as a record, its functions as
    computations in a state-and-trace monad, and the devices as follows:

    - what the sketch writes (LCD, sensor port, logger port, pins, delays)
      is recorded as a trace of events, in program order;
    - what the sketch reads is supplied from outside: the A0 reading of each
      button poll, the bytes the sensor delivered since the previous poll,
      and the clock value of each main-loop cycle.

    Integer variables are [Z] with the wrap-around of their C type written
    out (AVR: byte 8 bits, unsigned int 16 bits, long 32 bits).  [float]
    arithmetic, libc's [atof] and the outcome of the one unsequenced
    assignment of the sketch are what the sketch leaves to the tool chain:
    they are the fields of the class [Target], with an IEEE-754 binary32
    instance and an exact rational instance.  [serialEvent], the console
    pass-through, which the main loop never calls, is embedded apart with
    the two globals it owns. *)

From Stdlib Require Import ZArith List String Ascii Bool Lia.
From Stdlib Require Import QArith.
From Stdlib Require Import Floats.SpecFloat.
Import ListNotations.

#[local] Open Scope string_scope.
#[local] Open Scope list_scope.
#[local] Open Scope Z_scope.

(** ** Integer types of the AVR tool chain *)

Module Avr.

Definition wrap_byte (z : Z) : Z := z mod 2 ^ 8.
Definition wrap_uint (z : Z) : Z := z mod 2 ^ 16.
Definition wrap_ulong (z : Z) : Z := z mod 2 ^ 32.
(** [long]: two's complement on 32 bits. *)
Definition wrap_long (z : Z) : Z := (z + 2 ^ 31) mod 2 ^ 32 - 2 ^ 31.

Definition LONG_MAX : Z := 2 ^ 31 - 1.
Definition ULONG_MAX : Z := 2 ^ 32 - 1.

End Avr.
Export Avr.

(** ** What the tool chain decides *)

Class Target : Type := {
  float : Type;
  (** conversion of an integer operand to [float] *)
  f_of_Z : Z -> float;
  fadd : float -> float -> float;
  fdiv : float -> float -> float;
  fneg : float -> float;
  (** [x < y] and [x <= y] *)
  fltb : float -> float -> bool;
  fleb : float -> float -> bool;
  (** libc's [atof] on the characters of a NUL-terminated buffer *)
  atof : string -> float;
  (** the value [orpPos] holds after [orpPos = orpPos--], given the value it
      held before: the two writes to [orpPos] are unsequenced before C++17
      (any outcome is allowed), and C++17 makes the assignment come last *)
  postdec_assign : Z -> Z
}.

(** ** Constants of the sketch *)

Definition DATE_ROW : Z := 0.
Definition DATE_COL : Z := 11.
Definition TIME_ROW : Z := 0.
Definition TIME_COL : Z := 0.

(** [A0] is pin 14 on the ATmega328 boards the shield fits. *)
Definition BUTTON_ADC : Z := 14.
Definition BACKLIGHT : Z := 10.
Definition logPin : Z := 12.

Definition RIGHT_10BIT : Z := 0.
Definition UP_10BIT : Z := 145.
Definition DOWN_10BIT : Z := 329.
Definition LEFT_10BIT : Z := 505.
Definition SELECT_10BIT : Z := 741.
Definition HYSTERESIS : Z := 10.

Definition BUTTON_NONE : Z := 0.
Definition RIGHT : Z := 1.
Definition UP : Z := 2.
Definition DOWN : Z := 3.
Definition LEFT : Z := 4.
Definition SELECT : Z := 5.

(** Carriage return, the terminator of the sensor protocol. *)
Definition CR : ascii := ascii_of_nat 13.
Definition LF : ascii := ascii_of_nat 10.

(** A one-letter command followed by carriage return, as in ["R\r"]. *)
Definition cmd (c : ascii) : string := String c (String CR EmptyString).

(** ** Inputs *)

(** [rtc.now()]: the calendar fields and [unixtime()]. *)
Record DateTime : Type := mkDateTime {
  year : Z;
  month : Z;
  day : Z;
  hour : Z;
  minute : Z;
  second : Z;
  unixtime : Z
}.

(** What one polling iteration (of the main loop or of a sub-loop) observes:
    the bytes the sensor delivered since the previous poll, and the value
    [analogRead(BUTTON_ADC)] returns. *)
Record poll : Type := mkPoll {
  rx : string;
  adc : Z
}.

(** One main-loop cycle: its clock reading, its own poll, and the polls of
    the sub-loop the cycle enters when RIGHT or LEFT is sampled. *)
Record cycle : Type := mkCycle {
  c_now : DateTime;
  c_poll : poll;
  c_sub : list poll
}.

(** [Stream::readBytesUntil]: at most [length] characters are taken; the
    terminator is consumed and not stored; an empty stream is a time-out.
    Returns the characters stored and what is left in the stream. *)
Fixpoint readBytesUntil (terminator : ascii) (length : nat) (stream : string)
  : string * string :=
  match length with
  | O => (EmptyString, stream)
  | S n =>
      match stream with
      | EmptyString => (EmptyString, EmptyString)
      | String c rest =>
          if Ascii.eqb c terminator then (EmptyString, rest)
          else let '(buf, rest') := readBytesUntil terminator n rest in
               (String c buf, rest')
      end
  end.

(** ** Pure parts of [ReadButtons], lines 185-213 *)

Definition button_of_voltage (buttonVoltage : Z) : Z :=
  if buttonVoltage <? RIGHT_10BIT + HYSTERESIS then RIGHT
  else if (UP_10BIT - HYSTERESIS <=? buttonVoltage)
          && (buttonVoltage <=? UP_10BIT + HYSTERESIS) then UP
  else if (DOWN_10BIT - HYSTERESIS <=? buttonVoltage)
          && (buttonVoltage <=? DOWN_10BIT + HYSTERESIS) then DOWN
  else if (LEFT_10BIT - HYSTERESIS <=? buttonVoltage)
          && (buttonVoltage <=? LEFT_10BIT + HYSTERESIS) then LEFT
  else if (SELECT_10BIT - HYSTERESIS <=? buttonVoltage)
          && (buttonVoltage <=? SELECT_10BIT + HYSTERESIS) then SELECT
  else BUTTON_NONE.

(** The button a poll samples. *)
Definition sampled (p : poll) : Z := button_of_voltage (wrap_uint (adc p)).

Section Sketch.

Context {T : Target}.

(** ** Outputs *)

Inductive event : Type :=
| LcdClear
| LcdBegin (cols rows : Z)
| LcdSetCursor (col row : Z)
| LcdPrint (s : string)
| LcdPrintInt (n : Z)
| LcdPrintFloat (v : float) (digits : Z)
| OrpPrint (s : string)
| SerialPrint (s : string)
| SerialPrintInt (n : Z)
| SerialPrintFloat (v : float) (digits : Z)
| DigitalWrite (pin : Z) (level : bool)
| Delay (ms : Z).

(** ** Globals *)

Record state : Type := mkState {
  buttonJustPressed : bool;
  buttonJustReleased : bool;
  buttonWas : Z;
  sensor_data : string;
  ORP : float;
  ORPvalue : float;
  avgORP : float;
  string_received : Z;
  logData : bool;
  nextDataPoint : Z;
  logFreq : Z;
  received_from_sensor : Z;
  counter : Z;
  (** receive buffer of [orpSerial] *)
  orp_rx : string
}.

(** The initialisers of lines 73-91; [nextDataPoint] has none and is
    zero-initialised. *)
Definition init : state :=
  {| buttonJustPressed := false;
     buttonJustReleased := false;
     buttonWas := BUTTON_NONE;
     sensor_data := EmptyString;
     ORP := f_of_Z 0;
     ORPvalue := f_of_Z 0;
     avgORP := f_of_Z 0;
     string_received := 0;
     logData := false;
     nextDataPoint := 0;
     logFreq := 5;
     received_from_sensor := 0;
     counter := 1;
     orp_rx := EmptyString |}.

Definition set_buttonJustPressed (v : bool) (s : state) : state :=
  mkState v (buttonJustReleased s) (buttonWas s) (sensor_data s) (ORP s)
    (ORPvalue s) (avgORP s) (string_received s) (logData s)
    (nextDataPoint s) (logFreq s) (received_from_sensor s) (counter s)
    (orp_rx s).
Definition set_buttonJustReleased (v : bool) (s : state) : state :=
  mkState (buttonJustPressed s) v (buttonWas s) (sensor_data s) (ORP s)
    (ORPvalue s) (avgORP s) (string_received s) (logData s)
    (nextDataPoint s) (logFreq s) (received_from_sensor s) (counter s)
    (orp_rx s).
Definition set_buttonWas (v : Z) (s : state) : state :=
  mkState (buttonJustPressed s) (buttonJustReleased s) v (sensor_data s)
    (ORP s) (ORPvalue s) (avgORP s) (string_received s) (logData s)
    (nextDataPoint s) (logFreq s) (received_from_sensor s) (counter s)
    (orp_rx s).
Definition set_sensor_data (v : string) (s : state) : state :=
  mkState (buttonJustPressed s) (buttonJustReleased s) (buttonWas s) v
    (ORP s) (ORPvalue s) (avgORP s) (string_received s) (logData s)
    (nextDataPoint s) (logFreq s) (received_from_sensor s) (counter s)
    (orp_rx s).
Definition set_ORP (v : float) (s : state) : state :=
  mkState (buttonJustPressed s) (buttonJustReleased s) (buttonWas s)
    (sensor_data s) v (ORPvalue s) (avgORP s) (string_received s)
    (logData s) (nextDataPoint s) (logFreq s) (received_from_sensor s)
    (counter s) (orp_rx s).
Definition set_ORPvalue (v : float) (s : state) : state :=
  mkState (buttonJustPressed s) (buttonJustReleased s) (buttonWas s)
    (sensor_data s) (ORP s) v (avgORP s) (string_received s) (logData s)
    (nextDataPoint s) (logFreq s) (received_from_sensor s) (counter s)
    (orp_rx s).
Definition set_avgORP (v : float) (s : state) : state :=
  mkState (buttonJustPressed s) (buttonJustReleased s) (buttonWas s)
    (sensor_data s) (ORP s) (ORPvalue s) v (string_received s) (logData s)
    (nextDataPoint s) (logFreq s) (received_from_sensor s) (counter s)
    (orp_rx s).
Definition set_string_received (v : Z) (s : state) : state :=
  mkState (buttonJustPressed s) (buttonJustReleased s) (buttonWas s)
    (sensor_data s) (ORP s) (ORPvalue s) (avgORP s) v (logData s)
    (nextDataPoint s) (logFreq s) (received_from_sensor s) (counter s)
    (orp_rx s).
Definition set_logData (v : bool) (s : state) : state :=
  mkState (buttonJustPressed s) (buttonJustReleased s) (buttonWas s)
    (sensor_data s) (ORP s) (ORPvalue s) (avgORP s) (string_received s) v
    (nextDataPoint s) (logFreq s) (received_from_sensor s) (counter s)
    (orp_rx s).
Definition set_nextDataPoint (v : Z) (s : state) : state :=
  mkState (buttonJustPressed s) (buttonJustReleased s) (buttonWas s)
    (sensor_data s) (ORP s) (ORPvalue s) (avgORP s) (string_received s)
    (logData s) v (logFreq s) (received_from_sensor s) (counter s)
    (orp_rx s).
Definition set_logFreq (v : Z) (s : state) : state :=
  mkState (buttonJustPressed s) (buttonJustReleased s) (buttonWas s)
    (sensor_data s) (ORP s) (ORPvalue s) (avgORP s) (string_received s)
    (logData s) (nextDataPoint s) v (received_from_sensor s) (counter s)
    (orp_rx s).
Definition set_received_from_sensor (v : Z) (s : state) : state :=
  mkState (buttonJustPressed s) (buttonJustReleased s) (buttonWas s)
    (sensor_data s) (ORP s) (ORPvalue s) (avgORP s) (string_received s)
    (logData s) (nextDataPoint s) (logFreq s) v (counter s) (orp_rx s).
Definition set_counter (v : Z) (s : state) : state :=
  mkState (buttonJustPressed s) (buttonJustReleased s) (buttonWas s)
    (sensor_data s) (ORP s) (ORPvalue s) (avgORP s) (string_received s)
    (logData s) (nextDataPoint s) (logFreq s) (received_from_sensor s) v
    (orp_rx s).
Definition set_orp_rx (v : string) (s : state) : state :=
  mkState (buttonJustPressed s) (buttonJustReleased s) (buttonWas s)
    (sensor_data s) (ORP s) (ORPvalue s) (avgORP s) (string_received s)
    (logData s) (nextDataPoint s) (logFreq s) (received_from_sensor s)
    (counter s) v.

(** ** The monad: globals threaded, outputs appended *)

Definition M (A : Type) : Type := state -> A * state * list event.

Definition ret {A : Type} (a : A) : M A := fun s => (a, s, []).

Definition bind {A B : Type} (m : M A) (k : A -> M B) : M B :=
  fun s =>
    let '(a, s1, t1) := m s in
    let '(b, s2, t2) := k a s1 in
    (b, s2, t1 ++ t2).

Definition gets {A : Type} (f : state -> A) : M A := fun s => (f s, s, []).
Definition modify (f : state -> state) : M unit := fun s => (tt, f s, []).
Definition emit (e : event) : M unit := fun s => (tt, s, [e]).
Definition when (b : bool) (m : M unit) : M unit := if b then m else ret tt.

Definition value {A : Type} (m : M A) (s : state) : A := fst (fst (m s)).
Definition exec {A : Type} (m : M A) (s : state) : state := snd (fst (m s)).
Definition trace {A : Type} (m : M A) (s : state) : list event := snd (m s).

End Sketch.

Declare Scope sketch_scope.
Delimit Scope sketch_scope with sketch.
Notation "x <- m ;; k" := (bind m (fun x => k))
  (at level 61, m at next level, right associativity) : sketch_scope.
Notation "m ;; k" := (bind m (fun _ => k))
  (at level 61, right associativity) : sketch_scope.
#[local] Open Scope sketch_scope.

(** ** The functions of the sketch *)

Section Program.

Context {T : Target}.

(** Bytes from the sensor enter the receive buffer of [orpSerial] behind
    the sketch's back; every polling iteration starts by accounting for
    what arrived since the previous one. *)
Definition serial_arrive (bytes : string) : M unit :=
  modify (fun s => set_orp_rx (orp_rx s ++ bytes)%string s).

(** [setup], lines 101-137; pin modes and the start of the buses, the
    clock and the two serial ports leave no trace. *)
Definition setup : M unit :=
  emit (DigitalWrite BUTTON_ADC false) ;;
  emit (DigitalWrite logPin false) ;;
  emit (DigitalWrite BACKLIGHT true) ;;
  emit (OrpPrint (cmd "e")) ;;
  emit (Delay 50) ;;
  emit (OrpPrint (cmd "e")) ;;
  emit (Delay 50) ;;
  emit (LcdBegin 16 2) ;;
  emit (LcdPrint "Starting up...").

(** [print_padded_digit], lines 153-159. *)
Definition print_padded_digit (value : Z) : M unit :=
  when (value <? 10) (emit (LcdPrint "0")) ;;
  emit (LcdPrintInt value).

(** [print_date], lines 162-168. *)
Definition print_date (now : DateTime) : M unit :=
  emit (LcdSetCursor DATE_COL DATE_ROW) ;;
  print_padded_digit (month now) ;;
  emit (LcdPrint "/") ;;
  print_padded_digit (day now).

(** [print_time], lines 171-179. *)
Definition print_time (now : DateTime) : M unit :=
  emit (LcdSetCursor TIME_COL TIME_ROW) ;;
  print_padded_digit (hour now) ;;
  emit (LcdPrint ":") ;;
  print_padded_digit (minute now) ;;
  emit (LcdPrint ":") ;;
  print_padded_digit (second now).

(** [ReadButtons], lines 182-228; [a0] is what [analogRead] returns. *)
Definition ReadButtons (a0 : Z) : M Z :=
  let buttonVoltage := wrap_uint a0 in
  let button := button_of_voltage buttonVoltage in
  was <- gets buttonWas ;;
  when ((was =? BUTTON_NONE) && negb (button =? BUTTON_NONE))
    (modify (set_buttonJustPressed true) ;;
     modify (set_buttonJustReleased false)) ;;
  was <- gets buttonWas ;;
  when (negb (was =? BUTTON_NONE) && (button =? BUTTON_NONE))
    (modify (set_buttonJustPressed false) ;;
     modify (set_buttonJustReleased true)) ;;
  modify (set_buttonWas button) ;;
  ret button.

(** [LogData], lines 231-254. *)
Definition LogData (ORPvalue : float) (now : DateTime) : M unit :=
  when (month now <? 10) (emit (SerialPrint "0")) ;;
  emit (SerialPrintInt (month now)) ;;
  emit (SerialPrint "/") ;;
  when (day now <? 10) (emit (SerialPrint "0")) ;;
  emit (SerialPrintInt (day now)) ;;
  emit (SerialPrint "/") ;;
  emit (SerialPrintInt (year now)) ;;
  emit (SerialPrint ",") ;;
  when (hour now <? 10) (emit (SerialPrint "0")) ;;
  emit (SerialPrintInt (hour now)) ;;
  emit (SerialPrint ":") ;;
  when (minute now <? 10) (emit (SerialPrint "0")) ;;
  emit (SerialPrintInt (minute now)) ;;
  emit (SerialPrint ":") ;;
  when (second now <? 10) (emit (SerialPrint "0")) ;;
  emit (SerialPrintInt (second now)) ;;
  emit (SerialPrint ",") ;;
  emit (SerialPrintFloat ORPvalue 2) ;;
  emit (SerialPrint (String LF EmptyString)).

(** [getORPdata], lines 372-393.  The function returns at line 391; the
    assignment [string_received = 0] of line 392 is never reached.
    [sensor_data] is kept as the C string it holds; a response of 20
    characters puts its terminating NUL one past the array, which is not
    modelled. *)
Definition getORPdata : M float :=
  available <- gets (fun s => Z.of_nat (String.length (orp_rx s))) ;;
  when (0 <? available)
    (stream <- gets orp_rx ;;
     let '(line, rest) := readBytesUntil CR 20 stream in
     modify (set_orp_rx rest) ;;
     modify (set_received_from_sensor
               (wrap_byte (Z.of_nat (String.length line)))) ;;
     modify (set_sensor_data line) ;;
     modify (set_string_received 1)) ;;
  emit (OrpPrint (cmd "R")) ;;
  received <- gets string_received ;;
  when (received =? 1)
    (data <- gets sensor_data ;;
     modify (set_ORP (atof data))) ;;
  gets ORP.

(** The averaging block, lines 328-337 of [loop] and 407-416 of
    [startCalibration]. *)
Definition average_ORP : M unit :=
  c <- gets counter ;;
  if c <? 4 then
    avg <- gets avgORP ;;
    reading <- getORPdata ;;
    modify (set_avgORP (fdiv (fadd avg reading) (f_of_Z c))) ;;
    modify (set_counter (wrap_byte (c + 1)))
  else
    modify (set_counter 1) ;;
    avg <- gets avgORP ;;
    modify (set_ORPvalue avg).

(** Arduino's macro [abs(x)]: [((x)>0?(x):-(x))]. *)
Definition abs (x : float) : float :=
  if fltb (f_of_Z 0) x then x else fneg x.

(** The column chosen by magnitude, lines 340-347 and 419-426. *)
Definition orpPos_of (v : float) : Z :=
  if fleb (f_of_Z 1) (abs (fdiv v (f_of_Z 1000))) then 9
  else if fleb (f_of_Z 1) (abs (fdiv v (f_of_Z 100))) then 10
  else if fleb (f_of_Z 1) (abs (fdiv v (f_of_Z 10))) then 11
  else 12.

(** The display block, lines 339-354 of [loop] and 418-433 of
    [startCalibration]. *)
Definition show_ORPvalue : M unit :=
  v <- gets ORPvalue ;;
  let orpPos := orpPos_of v in
  let orpPos :=
    if fltb v (f_of_Z 0) then wrap_byte (postdec_assign orpPos)
    else orpPos in
  emit (LcdSetCursor orpPos 1) ;;
  emit (LcdPrintFloat v 0) ;;
  emit (LcdSetCursor 14 1) ;;
  emit (LcdPrint "mV").

(** The logging check, lines 356-367 of [loop]. *)
Definition check_logging (now : DateTime) : M unit :=
  active <- gets logData ;;
  when active
    (emit (LcdSetCursor 0 1) ;;
     emit (LcdPrint "Logging") ;;
     next <- gets nextDataPoint ;;
     when (next <=? unixtime now)
       (v <- gets ORPvalue ;;
        LogData v now ;;
        freq <- gets logFreq ;;
        modify (set_nextDataPoint (wrap_ulong (unixtime now + freq))))).

(** One pass through the body of the do-while of [startCalibration],
    lines 406-441; returns the button sampled. *)
Definition calibration_pass (p : poll) : M Z :=
  serial_arrive (rx p) ;;
  average_ORP ;;
  show_ORPvalue ;;
  button <- ReadButtons (adc p) ;;
  when (button =? UP) (emit (OrpPrint (cmd "+"))) ;;
  when (button =? DOWN) (emit (OrpPrint (cmd "-"))) ;;
  when (button =? SELECT) (emit (OrpPrint (cmd "X"))) ;;
  emit (Delay 320) ;;
  ret button.

(** [do ... while (button != LEFT)]: the loop runs as long as polls are
    supplied; [true] when it was left, [false] when the polls ran out with
    the sketch still inside it. *)
Fixpoint calibration_loop (ps : list poll) : M bool :=
  match ps with
  | [] => ret false
  | p :: ps' =>
      button <- calibration_pass p ;;
      if negb (button =? LEFT) then calibration_loop ps' else ret true
  end.

(** [startCalibration], lines 396-444. *)
Definition startCalibration (ps : list poll) : M bool :=
  emit LcdClear ;;
  emit (LcdSetCursor 0 0) ;;
  emit (LcdPrint "Calibration") ;;
  emit (LcdSetCursor 0 1) ;;
  emit (LcdPrint "LFT=EXIT") ;;
  emit (OrpPrint (cmd "C")) ;;
  left <- calibration_loop ps ;;
  if left : bool then emit (OrpPrint (cmd "E")) ;; ret true else ret false.

(** The prompt and the interval, lines 457-470 of [setLogFreq]. *)
Definition show_logFreq : M unit :=
  emit LcdClear ;;
  emit (LcdSetCursor 0 0) ;;
  emit (LcdPrint "Set log freq") ;;
  emit (LcdSetCursor 0 1) ;;
  emit (LcdPrint "RT=EXIT") ;;
  emit (LcdSetCursor 13 1) ;;
  emit (LcdPrint "sec") ;;
  freq <- gets logFreq ;;
  (if freq <? 10 then emit (LcdSetCursor 11 1)
   else if freq <? 100 then emit (LcdSetCursor 10 1)
   else emit (LcdSetCursor 9 1)) ;;
  emit (LcdPrintInt freq).

(** One pass through the body of the do-while of [setLogFreq], lines
    451-472; returns the button sampled. *)
Definition logfreq_pass (p : poll) : M Z :=
  serial_arrive (rx p) ;;
  button <- ReadButtons (adc p) ;;
  when (button =? UP)
    (modify (fun s => set_logFreq (wrap_long (logFreq s + 5)) s)) ;;
  when (button =? DOWN)
    (modify (fun s => set_logFreq (wrap_long (logFreq s - 5)) s)) ;;
  freq <- gets logFreq ;;
  when (freq <? 5) (modify (set_logFreq 5)) ;;
  show_logFreq ;;
  emit (Delay 200) ;;
  ret button.

(** [do ... while (button != RIGHT)], as [calibration_loop]. *)
Fixpoint logfreq_loop (ps : list poll) : M bool :=
  match ps with
  | [] => ret false
  | p :: ps' =>
      button <- logfreq_pass p ;;
      if negb (button =? RIGHT) then logfreq_loop ps' else ret true
  end.

(** [setLogFreq], lines 447-474. *)
Definition setLogFreq (ps : list poll) : M bool := logfreq_loop ps.

(** The [switch] of [loop], lines 278-324; [true] when control comes back
    to [loop].  The statements that reset the two edge flags (lines
    320-323) stand inside the switch body after the last [break]: no case
    label leads to them, they are never executed. *)
Definition dispatch (button : Z) (now : DateTime) (sub : list poll)
  : M bool :=
  if button =? BUTTON_NONE then ret true
  else if button =? RIGHT then startCalibration sub
  else if button =? UP then ret true
  else if button =? DOWN then ret true
  else if button =? LEFT then setLogFreq sub
  else if button =? SELECT then
    modify (fun s => set_logData (negb (logData s)) s) ;;
    active <- gets logData ;;
    (if active : bool then
       emit (DigitalWrite logPin true) ;;
       v <- gets ORPvalue ;;
       LogData v now ;;
       freq <- gets logFreq ;;
       modify (set_nextDataPoint (wrap_ulong (unixtime now + freq)))
     else emit (DigitalWrite logPin false)) ;;
    ret true
  else ret true.

(** Lines 258-275 of [loop]: fresh canvas, date and time, the button
    poll, and the feedback row blanked while an edge flag is up. *)
Definition loop_head (c : cycle) : M Z :=
  serial_arrive (rx (c_poll c)) ;;
  emit LcdClear ;;
  print_date (c_now c) ;;
  print_time (c_now c) ;;
  button <- ReadButtons (adc (c_poll c)) ;;
  pressed <- gets buttonJustPressed ;;
  released <- gets buttonJustReleased ;;
  when (pressed || released)
    (emit (LcdSetCursor 0 1) ;; emit (LcdPrint "       ")) ;;
  ret button.

(** Lines 326-368 of [loop]: average, display, logging check, delay. *)
Definition loop_tail (now : DateTime) : M bool :=
  average_ORP ;;
  show_ORPvalue ;;
  check_logging now ;;
  emit (Delay 320) ;;
  ret true.

(** [loop], lines 256-369: one main-loop cycle.  [false] when the cycle
    is still inside a sub-loop after the polls supplied for it. *)
Definition loop (c : cycle) : M bool :=
  button <- loop_head c ;;
  back <- dispatch button (c_now c) (c_sub c) ;;
  if back : bool then loop_tail (c_now c) else ret false.

(** The Arduino runtime calls [loop] again and again. *)
Fixpoint run (cs : list cycle) : M bool :=
  match cs with
  | [] => ret true
  | c :: cs' =>
      back <- loop c ;;
      if back : bool then run cs' else ret false
  end.

(** The states the sketch can be in at the end of a polling iteration:
    [run] stops inside a sub-loop when the polls supplied for it run out,
    so the ends of the passes of the two sub-loops are among them. *)
Definition reachable (s : state) : Prop :=
  exists cs : list cycle, exec (setup ;; run cs) init = s.

End Program.

(** ** Two targets *)

(** A reader for plain decimal numerals (blanks, a sign, digits, a point,
    digits), which is what the sensor sends; it stands for libc's [atof] in
    the two targets below.  Reading stops at the first character that does
    not fit; no digits at all read as zero.  An exponent, INF and NAN,
    which libc's [atof] reads too, are not modelled: the reader is used on
    plain decimals only, and what holds of every line is stated with the
    [atof] of an arbitrary target. *)
Module Decimal.

Definition digit (c : ascii) : option Z :=
  let n := Z.of_nat (nat_of_ascii c) in
  if (48 <=? n) && (n <=? 57) then Some (n - 48) else None.

(** Digits read so far as a number, and how many were read. *)
Fixpoint digits (s : string) (acc n : Z) : Z * Z * string :=
  match s with
  | EmptyString => (acc, n, s)
  | String c rest =>
      match digit c with
      | Some d => digits rest (10 * acc + d) (n + 1)
      | None => (acc, n, s)
      end
  end.

Fixpoint skip_blanks (s : string) : string :=
  match s with
  | String c rest => if Ascii.eqb c " " then skip_blanks rest else s
  | EmptyString => s
  end.

(** [(negative, m, k)] stands for [m / 10^k], negated when [negative]. *)
Definition read (s : string) : bool * Z * Z :=
  let s := skip_blanks s in
  let '(negative, s) :=
    match s with
    | String c rest =>
        if Ascii.eqb c "-" then (true, rest)
        else if Ascii.eqb c "+" then (false, rest)
        else (false, s)
    | EmptyString => (false, s)
    end in
  let '(whole, _, s) := digits s 0 0 in
  match s with
  | String c rest =>
      if Ascii.eqb c "." then
        let '(m, k, _) := digits rest whole 0 in (negative, m, k)
      else (negative, whole, 0)
  | EmptyString => (negative, whole, 0)
  end.

End Decimal.

(** IEEE-754 binary32 with round-to-nearest-even, the [float] of avr-gcc,
    and the C++17 reading of [orpPos = orpPos--] (the old value is stored
    last). *)
Module Binary32.

Definition prec : Z := 24.
Definition emax : Z := 128.

Definition of_Z (z : Z) : spec_float := binary_normalize prec emax z 0 false.

Definition parse (s : string) : spec_float :=
  let '(negative, m, k) := Decimal.read s in
  let q := SFdiv prec emax (of_Z m) (of_Z (10 ^ k)) in
  if negative : bool then SFopp q else q.

Definition target : Target := {|
  float := spec_float;
  f_of_Z := of_Z;
  fadd := SFadd prec emax;
  fdiv := SFdiv prec emax;
  fneg := SFopp;
  fltb := SFltb;
  fleb := SFleb;
  atof := parse;
  postdec_assign := fun orpPos => orpPos
|}.

End Binary32.

(** Exact rational arithmetic, every result in lowest terms: what the
    sketch computes when no operation rounds. *)
Module Exact.

Definition of_Z (z : Z) : Q := inject_Z z.

Definition parse (s : string) : Q :=
  let '(negative, m, k) := Decimal.read s in
  let q := Qred (inject_Z m / inject_Z (10 ^ k)) in
  if negative : bool then Qred (- q) else q.

Definition target : Target := {|
  float := Q;
  f_of_Z := of_Z;
  fadd := fun x y => Qred (x + y);
  fdiv := fun x y => Qred (x / y);
  fneg := fun x => Qred (- x);
  fltb := fun x y => negb (Qle_bool y x);
  fleb := Qle_bool;
  atof := parse;
  postdec_assign := fun orpPos => orpPos
|}.

End Exact.


(** ** The console pass-through and the printing of integers *)

(** The characters of a C string: what comes before the first NUL. *)
Fixpoint c_str (s : string) : string :=
  match s with
  | EmptyString => EmptyString
  | String c rest =>
      if Ascii.eqb c (ascii_of_nat 0) then EmptyString
      else String c (c_str rest)
  end.

(** [pc_debug], line 94; nothing in the sketch writes to it. *)
Definition pc_debug : Z := 1.

(** The loop of Arduino's [Print::printNumber] in base 10: the last digit
    of [n] is put in front of [str] and [n] is divided by 10, until [n] is
    0; at most [fuel] digits. *)
Fixpoint printNumber_loop (fuel : nat) (n : Z) (str : string) : string :=
  match fuel with
  | O => str
  | S fuel' =>
      let str' := String (ascii_of_nat (Z.to_nat (48 + n mod 10))) str in
      if n / 10 =? 0 then str' else printNumber_loop fuel' (n / 10) str'
  end.

(** A number below [2^(k+1)] has at most [k+1] decimal digits. *)
Definition printNumber (n : Z) : string :=
  printNumber_loop (S (Z.to_nat (Z.log2 n))) n EmptyString.

(** [print(n, DEC)] of an integer: a minus sign, then the digits. *)
Definition decimal (n : Z) : string :=
  if n <? 0 then String "-" (printNumber (- n)) else printNumber n.

(** The two globals of the console pass-through, lines 95-96, which
    nothing else in the sketch reads or writes; [computerdata] holds the 20
    characters of the array. *)
Record console : Type := mkConsole {
  received_from_computer : Z;
  computerdata : string
}.

(** The array after [bytes] were stored from its first element on. *)
Fixpoint store (bytes array : string) : string :=
  match bytes, array with
  | String c bytes', String _ array' => String c (store bytes' array')
  | _, _ => array
  end.

(** The array after [c] was put at index [i]; no element has an index
    from the length of the array on. *)
Fixpoint put (i : nat) (c : ascii) (array : string) : string :=
  match array, i with
  | EmptyString, _ => EmptyString
  | String _ array', O => String c array'
  | String x array', S j => String x (put j c array')
  end.

Section Console.

Context {T : Target}.

(** [serialEvent], lines 141-150; [serial] is what the hardware serial
    port holds and [g] the two globals.  The result is what is left on the
    port and the two globals, or [None] when [readBytesUntil] has filled
    the 20 characters of [computerdata]: line 146 then writes the
    terminator at index 20, past the array, and what the sketch does from
    there on is not defined.  [computerdata] is printed as the C string it
    holds. *)
Definition serialEvent (serial : string) (g : console)
  : M (option (string * console)) :=
  if pc_debug =? 1 then
    let '(bytes, rest) := readBytesUntil CR 20 serial in
    let received := wrap_byte (Z.of_nat (String.length bytes)) in
    let data := store bytes (computerdata g) in
    if received <? 20 then
      let data := put (Z.to_nat received) (ascii_of_nat 0) data in
      emit (OrpPrint (c_str data)) ;;
      emit (OrpPrint (String CR EmptyString)) ;;
      ret (Some (rest, mkConsole received data))
    else ret None
  else ret (Some (serial, g)).

End Console.
(** ** Vocabulary of the statements *)

Section Vocabulary.

Context {T : Target}.

(** [m] keeps the property [I] of the globals. *)
Definition keeps {A : Type} (I : state -> Prop) (m : M A) : Prop :=
  forall s, I s -> I (exec m s).

(** Every event [m] produces satisfies [P]. *)
Definition emits {A : Type} (P : event -> Prop) (m : M A) : Prop :=
  forall s, Forall P (trace m s).

(** What is written to the sensor port, in order. *)
Definition sensor_tx (t : list event) : list string :=
  flat_map (fun e => match e with OrpPrint c => [c] | _ => [] end) t.

(** The same without the read requests ["R\r"] of [getORPdata]. *)
Definition calibration_tx (t : list event) : list string :=
  filter (fun c => negb (String.eqb c (cmd "R"))) (sensor_tx t).

(** The characters written to the logger port that end a record. *)
Definition records (t : list event) : nat :=
  List.length
    (filter (fun e => match e with
                      | SerialPrint c => String.eqb c (String LF EmptyString)
                      | _ => false
                      end) t).

(** The values written to the logger port, each with the number of
    decimals asked for, in order. *)
Definition logged (t : list event) : list (float * Z) :=
  flat_map (fun e => match e with
                     | SerialPrintFloat v digits => [(v, digits)]
                     | _ => []
                     end) t.

(** The passes a trace went through, counted by their delays. *)
Definition delays (ms : Z) (t : list event) : nat :=
  List.length
    (filter (fun e => match e with Delay d => d =? ms | _ => false end) t).

Definition to_display (e : event) : Prop :=
  match e with
  | LcdClear | LcdBegin _ _ | LcdSetCursor _ _ | LcdPrint _
  | LcdPrintInt _ | LcdPrintFloat _ _ | Delay _ => True
  | _ => False
  end.

Definition no_delay (e : event) : Prop :=
  match e with Delay _ => False | _ => True end.

Definition not_to_sensor (e : event) : Prop :=
  match e with OrpPrint _ => False | _ => True end.

(** Nothing is sent to the sensor but read requests. *)
Definition read_request_only (e : event) : Prop :=
  match e with OrpPrint c => c = cmd "R" | _ => True end.

(** The globals of the measurement chain, those the buttons, the clock
    and the logger never write. *)
Definition measurement (s : state)
  : string * float * float * float * Z * Z :=
  (sensor_data s, ORP s, ORPvalue s, avgORP s, string_received s, counter s).

(** The reading in [ORP] is the one parsed from the stored line. *)
Definition parsed (s : state) : Prop :=
  string_received s = 1 -> ORP s = atof (sensor_data s).

Definition counter_in_range (s : state) : Prop := 1 <= counter s <= 4.

(** What the display block writes for the value [v] put at column [col]. *)
Definition shown (col : Z) (v : float) : list event :=
  [LcdSetCursor col 1; LcdPrintFloat v 0; LcdSetCursor 14 1; LcdPrint "mV"].

(** The averaging block fed one response line per pass. *)
Definition averaged (lines : list string) : state :=
  fold_left (fun s l => exec (serial_arrive l ;; average_ORP) s) lines init.

End Vocabulary.

(** The polls of a sub-loop up to and including the first that samples
    [button], which is where a [do ... while (button != ...)] stops. *)
Fixpoint until (button : Z) (ps : list poll) : list poll :=
  match ps with
  | [] => []
  | p :: ps' => if sampled p =? button then [p] else p :: until button ps'
  end.

Definition samples (button : Z) (ps : list poll) : bool :=
  existsb (fun p => sampled p =? button) ps.

(** What the calibration session forwards for a sampled button. *)
Definition relay (button : Z) : list string :=
  if button =? UP then [cmd "+"]
  else if button =? DOWN then [cmd "-"]
  else if button =? SELECT then [cmd "X"]
  else [].

(** The logging interval after a sampled button: steps of 5, never below 5. *)
Definition adjust (freq button : Z) : Z :=
  if button =? UP then freq + 5
  else if button =? DOWN then Z.max 5 (freq - 5)
  else freq.

(** A response line as the sensor sends it. *)
Definition line (s : string) : string := (s ++ String CR EmptyString)%string.


(** The column the display block gives a value that is not negative. *)
Definition column (v : Q) : Z :=
  if Qle_bool 1000 v then 9
  else if Qle_bool 100 v then 10
  else if Qle_bool 10 v then 11
  else 12.

(** The number a binary32 datum stands for, when it stands for one:
    the mantissa times two to the exponent, with the sign. *)
Definition number (v : spec_float) : option Q :=
  match v with
  | S754_zero _ => Some 0%Q
  | S754_finite s m e =>
      let q := if 0 <=? e then inject_Z (Zpos m * 2 ^ e)
               else Qmake (Zpos m) (Z.to_pos (2 ^ (- e))) in
      Some (if s then (- q)%Q else q)
  | _ => None
  end.

(** What the rounding of binary32 returns for a mantissa [mr] of at most
    24 bits and an exponent [er]. *)
Definition pack (mr er : Z) : spec_float :=
  match mr with
  | Z0 => S754_zero false
  | Zpos p =>
      if er <=? 104 then S754_finite false p er else S754_infinity false
  | Zneg _ => S754_nan
  end.

(** Inputs used in the examples. *)
Definition some_morning : DateTime := mkDateTime 2014 3 9 7 5 0 1394348700.
Definition idle : poll := mkPoll "" 1023.
Definition press (a0 : Z) : poll := mkPoll "" a0.
Definition quiet_cycle : cycle := mkCycle some_morning idle [].
Definition select_cycle : cycle := mkCycle some_morning (press 741) [].
(** A cycle that samples RIGHT, and a session in which UP, DOWN, SELECT,
    nothing and LEFT are sampled, with an UP that comes too late. *)
Definition calibration_cycle : cycle :=
  mkCycle some_morning (press 5)
    [press 145; press 329; press 741; idle; press 505; press 145].
(** A cycle during which the sensor answers 30 and no button is down. *)
Definition reading_cycle : cycle :=
  mkCycle some_morning (mkPoll (line "30") 1023) [].


(** ** Vocabulary of the further properties *)

(** The character of a decimal digit, and a number below 100 written with
    two digits. *)
Definition digit_char (d : Z) : ascii := ascii_of_nat (Z.to_nat (48 + d)).

Definition two_digits (x : Z) : string :=
  String (digit_char (x / 10)) (String (digit_char (x mod 10)) EmptyString).

Definition NUL : ascii := ascii_of_nat 0.

(** Clock fields that take two digits at most. *)
Definition two_digit_fields (now : DateTime) : Prop :=
  0 <= month now < 100 /\ 0 <= day now < 100 /\ 0 <= hour now < 100
  /\ 0 <= minute now < 100 /\ 0 <= second now < 100.

(** A cycle that enters no sub-loop. *)
Definition plain (c : cycle) : Prop :=
  sampled (c_poll c) <> RIGHT /\ sampled (c_poll c) <> LEFT.

(** A response the sensor can send as one line: fewer than 20 characters,
    no carriage return among them. *)
Definition response (l : string) : Prop :=
  ~ In CR (list_ascii_of_string l) /\ (String.length l < 20)%nat.

(** A receive buffer from which [readBytesUntil] takes fewer than 20
    characters: a carriage return stands among its first 20 characters,
    or it holds fewer than 20 characters at all. *)
Definition short_line (buffer : string) : Prop :=
  (exists l rest,
      buffer = (l ++ String CR rest)%string /\ (String.length l < 20)%nat)
  \/ (String.length buffer < 20)%nat.

(** What the sensor sends when it keeps to its protocol: whole lines,
    each a response. *)
Fixpoint lines (ls : list string) : string :=
  match ls with
  | [] => EmptyString
  | l :: ls' => (line l ++ lines ls')%string
  end.

Definition framed (bytes : string) : Prop :=
  exists ls, Forall response ls /\ bytes = lines ls.

(** A cycle during which the sensor keeps to its protocol, in the main
    loop and in every pass of a sub-loop. *)
Definition in_protocol (c : cycle) : Prop :=
  framed (rx (c_poll c)) /\ Forall (fun p => framed (rx p)) (c_sub c).

(** A console line of 20 characters and the array [computerdata] as the
    start-up code leaves it. *)
Definition twenty : string := "12345678901234567890".

Definition cleared : console :=
  mkConsole 0 (string_of_list_ascii (repeat NUL 20)).

Section MoreExamples.

Context {T : Target}.

(** The press flag is up exactly when a button was down at the last
    poll, and the release flag is up only when none was. *)
Definition flags_follow_level (s : state) : Prop :=
  buttonJustPressed s = negb (buttonWas s =? BUTTON_NONE)
  /\ (buttonJustReleased s = true -> buttonWas s = BUTTON_NONE).

(** One of the two edge flags is up. *)
Definition flagged (s : state) : Prop :=
  buttonJustPressed s || buttonJustReleased s = true.

(** The invariant of the stored line while the sensor keeps to its
    protocol: whole lines wait in the receive buffer, the stored line and
    its terminator fit the 20 characters of [sensor_data],
    [received_from_sensor] is its length, [string_received] is 0 or 1, and
    while it is 0 nothing is stored and [ORP] is still 0. *)
Definition line_in_bounds (s : state) : Prop :=
  framed (orp_rx s)
  /\ (String.length (sensor_data s) < 20)%nat
  /\ received_from_sensor s = Z.of_nat (String.length (sensor_data s))
  /\ (string_received s = 0 \/ string_received s = 1)
  /\ (string_received s = 0 ->
      sensor_data s = EmptyString /\ ORP s = f_of_Z 0).

Definition not_to_logger (e : event) : Prop :=
  match e with
  | SerialPrint _ | SerialPrintInt _ | SerialPrintFloat _ _ => False
  | _ => True
  end.

(** What is written to the logger port, in order. *)
Definition logger_tx (t : list event) : list event :=
  filter (fun e => match e with
                   | SerialPrint _ | SerialPrintInt _ | SerialPrintFloat _ _ =>
                       true
                   | _ => false
                   end) t.

(** The characters of the strings and integers among the events. *)
Definition text (e : event) : string :=
  match e with
  | LcdPrint c | SerialPrint c => c
  | LcdPrintInt n | SerialPrintInt n => decimal n
  | _ => EmptyString
  end.

Definition text_of (t : list event) : string :=
  fold_right (fun e rest => (text e ++ rest)%string) EmptyString t.

(** Events that print at the cursor of the display without moving it
    elsewhere. *)
Definition at_cursor (e : event) : Prop :=
  match e with LcdPrint _ | LcdPrintInt _ => True | _ => False end.

(** The two globals of the logging schedule. *)
Definition schedule (s : state) : bool * Z := (logData s, nextDataPoint s).

Definition interval_in_range (s : state) : Prop :=
  5 <= logFreq s <= LONG_MAX.

(** The averaging block run once per element of [arrivals], each pass
    after the bytes of that element have come in. *)
Definition folded (arrivals : list string) (s : state) : state :=
  fold_left (fun s bytes => exec (serial_arrive bytes ;; average_ORP) s)
    arrivals s.

(** The globals with the given bytes in the receive buffer. *)
Definition holding (bytes : string) : state := set_orp_rx bytes init.

End MoreExamples.
(** * Properties *)

Section MonadFacts.

Context {T : Target}.

Lemma value_bind {A B : Type} (m : M A) (k : A -> M B) (s : state) :
  value (bind m k) s = value (k (value m s)) (exec m s).
Proof.
  unfold value, exec, bind.
  destruct (m s) as [[a s1] t1]; cbn.
  destruct (k a s1) as [[b s2] t2]; reflexivity.
Qed.

Lemma exec_bind {A B : Type} (m : M A) (k : A -> M B) (s : state) :
  exec (bind m k) s = exec (k (value m s)) (exec m s).
Proof.
  unfold value, exec, bind.
  destruct (m s) as [[a s1] t1]; cbn.
  destruct (k a s1) as [[b s2] t2]; reflexivity.
Qed.

Lemma trace_bind {A B : Type} (m : M A) (k : A -> M B) (s : state) :
  trace (bind m k) s = trace m s ++ trace (k (value m s)) (exec m s).
Proof.
  unfold value, exec, trace, bind.
  destruct (m s) as [[a s1] t1]; cbn.
  destruct (k a s1) as [[b s2] t2]; reflexivity.
Qed.

Lemma run_eq {A : Type} (m : M A) (s : state) :
  m s = (value m s, exec m s, trace m s).
Proof.
  unfold value, exec, trace. destruct (m s) as [[a s1] t1]; reflexivity.
Qed.

Lemma bind_cong {A B : Type} (m : M A) (k k' : A -> M B) (s : state) :
  k (value m s) (exec m s) = k' (value m s) (exec m s) ->
  bind m k s = bind m k' s.
Proof.
  unfold value, exec, bind.
  destruct (m s) as [[a s1] t1]; cbn. intros ->. reflexivity.
Qed.

Lemma value_ret {A : Type} (a : A) (s : state) : value (ret a) s = a.
Proof. reflexivity. Qed.
Lemma exec_ret {A : Type} (a : A) (s : state) : exec (ret a) s = s.
Proof. reflexivity. Qed.
Lemma trace_ret {A : Type} (a : A) (s : state) : trace (ret a) s = [].
Proof. reflexivity. Qed.

Lemma value_gets {A : Type} (f : state -> A) (s : state) :
  value (gets f) s = f s.
Proof. reflexivity. Qed.
Lemma exec_gets {A : Type} (f : state -> A) (s : state) :
  exec (gets f) s = s.
Proof. reflexivity. Qed.
Lemma trace_gets {A : Type} (f : state -> A) (s : state) :
  trace (gets f) s = [].
Proof. reflexivity. Qed.

Lemma exec_modify (f : state -> state) (s : state) : exec (modify f) s = f s.
Proof. reflexivity. Qed.
Lemma trace_modify (f : state -> state) (s : state) : trace (modify f) s = [].
Proof. reflexivity. Qed.

Lemma exec_emit (e : event) (s : state) : exec (emit e) s = s.
Proof. reflexivity. Qed.
Lemma trace_emit (e : event) (s : state) : trace (emit e) s = [e].
Proof. reflexivity. Qed.

(** *** Rules for [keeps] *)

Lemma keeps_ret {A : Type} (I : state -> Prop) (a : A) : keeps I (ret a).
Proof. intros s H; exact H. Qed.

Lemma keeps_gets {A : Type} (I : state -> Prop) (f : state -> A) :
  keeps I (gets f).
Proof. intros s H; exact H. Qed.

Lemma keeps_emit (I : state -> Prop) (e : event) : keeps I (emit e).
Proof. intros s H; exact H. Qed.

Lemma keeps_modify (I : state -> Prop) (f : state -> state) :
  (forall s, I s -> I (f s)) -> keeps I (modify f).
Proof. intros Hf s H; apply Hf, H. Qed.

Lemma keeps_bind {A B : Type} (I : state -> Prop) (m : M A) (k : A -> M B) :
  keeps I m -> (forall a, keeps I (k a)) -> keeps I (bind m k).
Proof.
  intros Hm Hk s H. rewrite exec_bind. apply Hk, Hm, H.
Qed.

Lemma keeps_when (I : state -> Prop) (b : bool) (m : M unit) :
  keeps I m -> keeps I (when b m).
Proof. destruct b; cbn; [trivial | intros _; apply keeps_ret]. Qed.

(** *** Rules for [emits] *)

Lemma emits_ret {A : Type} (P : event -> Prop) (a : A) : emits P (ret a).
Proof. intros s; constructor. Qed.

Lemma emits_gets {A : Type} (P : event -> Prop) (f : state -> A) :
  emits P (gets f).
Proof. intros s; constructor. Qed.

Lemma emits_modify (P : event -> Prop) (f : state -> state) :
  emits P (modify f).
Proof. intros s; constructor. Qed.

Lemma emits_emit (P : event -> Prop) (e : event) : P e -> emits P (emit e).
Proof. intros H s; repeat constructor; exact H. Qed.

Lemma emits_bind {A B : Type} (P : event -> Prop) (m : M A) (k : A -> M B) :
  emits P m -> (forall a, emits P (k a)) -> emits P (bind m k).
Proof.
  intros Hm Hk s. rewrite trace_bind.
  apply Forall_app; split; [apply Hm | apply Hk].
Qed.

Lemma emits_when (P : event -> Prop) (b : bool) (m : M unit) :
  emits P m -> emits P (when b m).
Proof. destruct b; cbn; [trivial | intros _; apply emits_ret]. Qed.

End MonadFacts.

Create Rewrite HintDb run.

#[global] Hint Rewrite @value_bind @exec_bind @trace_bind @value_ret @exec_ret
  @trace_ret @value_gets @exec_gets @trace_gets @exec_modify @trace_modify
  @exec_emit @trace_emit : run.

(** Syntax-directed proofs of [keeps] and [emits]: the rules above, case
    analysis on tests, and the facts already among the hypotheses. *)
Ltac step_rules side :=
  first
    [ apply keeps_ret | apply keeps_gets | apply keeps_emit
    | apply keeps_when
    | apply keeps_modify; intros ? ?; side
    | apply emits_ret | apply emits_gets | apply emits_modify
    | apply emits_when
    | apply emits_emit; cbn; solve [trivial | reflexivity]
    | solve [auto with nocore]
    | apply keeps_bind; [ | intros ? ]
    | apply emits_bind; [ | intros ? ]
    | match goal with
      | |- keeps _ (if ?b then _ else _) => destruct b
      | |- emits _ (if ?b then _ else _) => destruct b
      | |- keeps _ (let '(_, _) := ?p in _) => destruct p
      | |- emits _ (let '(_, _) := ?p in _) => destruct p
      end ].

Ltac stepwise := repeat (step_rules ltac:(cbn; solve [auto | lia])).

(** Reading a global back after a chain of assignments. *)
Ltac fields :=
  cbn [buttonJustPressed buttonJustReleased buttonWas sensor_data ORP ORPvalue
       avgORP string_received logData nextDataPoint logFreq
       received_from_sensor counter orp_rx
       set_buttonJustPressed set_buttonJustReleased set_buttonWas
       set_sensor_data set_ORP set_ORPvalue set_avgORP set_string_received
       set_logData set_nextDataPoint set_logFreq set_received_from_sensor
       set_counter set_orp_rx] in *.

(** Running a computation symbolically: the equations of the monad, and a
    case for every test met on the way. *)
Ltac crunch :=
  repeat (autorewrite with run;
          try match goal with
              | |- context [when ?b _] => destruct b eqn:?; cbn [when]
              | |- context [let '(_, _) := ?p in _] => destruct p eqn:?
              end).

Section Frames.

Context {T : Target}.

(** What [analogRead] returned decides the button, whatever the globals. *)
Lemma ReadButtons_value (a0 : Z) (s : state) :
  value (ReadButtons a0) s = button_of_voltage (wrap_uint a0).
Proof.
  unfold ReadButtons. repeat rewrite value_bind. reflexivity.
Qed.

Lemma ReadButtons_silent (a0 : Z) (s : state) : trace (ReadButtons a0) s = [].
Proof.
  unfold ReadButtons, bind, gets, when, modify, ret, trace; cbn.
  destruct (_ && _); destruct (_ && _); reflexivity.
Qed.

End Frames.

(** ** Counting passes *)

Section Passes.

Context {T : Target}.

Lemma delays_app (ms : Z) (t1 t2 : list event) :
  delays ms (t1 ++ t2) = (delays ms t1 + delays ms t2)%nat.
Proof. unfold delays. rewrite filter_app. apply length_app. Qed.

Lemma delays_none (ms : Z) (t : list event) :
  Forall no_delay t -> delays ms t = 0%nat.
Proof.
  induction 1 as [| e t He _ IH]; [reflexivity |].
  destruct e; cbn in *; try exact IH. contradiction.
Qed.

Lemma delays_emits {A : Type} (ms : Z) (m : M A) (s : state) :
  emits no_delay m -> delays ms (trace m s) = 0%nat.
Proof. intros H. apply delays_none, H. Qed.

End Passes.

(** ** Buttons *)

Section Buttons.

Context {T : Target}.

(** The bands of [ReadButtons] as the code draws them: RIGHT reaches up
    to 9, the other four include both ends. *)
Lemma button_of_voltage_bands (v : Z) :
  0 <= v ->
  (v <= 9 -> button_of_voltage v = RIGHT)
  /\ (135 <= v <= 155 -> button_of_voltage v = UP)
  /\ (319 <= v <= 339 -> button_of_voltage v = DOWN)
  /\ (495 <= v <= 515 -> button_of_voltage v = LEFT)
  /\ (731 <= v <= 751 -> button_of_voltage v = SELECT)
  /\ (10 <= v < 135 \/ 155 < v < 319 \/ 339 < v < 495 \/ 515 < v < 731
      \/ 751 < v -> button_of_voltage v = BUTTON_NONE).
Proof.
  intros Hv. unfold button_of_voltage, RIGHT_10BIT, UP_10BIT, DOWN_10BIT,
    LEFT_10BIT, SELECT_10BIT, HYSTERESIS.
  repeat split; intros H;
    repeat match goal with
           | |- context [?a <? ?b] => destruct (Z.ltb_spec a b); try lia
           | |- context [?a <=? ?b] => destruct (Z.leb_spec a b); try lia
           end; cbn; try reflexivity; lia.
Qed.

(** C4, evaluated where it fails: a reading of 10 counts lies within 10
    counts of RIGHT's level 0 and within no other band, and [ReadButtons]
    answers BUTTON_NONE, because RIGHT's test is a strict [<] where the
    other four include the upper end of the band. *)
Theorem ReadButtons_at_10 (s : state) :
  Z.abs (10 - RIGHT_10BIT) <= HYSTERESIS
  /\ value (ReadButtons 10) s = BUTTON_NONE
  /\ value (ReadButtons (UP_10BIT + HYSTERESIS)) s = UP.
Proof.
  rewrite !ReadButtons_value. repeat split. vm_compute; discriminate.
Qed.

End Buttons.

(** ** The data logger *)

Section Logger.

Context {T : Target}.

Lemma LogData_exec (v : float) (now : DateTime) (s : state) :
  exec (LogData v now) s = s.
Proof.
  unfold LogData, when.
  repeat match goal with
         | |- context [if ?b then _ else _] => destruct b
         end; reflexivity.
Qed.

(** A call of [LogData] writes one record, whatever the date. *)
Lemma LogData_one_record (v : float) (now : DateTime) (s : state) :
  records (trace (LogData v now) s) = 1%nat.
Proof.
  unfold LogData, when.
  repeat match goal with
         | |- context [if ?b then _ else _] => destruct b
         end; reflexivity.
Qed.

(** The record of [LogData]: a stamp that holds no value and no line
    feed, then the value with two decimals, then the line feed. *)
Lemma LogData_record (v : float) (now : DateTime) (s : state) :
  exists stamp,
    trace (LogData v now) s
    = stamp ++ [SerialPrintFloat v 2; SerialPrint (String LF EmptyString)]
    /\ logged stamp = [] /\ records stamp = 0%nat.
Proof.
  exists (removelast (removelast (trace (LogData v now) s))).
  unfold LogData, when.
  destruct (month now <? 10), (day now <? 10), (hour now <? 10),
    (minute now <? 10), (second now <? 10);
    (split; [| split]); reflexivity.
Qed.

(** C2: while logging is active, the check of [loop] writes nothing to
    the logger and leaves every global as it is when the clock is before
    [nextDataPoint]; from [nextDataPoint] on it writes exactly one record,
    which ends with the published value [ORPvalue], printed with two
    decimals, and a line feed, no other value and no other line feed being
    written, and sets [nextDataPoint] to the clock plus [logFreq] (the sum
    fits the 32 bits of the variable). *)
Theorem check_logging_cadence (now : DateTime) (s : state) :
  logData s = true ->
  0 <= unixtime now + logFreq s <= ULONG_MAX ->
  (unixtime now < nextDataPoint s ->
     exec (check_logging now) s = s
     /\ trace (check_logging now) s
        = [LcdSetCursor 0 1; LcdPrint "Logging"]
     /\ records (trace (check_logging now) s) = 0%nat
     /\ logged (trace (check_logging now) s) = [])
  /\ (nextDataPoint s <= unixtime now ->
     exec (check_logging now) s
     = set_nextDataPoint (unixtime now + logFreq s) s
     /\ nextDataPoint (exec (check_logging now) s)
        = unixtime now + logFreq s
     /\ trace (check_logging now) s
        = [LcdSetCursor 0 1; LcdPrint "Logging"]
          ++ trace (LogData (ORPvalue s) now) s
     /\ records (trace (check_logging now) s) = 1%nat
     /\ logged (trace (check_logging now) s) = [(ORPvalue s, 2)]
     /\ exists stamp,
          trace (check_logging now) s
          = [LcdSetCursor 0 1; LcdPrint "Logging"] ++ stamp
            ++ [SerialPrintFloat (ORPvalue s) 2;
                SerialPrint (String LF EmptyString)]
          /\ logged stamp = [] /\ records stamp = 0%nat).
Proof.
  intros Hon Hfit.
  assert (Hwrap : wrap_ulong (unixtime now + logFreq s)
                  = unixtime now + logFreq s).
  { unfold wrap_ulong, ULONG_MAX in *. apply Z.mod_small. lia. }
  unfold check_logging. split; intros Hdue.
  - autorewrite with run. rewrite Hon. cbn [when].
    autorewrite with run.
    destruct (Z.leb_spec (nextDataPoint s) (unixtime now)); [lia |].
    cbn. auto.
  - autorewrite with run. rewrite Hon. cbn [when].
    autorewrite with run.
    destruct (Z.leb_spec (nextDataPoint s) (unixtime now)); [| lia].
    cbn [when]. autorewrite with run. rewrite LogData_exec.
    autorewrite with run. rewrite Hwrap. cbn [app].
    rewrite app_nil_r.
    destruct (LogData_record (ORPvalue s) now s) as (stamp & Hst & Hlg & Hrc).
    split; [reflexivity |]. split; [reflexivity |].
    split; [reflexivity |]. split; [| split].
    + change (records (LcdSetCursor 0 1 :: LcdPrint "Logging"
                         :: trace (LogData (ORPvalue s) now) s))
        with (records (trace (LogData (ORPvalue s) now) s)).
      apply LogData_one_record.
    + change (logged (LcdSetCursor 0 1 :: LcdPrint "Logging"
                        :: trace (LogData (ORPvalue s) now) s))
        with (logged (trace (LogData (ORPvalue s) now) s)).
      rewrite Hst. unfold logged. rewrite flat_map_app.
      fold (logged stamp). rewrite Hlg. reflexivity.
    + exists stamp. rewrite Hst. repeat split; assumption.
Qed.

End Logger.

Lemma check_logging_cadence_witness :
  let s := set_nextDataPoint (T := Binary32.target) 1394348700
             (set_logData true init) in
  records (trace (check_logging some_morning) s) = 1%nat
  /\ nextDataPoint (exec (check_logging some_morning) s) = 1394348705.
Proof.
  cbv zeta.
  destruct (check_logging_cadence (T := Binary32.target) some_morning
              (set_nextDataPoint (T := Binary32.target) 1394348700
                 (set_logData true init)))
    as [_ H].
  - reflexivity.
  - vm_compute. split; discriminate.
  - destruct H as (_ & Hnext & _ & Hrec & _).
    + vm_compute. discriminate.
    + split; [exact Hrec | exact Hnext].
Defined.

(** ** The averaging block *)

Section Averager.

Context {T : Target}.

Lemma getORPdata_counter (s : state) : counter (exec getORPdata s) = counter s.
Proof.
  unfold getORPdata. crunch; reflexivity.
Qed.

(** What a pass through the averaging block does to [counter]. *)
Lemma average_ORP_counter (s : state) :
  counter (exec average_ORP s)
  = if counter s <? 4 then wrap_byte (counter s + 1) else 1.
Proof.
  unfold average_ORP. autorewrite with run.
  destruct (counter s <? 4); autorewrite with run; reflexivity.
Qed.

(** With nothing in the receive buffer, [getORPdata] sends its read
    request, reads nothing, and hands back the reading it holds. *)
Lemma getORPdata_nothing_arrived (s : state) :
  orp_rx s = EmptyString -> parsed s ->
  getORPdata s = (ORP s, s, [OrpPrint (cmd "R")]).
Proof.
  intros Hrx Hp. rewrite run_eq. unfold getORPdata.
  autorewrite with run. rewrite Hrx.
  cbn [String.length Z.of_nat Z.ltb Z.compare when].
  autorewrite with run.
  destruct (Z.eqb_spec (string_received s) 1) as [H1 | H1]; cbn [when];
    autorewrite with run; [| reflexivity].
  rewrite <- (Hp H1). destruct s; reflexivity.
Qed.

End Averager.

(** C1, as stated, fails: from the fresh averager, folding the reading 10
    leaves 10 in [avgORP], not 5, and the next two folds leave 15 and 15,
    above the 12.5 and 14.17 of the claim. *)
Lemma first_fold_is_not_5 :
  avgORP (averaged (T := Binary32.target) [line "10"]) <> Binary32.of_Z 5
  /\ SFltb (Binary32.of_Z 13)
       (avgORP (averaged (T := Binary32.target) [line "10"; line "20"]))
     = true
  /\ SFltb (Binary32.parse "14.5")
       (avgORP (averaged (T := Binary32.target)
                  [line "10"; line "20"; line "30"]))
     = true.
Proof. repeat split. vm_compute; discriminate. Qed.

(** C1, amended: with the responses 10, 20, 30, 40 arriving one per pass,
    the block divides by the counter before incrementing it:
    [avgORP] is 10 after the first pass (counter 2), 15 after the second
    (counter 3) and 15 after the third (counter 4), nothing being published
    so far; the fourth pass folds nothing: it resets the counter to 1,
    publishes 15 and leaves the response 40 unread.  The same values come
    out in binary32 and in exact arithmetic. *)
Theorem averaged_10_20_30_40 :
  let B := Binary32.target in
  let E := Exact.target in
  let one := [line "10"] in
  let two := [line "10"; line "20"] in
  let three := [line "10"; line "20"; line "30"] in
  let four := [line "10"; line "20"; line "30"; line "40"] in
  (avgORP (averaged (T := B) one) = Binary32.of_Z 10
   /\ counter (averaged (T := B) one) = 2
   /\ avgORP (averaged (T := B) two) = Binary32.of_Z 15
   /\ counter (averaged (T := B) two) = 3
   /\ avgORP (averaged (T := B) three) = Binary32.of_Z 15
   /\ counter (averaged (T := B) three) = 4
   /\ ORPvalue (averaged (T := B) three) = Binary32.of_Z 0
   /\ avgORP (averaged (T := B) four) = Binary32.of_Z 15
   /\ counter (averaged (T := B) four) = 1
   /\ ORPvalue (averaged (T := B) four) = Binary32.of_Z 15
   /\ ORP (averaged (T := B) four) = Binary32.of_Z 30
   /\ orp_rx (averaged (T := B) four) = line "40")
  /\ (avgORP (averaged (T := E) one) = 10%Q
      /\ counter (averaged (T := E) one) = 2
      /\ avgORP (averaged (T := E) two) = 15%Q
      /\ counter (averaged (T := E) two) = 3
      /\ avgORP (averaged (T := E) three) = 15%Q
      /\ counter (averaged (T := E) three) = 4
      /\ avgORP (averaged (T := E) four) = 15%Q
      /\ counter (averaged (T := E) four) = 1
      /\ ORPvalue (averaged (T := E) four) = 15%Q).
Proof. vm_compute. repeat split. Qed.

(** ** The display block *)

(** C3, as stated, fails: a published value of 123.45 is put at column 10,
    not 11, in binary32 as in exact arithmetic. *)
Lemma column_of_123_45 :
  trace (T := Binary32.target) show_ORPvalue
    (set_ORPvalue (T := Binary32.target) (Binary32.parse "123.45") init)
  = shown (T := Binary32.target) 10 (Binary32.parse "123.45")
  /\ hd_error (trace (T := Binary32.target) show_ORPvalue
                 (set_ORPvalue (T := Binary32.target)
                    (Binary32.parse "123.45") init))
     <> Some (LcdSetCursor (T := Binary32.target) 11 1)
  /\ trace (T := Exact.target) show_ORPvalue
       (set_ORPvalue (T := Exact.target) (Exact.parse "123.45") init)
     = shown (T := Exact.target) 10 (Exact.parse "123.45").
Proof.
  assert (H : trace (T := Binary32.target) show_ORPvalue
                (set_ORPvalue (T := Binary32.target)
                   (Binary32.parse "123.45") init)
              = shown (T := Binary32.target) 10 (Binary32.parse "123.45"))
    by reflexivity.
  split; [exact H |]. split; [| reflexivity].
  rewrite H. cbn [shown hd_error]. intros C. injection C as C. discriminate C.
Qed.

(** *** Binary32 division against a threshold

    [show_ORPvalue] divides the value by 1000, 100 and 10 and compares the
    quotient with 1.  The lemmas below follow the division and the
    rounding of binary32 through: the rounded quotient is at least 1
    exactly when the value is at least the divisor. *)

Lemma digits2_size (p : positive) : digits2_pos p = Pos.size p.
Proof. induction p; cbn; congruence. Qed.

Lemma Zdigits2_bounds (q : Z) :
  0 < q -> 2 ^ (Zdigits2 q - 1) <= q < 2 ^ Zdigits2 q.
Proof.
  intros H. destruct q as [| p | p]; try lia.
  cbn [Zdigits2]. rewrite digits2_size.
  pose proof (Pos.size_le p) as L. pose proof (Pos.size_gt p) as G.
  apply Pos2Z.pos_le_pos in L. apply Pos2Z.pos_lt_pos in G.
  rewrite Pos2Z.inj_pow in L, G.
  replace (Z.pos (Pos.size p)) with (Z.succ (Z.pos (Pos.size p) - 1)) in L
    by lia.
  rewrite Z.pow_succ_r in L by lia.
  change (Z.pos 2) with 2 in *. lia.
Qed.

(** The number of binary digits, from bounds. *)
Lemma Zdigits2_eq (q d : Z) :
  0 < d -> 2 ^ (d - 1) <= q < 2 ^ d -> Zdigits2 q = d.
Proof.
  intros Hd [L G].
  assert (Hq : 0 < q) by (pose proof (Z.pow_pos_nonneg 2 (d - 1)); lia).
  destruct (Zdigits2_bounds q Hq) as [L' G'].
  assert (Hp : 0 < Zdigits2 q) by (destruct q; cbn; lia).
  assert (d - 1 < Zdigits2 q)
    by (apply (Z.pow_lt_mono_r_iff 2); lia).
  assert (Zdigits2 q - 1 < d)
    by (apply (Z.pow_lt_mono_r_iff 2); lia).
  lia.
Qed.

Lemma Zdigits2_le (q d : Z) : 0 <= d -> 0 <= q < 2 ^ d -> Zdigits2 q <= d.
Proof.
  intros Hd [L G]. destruct (Z.eq_dec q 0) as [-> | N]; [cbn; lia |].
  destruct (Zdigits2_bounds q ltac:(lia)) as [L' G'].
  assert (Zdigits2 q - 1 < d)
    by (apply (Z.pow_lt_mono_r_iff 2); lia).
  lia.
Qed.


Lemma fexp_eq (x : Z) : fexp 24 128 x = Z.max (x - 24) (-149).
Proof. reflexivity. Qed.

Lemma shr_nonpos (mrs : shr_record) (e n : Z) :
  n <= 0 -> shr mrs e n = (mrs, e).
Proof. intros H. destruct n; try reflexivity. lia. Qed.

Lemma rne_bounds (m : Z) (l : location) :
  m <= round_nearest_even m l <= m + 1.
Proof.
  destruct l as [| []]; cbn; try lia. destruct (Z.even m); lia.
Qed.

Lemma loc_of_loc (m : Z) (l : location) :
  loc_of_shr_record (shr_record_of_loc m l) = l
  /\ shr_m (shr_record_of_loc m l) = m.
Proof. destruct l as [| []]; split; reflexivity. Qed.

(** The second shift of [binary_round_aux]: a carry out of the 24 bits. *)
Lemma stage2 (m2 e1 : Z) :
  0 <= m2 <= 2 ^ 24 -> -149 <= e1 ->
  (let '(mrs, e2) := shr_fexp 24 128 m2 e1 loc_Exact in
   match shr_m mrs with
   | Z0 => S754_zero false
   | Zpos m => if e2 <=? 128 - 24 then S754_finite false m e2
               else S754_infinity false
   | Zneg _ => S754_nan
   end)
  = if m2 <? 2 ^ 24 then pack m2 e1 else pack (2 ^ 23) (e1 + 1).
Proof.
  intros Hm He. unfold shr_fexp. rewrite fexp_eq.
  destruct (Z.ltb_spec m2 (2 ^ 24)) as [Hlt | Hge].
  - pose proof (Zdigits2_le m2 24 ltac:(lia) ltac:(lia)).
    rewrite shr_nonpos by lia. reflexivity.
  - assert (m2 = 2 ^ 24) as -> by lia.
    change (Zdigits2 (2 ^ 24)) with 25.
    replace (Z.max (25 + e1 - 24) (-149) - e1) with 1 by lia.
    reflexivity.
Qed.

Lemma round_small (q e' : Z) (l : location) :
  0 <= q < 2 ^ 24 -> -149 <= e' ->
  exists mr,
    q <= mr <= q + 1
    /\ binary_round_aux 24 128 false q e' l
       = if mr <? 2 ^ 24 then pack mr e' else pack (2 ^ 23) (e' + 1).
Proof.
  intros Hq He. exists (round_nearest_even q l).
  split; [apply rne_bounds |].
  unfold binary_round_aux. unfold shr_fexp at 1. rewrite fexp_eq.
  pose proof (Zdigits2_le q 24 ltac:(lia) ltac:(lia)).
  rewrite shr_nonpos by lia.
  destruct (loc_of_loc q l) as [-> ->].
  apply stage2; [| exact He].
  pose proof (rne_bounds q l). lia.
Qed.

Lemma shr_1_half (p : positive) (r s : bool) :
  shr_m (shr_1 (Build_shr_record (Zpos p) r s)) = Zpos p / 2.
Proof.
  destruct p as [p | p |]; cbn [shr_1 shr_m].
  - rewrite Pos2Z.inj_xI. apply Z.div_unique with 1; lia.
  - rewrite Pos2Z.inj_xO. apply Z.div_unique with 0; lia.
  - reflexivity.
Qed.

Lemma round_big (q e' : Z) (l : location) :
  2 ^ 24 <= q < 2 ^ 25 -> -149 <= e' ->
  exists mr,
    q / 2 <= mr <= q / 2 + 1
    /\ binary_round_aux 24 128 false q e' l
       = if mr <? 2 ^ 24 then pack mr (e' + 1)
         else pack (2 ^ 23) (e' + 2).
Proof.
  intros Hq He.
  assert (Hd : Zdigits2 q = 25) by (apply Zdigits2_eq; lia).
  destruct q as [| p | p]; try lia.
  set (mrs := shr_1 (shr_record_of_loc (Zpos p) l)).
  exists (round_nearest_even (shr_m mrs) (loc_of_shr_record mrs)).
  assert (Hm : shr_m mrs = Zpos p / 2)
    by (subst mrs; destruct l as [| []]; apply shr_1_half).
  split; [rewrite <- Hm; apply rne_bounds |].
  unfold binary_round_aux. unfold shr_fexp at 1. rewrite fexp_eq, Hd.
  replace (Z.max (25 + e' - 24) (-149) - e') with 1 by lia.
  cbn [shr iter_pos]. fold mrs.
  replace (e' + 2) with (e' + 1 + 1) by lia.
  apply stage2; [| lia].
  pose proof (rne_bounds (shr_m mrs) (loc_of_shr_record mrs)).
  assert (Zpos p / 2 < 2 ^ 24) by (apply Z.div_lt_upper_bound; lia).
  assert (0 <= Zpos p / 2) by (apply Z.div_pos; lia).
  lia.
Qed.

Lemma bounded_facts (m : positive) (e : Z) :
  bounded 24 128 m e = true ->
  1 <= Zdigits2 (Zpos m) <= 24 /\ -149 <= e <= 104
  /\ (Zdigits2 (Zpos m) = 24 \/ e = -149)
  /\ 2 ^ (Zdigits2 (Zpos m) - 1) <= Zpos m < 2 ^ Zdigits2 (Zpos m).
Proof.
  unfold bounded, canonical_mantissa. rewrite fexp_eq.
  intros H. apply andb_true_iff in H as [Hc He].
  apply Z.eqb_eq in Hc. apply Z.leb_le in He.
  pose proof (Zdigits2_bounds (Zpos m) ltac:(lia)).
  change (Zpos (digits2_pos m)) with (Zdigits2 (Zpos m)) in Hc.
  assert (0 < Zdigits2 (Zpos m)) by (cbn; lia).
  repeat split; try lia.
Qed.

Lemma SFdiv_finite (m mc : positive) (e ec : Z) :
  bounded 24 128 m e = true ->
  2 ^ 23 < Zpos mc < 2 ^ 24 -> -24 < ec < 0 ->
  0 < e - ec - Z.max (Zdigits2 (Zpos m) + e - 48 - ec) (-149)
  /\ SFdiv 24 128 (S754_finite false m e) (S754_finite false mc ec)
     = binary_round_aux 24 128 false
         ((Zpos m * 2 ^ (e - ec - Z.max (Zdigits2 (Zpos m) + e - 48 - ec)
                                  (-149)))
          / Zpos mc)
         (Z.max (Zdigits2 (Zpos m) + e - 48 - ec) (-149))
         (new_location (Zpos mc)
            ((Zpos m * 2 ^ (e - ec - Z.max (Zdigits2 (Zpos m) + e - 48 - ec)
                                     (-149)))
             mod Zpos mc)).
Proof.
  intros Hb Hmc Hec.
  destruct (bounded_facts m e Hb) as (Hd & He & Hn & Hm).
  set (e' := Z.max (Zdigits2 (Zpos m) + e - 48 - ec) (-149)).
  assert (Hs : 0 < e - ec - e') by (subst e'; lia).
  split; [exact Hs |].
  unfold SFdiv, SFdiv_core_binary. cbn [xorb].
  rewrite (Zdigits2_eq (Zpos mc) 24) by lia.
  rewrite fexp_eq.
  replace (Z.max (Zdigits2 (Zpos m) + e - (24 + ec) - 24) (-149)) with e'
    by (subst e'; f_equal; lia).
  rewrite Z.min_l by (subst e'; lia).
  destruct (e - ec - e') as [| sp | sp] eqn:Es; try lia.
  rewrite Z.shiftl_mul_pow2 by lia.
  unfold Z.div, Z.modulo.
  destruct (Z.div_eucl (Zpos m * 2 ^ Zpos sp) (Zpos mc)) as [q r].
  reflexivity.
Qed.

(** The comparison of [show_ORPvalue], in binary32. *)
Lemma compare_with_1 (x : spec_float) :
  fleb (Target := Binary32.target) (f_of_Z 1)
    (abs (T := Binary32.target) x)
  = SFleb (S754_finite false 8388608 (-23))
      (if SFltb (S754_zero false) x then x else SFopp x).
Proof. reflexivity. Qed.

Lemma pack_ge (mr er : Z) :
  2 ^ 23 <= mr -> -23 <= er ->
  fleb (Target := Binary32.target) (f_of_Z 1)
    (abs (T := Binary32.target) (pack mr er)) = true.
Proof.
  intros Hm He. rewrite compare_with_1.
  destruct mr as [| p | p]; try lia.
  unfold pack. destruct (er <=? 104); [| reflexivity].
  cbn [SFltb SFcompare]. unfold SFleb. cbn [SFcompare].
  destruct (Z.compare_spec (-23) er) as [E | L | G];
    [| reflexivity | lia].
  rewrite Pos.compare_cont_spec. cbn [Pos.switch_Eq].
  destruct (Pos.compare_spec 8388608 p) as [| |G]; try reflexivity. lia.
Qed.

Lemma pack_lt (mr er : Z) :
  0 <= mr -> er < -23 ->
  fleb (Target := Binary32.target) (f_of_Z 1)
    (abs (T := Binary32.target) (pack mr er)) = false.
Proof.
  intros Hm He. rewrite compare_with_1.
  destruct mr as [| p | p]; try lia; [reflexivity |].
  unfold pack. destruct (Z.leb_spec er 104); [| lia].
  cbn [SFltb SFcompare]. unfold SFleb. cbn [SFcompare].
  destruct (Z.compare_spec (-23) er) as [E | L | G];
    [lia | lia | reflexivity].
Qed.

(** A binary32 number divided by a binary32 number [mc * 2^ec] that is
    no power of two rounds to at least 1 exactly when it is at least the
    divisor. *)
Lemma binary32_threshold (m mc : positive) (e ec : Z) :
  bounded 24 128 m e = true ->
  2 ^ 23 < Zpos mc < 2 ^ 24 -> -24 < ec < 0 ->
  fleb (Target := Binary32.target) (f_of_Z 1)
    (abs (T := Binary32.target)
       (fdiv (Target := Binary32.target)
          (S754_finite false m e) (S754_finite false mc ec)))
  = (ec <? e) || ((e =? ec) && (Zpos mc <=? Zpos m)).
Proof.
  intros Hb Hmc Hec.
  change (fdiv (Target := Binary32.target)) with (SFdiv 24 128).
  destruct (SFdiv_finite m mc e ec Hb Hmc Hec) as [Hs ->].
  destruct (bounded_facts m e Hb) as (Hd & He & Hn & Hm).
  set (d := Zdigits2 (Zpos m)) in *.
  set (e' := Z.max (d + e - 48 - ec) (-149)) in *.
  set (s := e - ec - e') in *.
  set (q := Zpos m * 2 ^ s / Zpos mc).
  set (l := new_location _ _).
  assert (He' : -149 <= e') by (subst e'; lia).
  assert (Hq0 : 0 <= q) by (apply Z.div_pos; [apply Z.mul_nonneg_nonneg |]; lia).
  assert (Hq25 : q < 2 ^ 25).
  { apply Z.div_lt_upper_bound; [lia |].
    assert (2 ^ s <= 2 ^ (48 - d))
      by (apply Z.pow_le_mono_r; subst s e'; lia).
    assert (Zpos m * 2 ^ s < 2 ^ d * 2 ^ (48 - d)).
    { apply Z.le_lt_trans with (Zpos m * 2 ^ (48 - d)).
      - apply Z.mul_le_mono_nonneg_l; lia.
      - apply Z.mul_lt_mono_pos_r; [apply Z.pow_pos_nonneg; lia | lia]. }
    rewrite <- Z.pow_add_r in H0 by lia.
    replace (d + (48 - d)) with 48 in H0 by lia.
    change (2 ^ 48) with (2 ^ 25 * 2 ^ 23) in H0. nia. }
  (* the outcome of rounding, in every case *)
  assert (Hout : exists mr er,
             binary_round_aux 24 128 false q e' l = pack mr er
             /\ 0 <= mr /\ e' <= er <= e' + 2
             /\ (2 ^ 23 <= q -> 2 ^ 23 <= mr)
             /\ (2 ^ 24 <= q -> e' + 1 <= er)
             /\ (er = e' + 2 -> 2 ^ 25 - 2 <= q)
             /\ (er = e' + 1 -> 2 ^ 24 - 1 <= q)).
  { destruct (Z_lt_le_dec q (2 ^ 24)) as [Hsm | Hbg].
    - destruct (round_small q e' l ltac:(lia) He') as (mr & Hmr & ->).
      destruct (Z.ltb_spec mr (2 ^ 24)).
      + exists mr, e'. repeat split; lia.
      + exists (2 ^ 23), (e' + 1). repeat split; lia.
    - destruct (round_big q e' l ltac:(lia) He') as (mr & Hmr & ->).
      assert (2 ^ 23 <= q / 2) by (apply Z.div_le_lower_bound; lia).
      destruct (Z.ltb_spec mr (2 ^ 24)).
      + exists mr, (e' + 1). repeat split; lia.
      + exists (2 ^ 23), (e' + 2). repeat split; try lia.
        intros _.
        assert (2 ^ 24 - 1 <= q / 2) by lia.
        pose proof (Z.mul_div_le q 2 ltac:(lia)). lia. }
  destruct Hout as (mr & er & -> & Hmr0 & Her & Hmr & Hsh & Hc2 & Hc1).
  destruct (Z.ltb_spec ec e) as [Hgt | Hle]; cbn [orb].
  - (* above the divisor's binade *)
    assert (d = 24) by lia.
    assert (e' = e - ec - 24) by (subst e'; lia).
    assert (s = 24) by (subst s; lia).
    apply pack_ge; [| lia]. apply Hmr.
    subst q. apply Z.div_le_lower_bound; [lia |]. rewrite H1.
    rewrite H in Hm. change (2 ^ (24 - 1)) with 8388608 in Hm.
    change (2 ^ 24) with 16777216 in *. change (2 ^ 23) with 8388608 in *.
    lia.
  - destruct (Z.eqb_spec e ec) as [Heq | Hne]; cbn [andb].
    + assert (d = 24) by lia.
      assert (e' = -24) by (subst e'; lia).
      assert (s = 24) by (subst s; lia).
      destruct (Z.leb_spec (Zpos mc) (Zpos m)) as [Hmm | Hmm].
      * assert (2 ^ 24 <= q)
          by (subst q; apply Z.div_le_lower_bound; [lia |]; rewrite H1;
              change (2 ^ 24) with 16777216; lia).
        apply pack_ge; [apply Hmr; lia |]. specialize (Hsh H2). lia.
      * assert (q < 2 ^ 24 - 1).
        { subst q. apply Z.div_lt_upper_bound; [lia |]. rewrite H1.
          assert (Zpos m <= Zpos mc - 1) by lia.
          assert (Zpos m * 2 ^ 24 <= (Zpos mc - 1) * 2 ^ 24)
            by (apply Z.mul_le_mono_nonneg_r; lia).
          lia. }
        apply pack_lt; [exact Hmr0 |].
        destruct (Z.eq_dec er e') as [-> | N]; [lia |].
        destruct (Z.eq_dec er (e' + 1)) as [E1 | N1];
          [specialize (Hc1 E1); lia |].
        assert (E2 : er = e' + 2) by lia. specialize (Hc2 E2). lia.
    + (* below the divisor's binade *)
      assert (He25 : e' <= -25) by (subst e'; lia).
      apply pack_lt; [exact Hmr0 |].
      destruct (Z.eq_dec er (e' + 2)) as [E2 | N2]; [| lia].
      specialize (Hc2 E2).
      destruct (Z.eq_dec e' (-25)) as [E25 | N25]; [| lia].
      exfalso.
      assert (d = 24) by (subst e'; lia).
      assert (s = 24) by (subst s e'; lia).
      assert (Zpos m * 2 ^ s < (2 ^ 25 - 2) * Zpos mc).
      { rewrite H0. change (2 ^ 24) with 16777216 in *.
        change (2 ^ 23) with 8388608 in *. change (2 ^ 25) with 33554432.
        rewrite H in Hm. change (2 ^ 24) with 16777216 in Hm. lia. }
      assert (q < 2 ^ 25 - 2)
        by (subst q; apply Z.div_lt_upper_bound; lia).
      lia.
Qed.

Lemma Qle_bool_inject (c z : Z) :
  Qle_bool (inject_Z c) (inject_Z z) = (c <=? z).
Proof.
  unfold Qle_bool. cbn [Qnum Qden inject_Z]. rewrite !Z.mul_1_r.
  reflexivity.
Qed.

Lemma Qle_bool_make (c n : Z) (d : positive) :
  Qle_bool (inject_Z c) (n # d) = (c * Zpos d <=? n).
Proof.
  unfold Qle_bool. cbn [Qnum Qden inject_Z]. rewrite !Z.mul_1_r.
  reflexivity.
Qed.

Lemma number_finite (s : bool) (m : positive) (e : Z) (q : Q) :
  number (S754_finite s m e) = Some q ->
  q = (if s then Qopp else fun x => x)
        (if 0 <=? e then inject_Z (Zpos m * 2 ^ e)
         else Zpos m # Z.to_pos (2 ^ (- e))).
Proof. unfold number. destruct s; congruence. Qed.

(** The same test on the numbers the two data stand for. *)
Lemma number_threshold (c : Z) (m mc : positive) (e ec : Z) (q : Q) :
  bounded 24 128 m e = true ->
  2 ^ 23 < Zpos mc < 2 ^ 24 -> -24 < ec < 0 ->
  Zpos mc = c * 2 ^ (- ec) ->
  number (S754_finite false m e) = Some q ->
  Qle_bool (inject_Z c) q
  = (ec <? e) || ((e =? ec) && (Zpos mc <=? Zpos m)).
Proof.
  intros Hb Hmc Hec Hc Hq.
  destruct (bounded_facts m e Hb) as (Hd & He & Hn & Hm).
  assert (Hp : 0 < 2 ^ (- ec)) by (apply Z.pow_pos_nonneg; lia).
  assert (Hc0 : 0 < c) by nia.
  apply number_finite in Hq. subst q. cbv beta iota.
  destruct (Z.leb_spec 0 e) as [He0 | He0].
  - (* a whole number of at least 2^23 *)
    assert (Hd24 : Zdigits2 (Zpos m) = 24) by lia.
    rewrite Hd24 in Hm. change (2 ^ (24 - 1)) with 8388608 in Hm.
    destruct (Z.ltb_spec ec e); [cbn [orb] | lia].
    rewrite Qle_bool_inject. apply Z.leb_le.
    assert (1 <= 2 ^ e) by (apply (Z.pow_le_mono_r 2 0 e); lia).
    assert (2 <= 2 ^ (- ec))
      by (apply (Z.pow_le_mono_r 2 1 (- ec)); lia).
    change (2 ^ 24) with 16777216 in *.
    assert (c * 2 <= c * 2 ^ (- ec))
      by (apply Z.mul_le_mono_nonneg_l; lia).
    assert (Zpos m * 1 <= Zpos m * 2 ^ e)
      by (apply Z.mul_le_mono_nonneg_l; lia).
    lia.
  - rewrite Qle_bool_make.
    assert (Hpe : 0 < 2 ^ (- e)) by (apply Z.pow_pos_nonneg; lia).
    rewrite Z2Pos.id by exact Hpe.
    change (2 ^ 24) with 16777216 in *. change (2 ^ 23) with 8388608 in *.
    destruct (Z.ltb_spec ec e) as [Hgt | Hle]; cbn [orb].
    + assert (Hd24 : Zdigits2 (Zpos m) = 24) by lia.
      rewrite Hd24 in Hm. change (2 ^ (24 - 1)) with 8388608 in Hm.
      apply Z.leb_le.
      replace (- ec) with (- e + (e - ec)) in Hc by lia.
      rewrite Z.pow_add_r in Hc by lia.
      assert (2 <= 2 ^ (e - ec))
        by (apply (Z.pow_le_mono_r 2 1 (e - ec)); lia).
      assert (0 < c * 2 ^ (- e))
        by (apply Z.mul_pos_pos; lia).
      assert (c * 2 ^ (- e) * 2 <= c * 2 ^ (- e) * 2 ^ (e - ec))
        by (apply Z.mul_le_mono_nonneg_l; lia).
      lia.
    + destruct (Z.eqb_spec e ec) as [-> | Hne]; cbn [andb].
      * rewrite <- Hc. reflexivity.
      * apply Z.leb_gt.
        replace (- e) with (- ec + (ec - e)) by lia.
        rewrite Z.pow_add_r by lia.
        assert (2 <= 2 ^ (ec - e))
          by (apply (Z.pow_le_mono_r 2 1 (ec - e)); lia).
        assert (Zpos m < 16777216).
        { assert (2 ^ Zdigits2 (Zpos m) <= 2 ^ 24)
            by (apply Z.pow_le_mono_r; lia).
          change (2 ^ 24) with 16777216 in *. lia. }
        assert (c * 2 ^ (- ec) * 2 <= c * 2 ^ (- ec) * 2 ^ (ec - e))
          by (apply Z.mul_le_mono_nonneg_l; lia).
        lia.
Qed.

(** In binary32 the display block gives every number that is not
    negative the column of its magnitude. *)
Lemma binary32_column (v : spec_float) (q : Q) :
  valid_binary 24 128 v = true ->
  number v = Some q -> (0 <= q)%Q ->
  orpPos_of (T := Binary32.target) v = column q
  /\ fltb (Target := Binary32.target) v (f_of_Z 0) = false.
Proof.
  intros Hv Hq H0. destruct v as [s | s | | s m e]; try discriminate Hq.
  - injection Hq as <-. destruct s; split; reflexivity.
  - cbn [valid_binary] in Hv. destruct s.
    + exfalso.
      apply number_finite in Hq. subst q. cbv beta iota in H0.
      apply Qle_bool_iff in H0. change 0%Q with (inject_Z 0) in H0.
      destruct (Z.leb_spec 0 e).
      * rewrite <- (Qopp_involutive (inject_Z 0)) in H0.
        assert (0 < Zpos m * 2 ^ e)
          by (apply Z.mul_pos_pos; [lia | apply Z.pow_pos_nonneg; lia]).
        assert (Hle : (- inject_Z (Zpos m * 2 ^ e) <= inject_Z 0)%Q).
        { unfold Qle. cbn [Qnum Qden Qopp inject_Z]. lia. }
        apply Qle_bool_iff in H0.
        assert (E : (- inject_Z (Zpos m * 2 ^ e) == inject_Z 0)%Q)
          by (apply Qle_antisym; [exact Hle |];
              rewrite Qopp_involutive in H0; exact H0).
        revert E. unfold Qeq. cbn [Qnum Qden Qopp inject_Z]. lia.
      * apply Qle_bool_iff in H0. revert H0. unfold Qle.
        cbn [Qnum Qden Qopp inject_Z]. lia.
    + split; [| reflexivity].
      unfold orpPos_of, column.
      change (f_of_Z (Target := Binary32.target) 1000)
        with (S754_finite false 16384000 (-14)).
      change (f_of_Z (Target := Binary32.target) 100)
        with (S754_finite false 13107200 (-17)).
      change (f_of_Z (Target := Binary32.target) 10)
        with (S754_finite false 10485760 (-20)).
      rewrite !binary32_threshold by (assumption || lia).
      rewrite <- (number_threshold 1000 m 16384000 e (-14) q)
        by (assumption || lia || reflexivity).
      rewrite <- (number_threshold 100 m 13107200 e (-17) q)
        by (assumption || lia || reflexivity).
      rewrite <- (number_threshold 10 m 10485760 e (-20) q)
        by (assumption || lia || reflexivity).
      reflexivity.
Qed.

(** On every target the display block writes the same four things for a
    value that is not negative, the first at one of the columns 9 to 12. *)
Lemma show_ORPvalue_shape {T : Target} (s : state) :
  fltb (ORPvalue s) (f_of_Z 0) = false ->
  trace show_ORPvalue s = shown (orpPos_of (ORPvalue s)) (ORPvalue s)
  /\ 9 <= orpPos_of (ORPvalue s) <= 12.
Proof.
  intros Hsign. split.
  - unfold show_ORPvalue. autorewrite with run. rewrite Hsign. reflexivity.
  - unfold orpPos_of.
    repeat match goal with
           | |- context [if ?b then _ else _] => destruct b
           end; lia.
Qed.

(** C3, amended: a published value that is a binary32 number and not
    negative is written with no decimals from column 9 when it is at least
    1000, from column 10 when it is in [100, 1000) (so 123.45 starts at
    column 10), from column 11 in [10, 100) and from column 12 below 10,
    the rounding of the three divisions included; "mV" follows at column
    14; the globals are left alone.  [loop] and [startCalibration] both go
    through this block. *)
Theorem show_ORPvalue_column (s : state (T := Binary32.target)) (q : Q) :
  valid_binary 24 128 (ORPvalue s) = true ->
  number (ORPvalue s) = Some q ->
  (0 <= q)%Q ->
  trace show_ORPvalue s = shown (column q) (ORPvalue s)
  /\ exec show_ORPvalue s = s
  /\ ((1000 <= q)%Q -> column q = 9)
  /\ ((100 <= q)%Q /\ (q < 1000)%Q -> column q = 10)
  /\ ((10 <= q)%Q /\ (q < 100)%Q -> column q = 11)
  /\ ((q < 10)%Q -> column q = 12).
Proof.
  intros Hv Hq H0.
  destruct (binary32_column (ORPvalue s) q Hv Hq H0) as [Hcol Hsign].
  split; [| split].
  - destruct (show_ORPvalue_shape s Hsign) as [-> _]. rewrite Hcol.
    reflexivity.
  - unfold show_ORPvalue. autorewrite with run. reflexivity.
  - assert (Hge : forall a, (a <= q)%Q -> Qle_bool a q = true)
      by (intros a; apply Qle_bool_iff).
    assert (Hlt : forall a, (q < a)%Q -> Qle_bool a q = false).
    { intros a H. destruct (Qle_bool a q) eqn:C; [| reflexivity].
      apply Qle_bool_iff in C. exfalso. apply (Qlt_not_le _ _ H C). }
    unfold column. repeat split.
    + intros H. rewrite (Hge _ H). reflexivity.
    + intros [H1 H2]. rewrite (Hlt _ H2), (Hge _ H1). reflexivity.
    + intros [H1 H2].
      rewrite (Hlt 1000%Q), (Hlt _ H2), (Hge _ H1); [reflexivity |].
      eapply Qlt_trans; [exact H2 | reflexivity].
    + intros H.
      rewrite (Hlt 1000%Q), (Hlt 100%Q), (Hlt _ H); [reflexivity | |].
      * eapply Qlt_trans; [exact H | reflexivity].
      * eapply Qlt_trans; [exact H | reflexivity].
Qed.

Lemma show_ORPvalue_column_witness :
  trace (T := Binary32.target) show_ORPvalue
    (set_ORPvalue (T := Binary32.target) (Binary32.parse "123.45") init)
  = shown (T := Binary32.target) 10 (Binary32.parse "123.45").
Proof.
  refine (proj1 (show_ORPvalue_column
                   (set_ORPvalue (T := Binary32.target)
                      (Binary32.parse "123.45") init)
                   (Qmake 16180838 (Z.to_pos (2 ^ 17))) _ _ _)).
  - vm_compute. reflexivity.
  - vm_compute. reflexivity.
  - vm_compute. discriminate.
Defined.

(** ** Invariants of the measurement chain *)

Section Invariants.

Context {T : Target}.

(** A property of the measurement globals that the averaging block
    keeps is kept by the whole sketch. *)
Variable I : state -> Prop.
Hypothesis I_measurement :
  forall s s', measurement s' = measurement s -> I s -> I s'.
Hypothesis I_average : keeps I average_ORP.

Ltac framed :=
  repeat (step_rules ltac:(eapply I_measurement; [| eassumption]; reflexivity)).

Lemma keeps_calibration_loop (ps : list poll) : keeps I (calibration_loop ps).
Proof. induction ps as [| p ps IH]; cbn [calibration_loop]; framed. Qed.

Lemma keeps_logfreq_loop (ps : list poll) : keeps I (logfreq_loop ps).
Proof. induction ps as [| p ps IH]; cbn [logfreq_loop]; framed. Qed.

Lemma keeps_dispatch (button : Z) (now : DateTime) (sub : list poll) :
  keeps I (dispatch button now sub).
Proof.
  pose proof keeps_calibration_loop. pose proof keeps_logfreq_loop.
  unfold dispatch, startCalibration, setLogFreq. framed.
Qed.

Lemma keeps_loop (c : cycle) : keeps I (loop c).
Proof. pose proof keeps_dispatch. unfold loop. framed. Qed.

Lemma keeps_run (cs : list cycle) : keeps I (run cs).
Proof.
  pose proof keeps_loop.
  induction cs as [| c cs IH]; cbn [run]; framed.
Qed.

Lemma keeps_setup : keeps I setup.
Proof. unfold setup. framed. Qed.

Lemma reachable_invariant (s : state) : I init -> reachable s -> I s.
Proof.
  intros H0 [cs <-]. rewrite exec_bind.
  apply keeps_run, keeps_setup, H0.
Qed.

End Invariants.

Section Measurement.

Context {T : Target}.

Lemma average_ORP_in_range : keeps counter_in_range average_ORP.
Proof.
  intros s H. unfold counter_in_range in *. rewrite average_ORP_counter.
  destruct (Z.ltb_spec (counter s) 4); [| lia].
  unfold wrap_byte. rewrite Z.mod_small; lia.
Qed.

Lemma getORPdata_parsed : keeps parsed getORPdata.
Proof.
  intros s H. unfold getORPdata, parsed in *. autorewrite with run.
  destruct (0 <? _); cbn [when]; autorewrite with run.
  - destruct (readBytesUntil CR 20 (orp_rx s)) as [data rest].
    autorewrite with run. fields. cbn [Z.eqb Pos.eqb when].
    autorewrite with run. fields. reflexivity.
  - destruct (Z.eqb_spec (string_received s) 1); cbn [when];
      autorewrite with run; fields; auto.
Qed.

Lemma average_ORP_parsed : keeps parsed average_ORP.
Proof.
  pose proof getORPdata_parsed.
  unfold average_ORP.
  repeat (step_rules ltac:(unfold parsed in *; fields; assumption)).
Qed.

Lemma reachable_parsed (s : state) : reachable s -> parsed s.
Proof.
  apply reachable_invariant.
  - intros s1 s2 Hm H. unfold parsed, measurement in *.
    injection Hm as -> -> _ _ -> _. exact H.
  - exact average_ORP_parsed.
  - intros C; discriminate C.
Qed.

Lemma reachable_counter (s : state) : reachable s -> counter_in_range s.
Proof.
  apply reachable_invariant.
  - intros s1 s2 Hm H. unfold counter_in_range, measurement in *.
    injection Hm as _ _ _ _ _ ->. exact H.
  - exact average_ORP_in_range.
  - unfold counter_in_range; cbn; lia.
Qed.

(** C5, amended: at the end of every polling iteration, of [loop] as of
    the two sub-loops, [counter] is one of 1, 2, 3, 4; a pass through the
    averaging block that finds it below 4 folds and adds one, the pass
    that finds it at 4 resets it to 1: three folds, then one pass that
    publishes. *)
Theorem counter_bounded (s : state) :
  reachable s ->
  1 <= counter s <= 4
  /\ counter (exec average_ORP s)
     = (if counter s <? 4 then counter s + 1 else 1).
Proof.
  intros Hr. pose proof (reachable_counter s Hr) as H.
  split; [exact H |].
  rewrite average_ORP_counter. unfold counter_in_range in H.
  destruct (counter s <? 4) eqn:E; [| reflexivity].
  apply Z.ltb_lt in E. unfold wrap_byte. rewrite Z.mod_small; lia.
Qed.

(** C7, amended: in a reachable state with nothing in the receive
    buffer, [getORPdata] does not wait and signals nothing: it sends the
    read request and returns the reading it already holds, every global
    unchanged; the averaging block folds that reading again and advances
    the counter when the counter is below 4, and resets and publishes,
    without asking the sensor, when it is 4. *)
Theorem nothing_arrived_refolds (s : state) :
  reachable s ->
  orp_rx s = EmptyString ->
  getORPdata s = (ORP s, s, [OrpPrint (cmd "R")])
  /\ (counter s < 4 ->
      exec average_ORP s
      = set_counter (counter s + 1)
          (set_avgORP (fdiv (fadd (avgORP s) (ORP s)) (f_of_Z (counter s)))
             s)
      /\ trace average_ORP s = [OrpPrint (cmd "R")])
  /\ (counter s = 4 ->
      exec average_ORP s = set_ORPvalue (avgORP s) (set_counter 1 s)
      /\ trace average_ORP s = []).
Proof.
  intros Hr Hrx.
  pose proof (getORPdata_nothing_arrived s Hrx (reachable_parsed s Hr)) as Hg.
  pose proof (reachable_counter s Hr) as Hc. unfold counter_in_range in Hc.
  split; [exact Hg |]. split; intros H.
  - unfold average_ORP. autorewrite with run.
    destruct (Z.ltb_spec (counter s) 4); [| lia].
    autorewrite with run.
    unfold value, exec, trace. rewrite Hg. cbn [fst snd].
    unfold wrap_byte. rewrite Z.mod_small by lia.
    split; reflexivity.
  - unfold average_ORP. autorewrite with run.
    destruct (Z.ltb_spec (counter s) 4); [lia |].
    autorewrite with run. split; reflexivity.
Qed.

End Measurement.

(** C5, as stated, fails: after three cycles the counter is 4. *)
Lemma counter_reaches_4 :
  ~ (forall s : state (T := Binary32.target),
        reachable s -> 1 <= counter s <= 3).
Proof.
  intros H.
  specialize (H (exec (setup ;; run [quiet_cycle; quiet_cycle; quiet_cycle])
                   init)).
  assert (Hr : reachable (T := Binary32.target)
                 (exec (setup ;; run [quiet_cycle; quiet_cycle; quiet_cycle])
                    init))
    by (eexists; reflexivity).
  apply H in Hr. vm_compute in Hr. destruct Hr as [_ Hr]. apply Hr. reflexivity.
Qed.

Lemma counter_bounded_witness :
  1 <= counter (T := Binary32.target)
         (exec (setup ;; run [quiet_cycle; quiet_cycle; quiet_cycle]) init)
  <= 4.
Proof.
  apply (counter_bounded (T := Binary32.target)
           (exec (setup ;; run [quiet_cycle; quiet_cycle; quiet_cycle]) init)).
  exists [quiet_cycle; quiet_cycle; quiet_cycle]. reflexivity.
Defined.

(** C7, as stated, fails: the sensor answered 30 once; two cycles later,
    with nothing in the buffer and nothing arriving, the cycle changes both
    the accumulated average (30 becomes 20) and the counter (3 becomes 4). *)
Lemma silent_cycle_changes_averager :
  let s := exec (T := Binary32.target)
             (setup ;; run [reading_cycle; quiet_cycle]) init in
  orp_rx s = EmptyString
  /\ rx (c_poll quiet_cycle) = EmptyString
  /\ avgORP s = Binary32.of_Z 30
  /\ avgORP (exec (loop quiet_cycle) s) = Binary32.of_Z 20
  /\ avgORP (exec (loop quiet_cycle) s) <> avgORP s
  /\ counter s = 3
  /\ counter (exec (loop quiet_cycle) s) = 4.
Proof. vm_compute. repeat split. discriminate. Qed.

Lemma nothing_arrived_refolds_witness :
  let s := exec (T := Binary32.target)
             (setup ;; run [reading_cycle; quiet_cycle]) init in
  getORPdata s = (ORP s, s, [OrpPrint (cmd "R")]).
Proof.
  cbv zeta.
  apply (nothing_arrived_refolds (T := Binary32.target)
           (exec (setup ;; run [reading_cycle; quiet_cycle]) init)).
  - exists [reading_cycle; quiet_cycle]. reflexivity.
  - reflexivity.
Defined.

(** ** The main loop *)

Section MainLoop.

Context {T : Target}.

Lemma loop_head_value (c : cycle) (s : state) :
  value (loop_head c) s = sampled (c_poll c).
Proof.
  unfold loop_head. autorewrite with run. apply ReadButtons_value.
Qed.

Lemma loop_tail_value (now : DateTime) (s : state) :
  value (loop_tail now) s = true.
Proof. unfold loop_tail. autorewrite with run. reflexivity. Qed.

Lemma loop_head_logData (c : cycle) (b : bool) :
  keeps (fun s => logData s = b) (loop_head c).
Proof. unfold loop_head. stepwise. Qed.

Lemma loop_tail_logData (now : DateTime) (b : bool) :
  keeps (fun s => logData s = b) (loop_tail now).
Proof. unfold loop_tail. stepwise. Qed.

(** The SELECT case of the switch, lines 303-315. *)
Lemma dispatch_SELECT (now : DateTime) (sub : list poll) (s : state) :
  value (dispatch SELECT now sub) s = true
  /\ logData (exec (dispatch SELECT now sub) s) = negb (logData s).
Proof.
  change (dispatch SELECT now sub) with
    (modify (fun s => set_logData (negb (logData s)) s) ;;
     active <- gets logData ;;
     (if active : bool then
        emit (DigitalWrite logPin true) ;;
        v <- gets ORPvalue ;;
        LogData v now ;;
        freq <- gets logFreq ;;
        modify (set_nextDataPoint (wrap_ulong (unixtime now + freq)))
      else emit (DigitalWrite logPin false)) ;;
     ret true).
  autorewrite with run. cbn [logData set_logData].
  destruct (negb (logData s)); autorewrite with run;
    rewrite ?LogData_exec; split; reflexivity.
Qed.

(** A cycle that samples SELECT toggles [logData], in whatever state the
    edge flags and [buttonWas] are. *)
Lemma loop_SELECT (c : cycle) (s : state) :
  sampled (c_poll c) = SELECT ->
  value (loop c) s = true
  /\ logData (exec (loop c) s) = negb (logData s).
Proof.
  intros H. unfold loop. autorewrite with run.
  rewrite loop_head_value, H.
  destruct (dispatch_SELECT (c_now c) (c_sub c) (exec (loop_head c) s))
    as [Hv Hl].
  rewrite Hv. split; [apply loop_tail_value |].
  apply loop_tail_logData. rewrite Hl. f_equal.
  now apply loop_head_logData.
Qed.

(** C10: the switch of [loop] is entered with the button sampled in the
    cycle, whatever the edge flags and [buttonWas] are; so over [k]
    consecutive cycles that sample SELECT, every cycle completes and
    [logData] is toggled [k] times; after two such cycles logging is back
    where it was. *)
Theorem select_toggles_every_cycle (cs : list cycle) (s : state) :
  Forall (fun c => sampled (c_poll c) = SELECT) cs ->
  (forall c s',
      loop c s'
      = (loop_head c ;;
         back <- dispatch (sampled (c_poll c)) (c_now c) (c_sub c) ;;
         if back : bool then loop_tail (c_now c) else ret false) s')
  /\ value (run cs) s = true
  /\ logData (exec (run cs) s) = Nat.iter (List.length cs) negb (logData s)
  /\ (List.length cs = 2%nat -> logData (exec (run cs) s) = logData s).
Proof.
  intros Hcs.
  split.
  { intros c s'. unfold loop. apply bind_cong.
    rewrite loop_head_value. reflexivity. }
  assert (Hk : value (run cs) s = true
               /\ logData (exec (run cs) s)
                  = Nat.iter (List.length cs) negb (logData s)).
  { revert s. induction Hcs as [| c cs Hc _ IH]; intros s.
    - split; reflexivity.
    - destruct (loop_SELECT c s Hc) as [Hv Hl].
      cbn [run]. autorewrite with run. rewrite Hv.
      destruct (IH (exec (loop c) s)) as [IHv IHl].
      split; [exact IHv |].
      rewrite IHl, Hl. cbn [List.length].
      rewrite Nat.iter_succ_r. reflexivity. }
  destruct Hk as [Hv Hl]. repeat split; try assumption.
  intros H2. rewrite Hl, H2. cbn. apply negb_involutive.
Qed.

(** A press met with no button held raises the press flag. *)
Lemma ReadButtons_press (a0 : Z) (s : state) :
  buttonWas s = BUTTON_NONE ->
  button_of_voltage (wrap_uint a0) <> BUTTON_NONE ->
  buttonJustPressed (exec (ReadButtons a0) s) = true.
Proof.
  intros Hwas Hb. unfold ReadButtons. autorewrite with run.
  rewrite Hwas.
  destruct (Z.eqb_spec (button_of_voltage (wrap_uint a0)) BUTTON_NONE);
    [contradiction |].
  cbn [Z.eqb BUTTON_NONE negb andb when]. autorewrite with run. fields.
  rewrite Hwas. cbn [Z.eqb BUTTON_NONE negb andb when].
  autorewrite with run. reflexivity.
Qed.

Lemma loop_head_press (c : cycle) (s : state) :
  buttonWas s = BUTTON_NONE ->
  sampled (c_poll c) <> BUTTON_NONE ->
  buttonJustPressed (exec (loop_head c) s) = true.
Proof.
  intros Hwas Hb.
  assert (H0 : forall m : M unit,
             keeps (fun s => buttonWas s = BUTTON_NONE) m ->
             buttonWas (exec m s) = BUTTON_NONE)
    by (intros m Hm; apply Hm, Hwas).
  unfold loop_head. autorewrite with run.
  set (s0 := exec (print_time (c_now c)) _).
  assert (Hs0 : buttonWas s0 = BUTTON_NONE).
  { unfold s0.
    assert (K : keeps (fun s => buttonWas s = BUTTON_NONE)
                  (serial_arrive (rx (c_poll c)) ;; emit LcdClear ;;
                   print_date (c_now c) ;; print_time (c_now c)))
      by (unfold serial_arrive; stepwise).
    specialize (K s Hwas). autorewrite with run in K. exact K. }
  pose proof (ReadButtons_press (adc (c_poll c)) s0 Hs0 Hb) as Hp.
  destruct (_ || _); cbn [when]; autorewrite with run; exact Hp.
Qed.

(** Nothing in the rest of the cycle lowers the flag again: whenever a
    press of UP, DOWN or SELECT is met with no button held, the press flag
    is up at the end of the cycle. *)
Lemma press_flag_outlives_cycle (c : cycle) (s : state) :
  buttonWas s = BUTTON_NONE ->
  sampled (c_poll c) = UP \/ sampled (c_poll c) = DOWN
  \/ sampled (c_poll c) = SELECT ->
  value (loop c) s = true /\ buttonJustPressed (exec (loop c) s) = true.
Proof.
  intros Hwas Hb.
  assert (Hp : buttonJustPressed (exec (loop_head c) s) = true).
  { apply loop_head_press; [exact Hwas |].
    destruct Hb as [-> | [-> | ->]]; discriminate. }
  assert (Hd : value (dispatch (sampled (c_poll c)) (c_now c) (c_sub c))
                 (exec (loop_head c) s) = true
               /\ keeps (fun s => buttonJustPressed s = true)
                    (dispatch (sampled (c_poll c)) (c_now c) (c_sub c))).
  { destruct Hb as [-> | [-> | ->]].
    - split; [reflexivity | intros s' H; exact H].
    - split; [reflexivity | intros s' H; exact H].
    - split; [apply dispatch_SELECT |].
      unfold dispatch.
      cbn [Z.eqb SELECT BUTTON_NONE RIGHT UP DOWN LEFT Pos.eqb].
      unfold LogData. stepwise. }
  destruct Hd as [Hv Hk].
  unfold loop. autorewrite with run. rewrite loop_head_value, Hv.
  split; [apply loop_tail_value |].
  assert (Kt : keeps (fun s => buttonJustPressed s = true)
                 (loop_tail (c_now c)))
    by (unfold loop_tail, average_ORP, getORPdata, show_ORPvalue,
          check_logging, LogData; stepwise).
  apply Kt, Hk, Hp.
Qed.

(** C6, evaluated where it fails: after a cycle that samples SELECT the
    press flag is still up, and after the release it is the release flag
    that stays up, cycle after cycle: the statements of lines 320-323 that
    would lower them are never reached. *)
Theorem edge_flags_stay_up :
  let s1 := exec (loop select_cycle) init in
  let s2 := exec (loop quiet_cycle) s1 in
  let s3 := exec (loop quiet_cycle) s2 in
  value (loop select_cycle) init = true
  /\ buttonJustPressed s1 = true
  /\ buttonJustReleased s2 = true
  /\ buttonJustReleased s3 = true.
Proof. vm_compute. repeat split. Qed.

End MainLoop.

Lemma select_toggles_every_cycle_witness :
  logData (exec (T := Binary32.target) (run [select_cycle; select_cycle]) init)
  = logData (T := Binary32.target) init.
Proof.
  apply (select_toggles_every_cycle (T := Binary32.target)
           [select_cycle; select_cycle] init).
  - repeat constructor.
  - reflexivity.
Defined.

(** ** The log-frequency setter *)

Section LogFrequency.

Context {T : Target}.

Lemma wrap_long_small (z : Z) : - 2 ^ 31 <= z <= LONG_MAX -> wrap_long z = z.
Proof.
  unfold wrap_long, LONG_MAX. intros H. rewrite Z.mod_small; lia.
Qed.

Lemma ReadButtons_logFreq (a0 : Z) (s : state) :
  logFreq (exec (ReadButtons a0) s) = logFreq s.
Proof. unfold ReadButtons. crunch; reflexivity. Qed.

Lemma show_logFreq_exec (s : state) : exec show_logFreq s = s.
Proof.
  unfold show_logFreq. autorewrite with run.
  destruct (logFreq s <? 10); [reflexivity |].
  destruct (logFreq s <? 100); reflexivity.
Qed.

Lemma logfreq_pass_value (p : poll) (s : state) :
  value (logfreq_pass p) s = sampled p.
Proof.
  unfold logfreq_pass. autorewrite with run. apply ReadButtons_value.
Qed.

(** The interval after a pass, as the three statements of lines 453-455
    compute it. *)
Lemma logfreq_pass_logFreq (p : poll) (s : state) :
  logFreq (exec (logfreq_pass p) s)
  = let f1 := if sampled p =? UP then wrap_long (logFreq s + 5)
              else logFreq s in
    let f2 := if sampled p =? DOWN then wrap_long (f1 - 5) else f1 in
    if f2 <? 5 then 5 else f2.
Proof.
  unfold logfreq_pass. autorewrite with run.
  rewrite show_logFreq_exec, ReadButtons_value. fold (sampled p).
  set (s1 := exec (ReadButtons (adc p)) (exec (serial_arrive (rx p)) s)).
  assert (H1 : logFreq s1 = logFreq s).
  { unfold s1. rewrite ReadButtons_logFreq. reflexivity. }
  clearbody s1. cbv zeta.
  destruct (sampled p =? UP); destruct (sampled p =? DOWN); cbn [when];
    autorewrite with run; fields; rewrite ?H1;
    match goal with
    | |- context [when ?b _] => destruct b; cbn [when]
    end; autorewrite with run; fields; auto.
Qed.

Lemma logfreq_pass_adjust (p : poll) (s : state) :
  5 <= logFreq s <= LONG_MAX - 5 ->
  logFreq (exec (logfreq_pass p) s) = adjust (logFreq s) (sampled p).
Proof.
  intros H. rewrite logfreq_pass_logFreq. unfold adjust. cbv zeta.
  unfold LONG_MAX in H.
  destruct (Z.eqb_spec (sampled p) UP) as [Hu | Hu].
  - rewrite Hu. change (UP =? DOWN) with false. cbv iota.
    rewrite wrap_long_small by (unfold LONG_MAX; lia).
    destruct (Z.ltb_spec (logFreq s + 5) 5); lia.
  - destruct (Z.eqb_spec (sampled p) DOWN) as [Hd | Hd].
    + rewrite wrap_long_small by (unfold LONG_MAX; lia).
      destruct (Z.ltb_spec (logFreq s - 5) 5); lia.
    + destruct (Z.ltb_spec (logFreq s) 5); lia.
Qed.

Lemma logfreq_pass_display (p : poll) : emits to_display (logfreq_pass p).
Proof. unfold logfreq_pass, show_logFreq. stepwise. Qed.

Lemma show_logFreq_no_delay : emits no_delay show_logFreq.
Proof. unfold show_logFreq. stepwise. Qed.

Lemma logfreq_pass_delays (p : poll) (s : state) :
  delays 200 (trace (logfreq_pass p) s) = 1%nat.
Proof.
  unfold logfreq_pass. autorewrite with run.
  rewrite ReadButtons_silent, !delays_app.
  rewrite (delays_emits 200 show_logFreq) by apply show_logFreq_no_delay.
  repeat match goal with
         | |- context [when ?b _] => destruct b; cbn [when]
         end; reflexivity.
Qed.

Lemma adjust_bounds (freq button : Z) :
  5 <= freq -> 5 <= adjust freq button <= freq + 5.
Proof.
  intros H. unfold adjust.
  destruct (button =? UP); [lia |]. destruct (button =? DOWN); lia.
Qed.

(** C9: in [setLogFreq] every UP sampled adds 5 to [logFreq] and every
    DOWN sampled takes 5 off, never going below 5; the loop makes one pass
    per poll up to the first RIGHT sampled, is left there and not
    otherwise; all it writes goes to the display, the clamp included.
    (The interval stays within [long].) *)
Theorem setLogFreq_steps_of_5 (ps : list poll) (s : state) :
  5 <= logFreq s ->
  logFreq s + 5 * Z.of_nat (List.length ps) <= LONG_MAX ->
  logFreq (exec (setLogFreq ps) s)
  = fold_left adjust (map sampled (until RIGHT ps)) (logFreq s)
  /\ 5 <= logFreq (exec (setLogFreq ps) s)
  /\ value (setLogFreq ps) s = samples RIGHT ps
  /\ delays 200 (trace (setLogFreq ps) s) = List.length (until RIGHT ps)
  /\ Forall to_display (trace (setLogFreq ps) s).
Proof.
  unfold setLogFreq. revert s.
  induction ps as [| p ps IH]; intros s H5 Hmax.
  - cbn. repeat split; auto.
  - cbn [logfreq_loop until samples existsb map fold_left List.length] in *.
    autorewrite with run. rewrite logfreq_pass_value, delays_app.
    pose proof (logfreq_pass_adjust p s ltac:(lia)) as Hstep.
    pose proof (adjust_bounds (logFreq s) (sampled p) H5) as Hb.
    pose proof (logfreq_pass_display p s) as Hd.
    pose proof (logfreq_pass_delays p s) as Hn.
    destruct (Z.eqb_spec (sampled p) RIGHT) as [Hr | Hr]; cbn [negb orb].
    + autorewrite with run. cbn [map fold_left]. rewrite app_nil_r, Hn.
      repeat split; auto; lia.
    + destruct (IH (exec (logfreq_pass p) s))
        as (IH1 & IH2 & IH3 & IH4 & IH5); [lia | lia |].
      cbn [map fold_left List.length]. rewrite <- Hstep, Hn, IH4.
      repeat split; auto. apply Forall_app; split; assumption.
Qed.

End LogFrequency.

Lemma setLogFreq_steps_of_5_witness :
  logFreq (exec (T := Binary32.target) (setLogFreq [press 329]) init) = 5
  /\ logFreq (exec (T := Binary32.target) (setLogFreq [press 145]) init) = 10
  /\ value (T := Binary32.target)
       (setLogFreq [press 145; press 145; press 5; press 145]) init = true
  /\ logFreq (exec (T := Binary32.target)
                (setLogFreq [press 145; press 145; press 5; press 145]) init)
     = 15.
Proof.
  split; [| split; [| split]].
  - apply (setLogFreq_steps_of_5 (T := Binary32.target) [press 329] init);
      vm_compute; discriminate.
  - apply (setLogFreq_steps_of_5 (T := Binary32.target) [press 145] init);
      vm_compute; discriminate.
  - apply (setLogFreq_steps_of_5 (T := Binary32.target)
             [press 145; press 145; press 5; press 145] init);
      vm_compute; discriminate.
  - apply (setLogFreq_steps_of_5 (T := Binary32.target)
             [press 145; press 145; press 5; press 145] init);
      vm_compute; discriminate.
Defined.

(** ** The calibration session *)

Section Calibration.

Context {T : Target}.

Lemma sensor_tx_app (t1 t2 : list event) :
  sensor_tx (t1 ++ t2) = sensor_tx t1 ++ sensor_tx t2.
Proof. unfold sensor_tx. apply flat_map_app. Qed.

Lemma calibration_tx_app (t1 t2 : list event) :
  calibration_tx (t1 ++ t2) = calibration_tx t1 ++ calibration_tx t2.
Proof. unfold calibration_tx. rewrite sensor_tx_app. apply filter_app. Qed.

Lemma sensor_tx_none (t : list event) :
  Forall not_to_sensor t -> sensor_tx t = [].
Proof.
  induction 1 as [| e t He _ IH]; [reflexivity |].
  destruct e; cbn in *; try exact IH. contradiction.
Qed.

Lemma calibration_tx_none (t : list event) :
  Forall read_request_only t -> calibration_tx t = [].
Proof.
  induction 1 as [| e t He _ IH]; [reflexivity |].
  change (e :: t) with ([e] ++ t). rewrite calibration_tx_app, IH, app_nil_r.
  destruct e; try reflexivity. cbn in He. rewrite He. reflexivity.
Qed.

Lemma calibration_tx_emits {A : Type} (m : M A) (s : state) :
  emits read_request_only m -> calibration_tx (trace m s) = [].
Proof. intros H. apply calibration_tx_none, H. Qed.

Lemma average_ORP_requests : emits read_request_only average_ORP.
Proof. unfold average_ORP, getORPdata. stepwise. Qed.

Lemma show_ORPvalue_requests : emits read_request_only show_ORPvalue.
Proof. unfold show_ORPvalue. stepwise. Qed.

Lemma ReadButtons_requests (a0 : Z) : emits read_request_only (ReadButtons a0).
Proof. intros s. rewrite ReadButtons_silent. constructor. Qed.

Lemma loop_head_quiet (c : cycle) : emits not_to_sensor (loop_head c).
Proof. unfold loop_head. stepwise. Qed.

Lemma loop_tail_requests (now : DateTime) :
  emits read_request_only (loop_tail now).
Proof.
  pose proof average_ORP_requests. pose proof show_ORPvalue_requests.
  unfold loop_tail. stepwise.
Qed.

Lemma average_ORP_no_delay : emits no_delay average_ORP.
Proof. unfold average_ORP, getORPdata. stepwise. Qed.

Lemma show_ORPvalue_no_delay : emits no_delay show_ORPvalue.
Proof. unfold show_ORPvalue. stepwise. Qed.

Lemma loop_head_no_delay (c : cycle) : emits no_delay (loop_head c).
Proof. unfold loop_head. stepwise. Qed.

Lemma loop_tail_delays (now : DateTime) (s : state) :
  delays 320 (trace (loop_tail now) s) = 1%nat.
Proof.
  unfold loop_tail. autorewrite with run. rewrite !delays_app.
  rewrite (delays_emits 320 average_ORP) by apply average_ORP_no_delay.
  rewrite (delays_emits 320 show_ORPvalue) by apply show_ORPvalue_no_delay.
  rewrite (delays_emits 320 (check_logging now))
    by (unfold check_logging, LogData; stepwise).
  reflexivity.
Qed.

Lemma calibration_pass_delays (p : poll) (s : state) :
  delays 320 (trace (calibration_pass p) s) = 1%nat.
Proof.
  unfold calibration_pass. autorewrite with run.
  rewrite ReadButtons_silent, !delays_app.
  rewrite (delays_emits 320 average_ORP) by apply average_ORP_no_delay.
  rewrite (delays_emits 320 show_ORPvalue) by apply show_ORPvalue_no_delay.
  repeat match goal with
         | |- context [when ?b _] => destruct b; cbn [when]
         end; reflexivity.
Qed.

Lemma calibration_pass_value (p : poll) (s : state) :
  value (calibration_pass p) s = sampled p.
Proof.
  unfold calibration_pass. autorewrite with run. apply ReadButtons_value.
Qed.

(** What a pass sends besides its read request: the key it relays. *)
Lemma calibration_pass_tx (p : poll) (s : state) :
  calibration_tx (trace (calibration_pass p) s) = relay (sampled p).
Proof.
  unfold calibration_pass. autorewrite with run.
  rewrite ReadButtons_value, ReadButtons_silent. fold (sampled p).
  rewrite !calibration_tx_app.
  rewrite (calibration_tx_emits average_ORP) by apply average_ORP_requests.
  rewrite (calibration_tx_emits show_ORPvalue)
    by apply show_ORPvalue_requests.
  unfold relay.
  destruct (Z.eqb_spec (sampled p) UP) as [Hu | Hu];
    destruct (Z.eqb_spec (sampled p) DOWN) as [Hd | Hd];
    destruct (Z.eqb_spec (sampled p) SELECT) as [Hs | Hs];
    try reflexivity; exfalso; unfold UP, DOWN, SELECT in *; lia.
Qed.

(** Polls behind the first LEFT are never looked at. *)
Lemma calibration_loop_until (ps : list poll) (s : state) :
  calibration_loop ps s = calibration_loop (until LEFT ps) s.
Proof.
  revert s. induction ps as [| p ps IH]; intros s; [reflexivity |].
  cbn [until].
  destruct (Z.eqb_spec (sampled p) LEFT) as [Hl | Hl];
    cbn [calibration_loop]; apply bind_cong;
    rewrite calibration_pass_value;
    destruct (Z.eqb_spec (sampled p) LEFT) as [Hl' | Hl'];
    try contradiction; cbn [negb]; [reflexivity | apply IH].
Qed.

Lemma calibration_loop_session (ps : list poll) (s : state) :
  value (calibration_loop ps) s = samples LEFT ps
  /\ calibration_tx (trace (calibration_loop ps) s)
     = flat_map relay (map sampled (until LEFT ps))
  /\ delays 320 (trace (calibration_loop ps) s) = List.length (until LEFT ps).
Proof.
  revert s. induction ps as [| p ps IH]; intros s.
  - repeat split.
  - cbn [calibration_loop until samples existsb map flat_map].
    autorewrite with run. rewrite calibration_pass_value.
    rewrite calibration_tx_app, calibration_pass_tx.
    rewrite delays_app, calibration_pass_delays.
    destruct (Z.eqb_spec (sampled p) LEFT) as [Hl | Hl];
      cbn [negb orb map flat_map List.length].
    + autorewrite with run. rewrite !app_nil_r. repeat split.
    + destruct (IH (exec (calibration_pass p) s)) as (IH1 & IH2 & IH3).
      rewrite IH2, IH3. repeat split. exact IH1.
Qed.

Lemma startCalibration_session (ps : list poll) (s : state) :
  value (startCalibration ps) s = samples LEFT ps
  /\ hd_error (sensor_tx (trace (startCalibration ps) s)) = Some (cmd "C")
  /\ calibration_tx (trace (startCalibration ps) s)
     = cmd "C" :: flat_map relay (map sampled (until LEFT ps))
       ++ (if samples LEFT ps then [cmd "E"] else [])
  /\ delays 320 (trace (startCalibration ps) s) = List.length (until LEFT ps).
Proof.
  destruct (calibration_loop_session ps s) as (Hv & Ht & Hn).
  unfold startCalibration. autorewrite with run.
  rewrite Hv.
  split; [destruct (samples LEFT ps); reflexivity |].
  split; [reflexivity |].
  rewrite !calibration_tx_app, !delays_app, Ht, Hn.
  split; destruct (samples LEFT ps); autorewrite with run;
    cbn [delays filter List.length app Nat.add]; rewrite ?Nat.add_0_r;
    reflexivity.
Qed.

Lemma startCalibration_until (ps : list poll) (s : state) :
  startCalibration ps s = startCalibration (until LEFT ps) s.
Proof.
  unfold startCalibration. repeat apply bind_cong.
  unfold bind. rewrite calibration_loop_until. reflexivity.
Qed.

(** C8: a cycle that samples RIGHT enters the session, whose first word
    to the sensor is ["C\r"]; the session makes one pass per poll and every
    pass relays the key it samples (UP as ["+\r"], DOWN as ["-\r"], SELECT
    as ["X\r"], nothing else); the session ends at the first LEFT sampled,
    and only there; ["E\r"] is sent when it ends, and only then; [loop]
    then carries on to its own delay. *)
Theorem calibration_session (c : cycle) (s : state) :
  sampled (c_poll c) = RIGHT ->
  value (loop c) s = samples LEFT (c_sub c)
  /\ hd_error (sensor_tx (trace (loop c) s)) = Some (cmd "C")
  /\ calibration_tx (trace (loop c) s)
     = cmd "C" :: flat_map relay (map sampled (until LEFT (c_sub c)))
       ++ (if samples LEFT (c_sub c) then [cmd "E"] else [])
  /\ delays 320 (trace (loop c) s)
     = (List.length (until LEFT (c_sub c))
        + (if samples LEFT (c_sub c) then 1 else 0))%nat
  /\ loop c s = loop (mkCycle (c_now c) (c_poll c) (until LEFT (c_sub c))) s.
Proof.
  intros Hr.
  assert (Hd : forall sub, dispatch RIGHT (c_now c) sub = startCalibration sub)
    by reflexivity.
  unfold loop. cbn [c_now c_poll c_sub].
  set (s1 := exec (loop_head c) s).
  destruct (startCalibration_session (c_sub c) s1) as (Hv & Hh & Ht & Hn).
  split; [| split; [| split; [| split]]].
  - autorewrite with run. rewrite loop_head_value, Hr, Hd. fold s1.
    rewrite Hv. destruct (samples LEFT (c_sub c)); [| reflexivity].
    apply loop_tail_value.
  - autorewrite with run. rewrite loop_head_value, Hr, Hd. fold s1.
    rewrite !sensor_tx_app.
    rewrite (sensor_tx_none _ (loop_head_quiet c s)). cbn [app].
    destruct (sensor_tx (trace (startCalibration (c_sub c)) s1));
      [discriminate Hh | exact Hh].
  - autorewrite with run. rewrite loop_head_value, Hr, Hd. fold s1.
    rewrite !calibration_tx_app.
    rewrite (calibration_tx_emits (loop_head c)), Ht, Hv.
    + destruct (samples LEFT (c_sub c)).
      * rewrite (calibration_tx_emits (loop_tail (c_now c)))
          by apply loop_tail_requests.
        rewrite app_nil_r. reflexivity.
      * autorewrite with run. rewrite app_nil_r. reflexivity.
    + intros s'. eapply Forall_impl; [| apply loop_head_quiet].
      intros e; destruct e; cbn; trivial; contradiction.
  - autorewrite with run. rewrite loop_head_value, Hr, Hd. fold s1.
    rewrite !delays_app.
    rewrite (delays_emits 320 (loop_head c)) by apply loop_head_no_delay.
    rewrite Hn, Hv. cbn [Nat.add]. f_equal.
    destruct (samples LEFT (c_sub c)); [apply loop_tail_delays | reflexivity].
  - change (loop_head (mkCycle (c_now c) (c_poll c) (until LEFT (c_sub c))))
      with (loop_head c).
    apply bind_cong. cbn [c_now c_sub]. rewrite loop_head_value, Hr, !Hd.
    unfold bind. rewrite startCalibration_until. reflexivity.
Qed.

End Calibration.

Lemma calibration_session_witness :
  calibration_tx (trace (T := Binary32.target) (loop calibration_cycle) init)
  = [cmd "C"; cmd "+"; cmd "-"; cmd "X"; cmd "E"].
Proof.
  apply (calibration_session (T := Binary32.target) calibration_cycle init).
  reflexivity.
Defined.

(** * Further properties of the sketch *)

(** ** Appending strings *)

Lemma append_assoc (a b c : string) :
  ((a ++ b) ++ c)%string = (a ++ (b ++ c))%string.
Proof. induction a as [| x a IH]; cbn; [reflexivity | now rewrite IH]. Qed.

Lemma append_empty_r (a : string) : (a ++ "")%string = a.
Proof. induction a as [| x a IH]; cbn; [reflexivity | now rewrite IH]. Qed.

Lemma length_append (a b : string) :
  String.length (a ++ b) = (String.length a + String.length b)%nat.
Proof. induction a as [| x a IH]; cbn; [reflexivity | now rewrite IH]. Qed.

(** ** Reading a line *)

Lemma readBytesUntil_line (t : ascii) (n : nat) (l rest : string) :
  ~ In t (list_ascii_of_string l) ->
  (String.length l < n)%nat ->
  readBytesUntil t n (l ++ String t rest)%string = (l, rest).
Proof.
  revert n. induction l as [| c l IH]; intros n Hin Hlen.
  - destruct n as [| n]; [cbn in Hlen; lia |].
    cbn. rewrite Ascii.eqb_refl. reflexivity.
  - destruct n as [| n]; [cbn in Hlen; lia |].
    cbn in *. destruct (Ascii.eqb_spec c t) as [-> | Hc].
    + exfalso. apply Hin. left. reflexivity.
    + rewrite IH; [reflexivity | tauto | lia].
Qed.

Lemma readBytesUntil_full (t : ascii) (l rest : string) :
  ~ In t (list_ascii_of_string l) ->
  readBytesUntil t (String.length l) (l ++ rest)%string = (l, rest).
Proof.
  induction l as [| c l IH]; intros Hin; [reflexivity |].
  cbn in *. destruct (Ascii.eqb_spec c t) as [-> | Hc].
  - exfalso. apply Hin. left. reflexivity.
  - rewrite IH; [reflexivity | tauto].
Qed.

(** [readBytesUntil] never stores more than [length] characters and never
    stores the terminator; the stream is what was stored followed by what
    is left, with the terminator in between when one was met; when none
    was met, the count was reached or the stream ran dry. *)
Lemma readBytesUntil_splits (t : ascii) (n : nat) (stream : string) :
  (String.length (fst (readBytesUntil t n stream)) <= n)%nat
  /\ ~ In t (list_ascii_of_string (fst (readBytesUntil t n stream)))
  /\ (stream
      = (fst (readBytesUntil t n stream)
         ++ String t (snd (readBytesUntil t n stream)))%string
      \/ (stream
          = (fst (readBytesUntil t n stream)
             ++ snd (readBytesUntil t n stream))%string
          /\ (String.length (fst (readBytesUntil t n stream)) = n
              \/ snd (readBytesUntil t n stream) = EmptyString))).
Proof.
  revert stream. induction n as [| n IH]; intros stream.
  - cbn. repeat split; auto.
  - destruct stream as [| c rest].
    + cbn. repeat split; auto. lia.
    + cbn [readBytesUntil]. destruct (Ascii.eqb_spec c t) as [-> | Hc].
      * cbn. repeat split; auto. lia.
      * specialize (IH rest).
        destruct (readBytesUntil t n rest) as [buf rest'].
        cbn [fst snd] in *. destruct IH as (Hlen & Hin & Hcat).
        split; [cbn; lia |]. split.
        -- cbn. intros [C | C]; [congruence | contradiction].
        -- destruct Hcat as [-> | [-> [Hn | Hr]]].
           ++ left. reflexivity.
           ++ right. split; [reflexivity |]. left. cbn. lia.
           ++ right. split; [reflexivity |]. right. exact Hr.
Qed.

(** With a terminator among the first [n] characters, or fewer than [n]
    characters in the stream, fewer than [n] characters are stored. *)
Lemma readBytesUntil_short (t : ascii) (n : nat) (stream : string) :
  (exists l rest,
      stream = (l ++ String t rest)%string /\ (String.length l < n)%nat)
  \/ (String.length stream < n)%nat ->
  (String.length (fst (readBytesUntil t n stream)) < n)%nat.
Proof.
  revert stream. induction n as [| n IH]; intros stream H.
  - destruct H as [(l & rest & _ & H) | H]; lia.
  - destruct stream as [| c rest]; [cbn; lia |].
    cbn [readBytesUntil]. destruct (Ascii.eqb_spec c t) as [-> | Hc];
      [cbn; lia |].
    assert (H' : (exists l rest',
                     rest = (l ++ String t rest')%string
                     /\ (String.length l < n)%nat)
                 \/ (String.length rest < n)%nat).
    { destruct H as [(l & rest' & E & H) | H].
      - left. destruct l as [| x l]; cbn in E.
        + congruence.
        + injection E as _ E. exists l, rest'. split; [exact E |].
          cbn in H. lia.
      - right. cbn in H. lia. }
    specialize (IH rest H').
    destruct (readBytesUntil t n rest) as [buf rest'].
    cbn [fst String.length] in *. lia.
Qed.

Section SensorLine.

Context {T : Target}.

Lemma getORPdata_available (s : state) :
  orp_rx s <> EmptyString ->
  getORPdata s
  = (let '(data, rest) := readBytesUntil CR 20 (orp_rx s) in
     (atof data,
      set_ORP (atof data)
        (set_string_received 1
           (set_sensor_data data
              (set_received_from_sensor
                 (wrap_byte (Z.of_nat (String.length data)))
                 (set_orp_rx rest s)))),
      [OrpPrint (cmd "R")])).
Proof.
  intros Hrx.
  assert (Hav : (0 <? Z.of_nat (String.length (orp_rx s))) = true).
  { apply Z.ltb_lt. destruct (orp_rx s); [contradiction |].
    cbn [String.length]. lia. }
  rewrite run_eq. unfold getORPdata. autorewrite with run.
  rewrite Hav. cbn [when]. autorewrite with run.
  destruct (readBytesUntil CR 20 (orp_rx s)) as [data rest'].
  autorewrite with run. fields. cbn [Z.eqb Pos.eqb when].
  autorewrite with run. fields. reflexivity.
Qed.

(** X1: with something in the receive buffer, and a carriage return
    among its first 20 characters or fewer than 20 characters in it,
    [getORPdata] takes one line off it: fewer than 20 characters go to
    [sensor_data], none of them a carriage return, and
    [received_from_sensor], the index at which the terminator is written,
    is their number, so inside the array; the buffer was the line, the
    carriage return that ended it, and what is left, or, with no carriage
    return in it, the line alone; the reading returned and kept in [ORP]
    is [atof] of that line, and the read request is sent. *)
Theorem getORPdata_takes_one_line (s : state) :
  orp_rx s <> EmptyString ->
  short_line (orp_rx s) ->
  (String.length (sensor_data (exec getORPdata s)) < 20)%nat
  /\ ~ In CR (list_ascii_of_string (sensor_data (exec getORPdata s)))
  /\ received_from_sensor (exec getORPdata s)
     = Z.of_nat (String.length (sensor_data (exec getORPdata s)))
  /\ (orp_rx s
      = (sensor_data (exec getORPdata s)
         ++ String CR (orp_rx (exec getORPdata s)))%string
      \/ (orp_rx s = sensor_data (exec getORPdata s)
          /\ orp_rx (exec getORPdata s) = EmptyString))
  /\ string_received (exec getORPdata s) = 1
  /\ ORP (exec getORPdata s) = atof (sensor_data (exec getORPdata s))
  /\ value getORPdata s = ORP (exec getORPdata s)
  /\ trace getORPdata s = [OrpPrint (cmd "R")].
Proof.
  intros Hrx Hshort. unfold value, exec, trace.
  rewrite (getORPdata_available s Hrx).
  pose proof (readBytesUntil_splits CR 20 (orp_rx s)) as (_ & Hin & Hcat).
  pose proof (readBytesUntil_short CR 20 (orp_rx s) Hshort) as Hlen.
  destruct (readBytesUntil CR 20 (orp_rx s)) as [data rest].
  cbn [fst snd] in *. fields.
  split; [exact Hlen |]. split; [exact Hin |].
  split; [unfold wrap_byte; apply Z.mod_small; lia |].
  split; [| repeat split].
  destruct Hcat as [Hcat | [Hcat [H20 | Hr]]].
  - left. exact Hcat.
  - lia.
  - right. split; [| exact Hr]. rewrite Hcat, Hr. apply append_empty_r.
Qed.

(** X2: a reading sent as a line of fewer than 20 characters and ended by
    a carriage return comes out whole: [sensor_data] is the line, [ORP]
    and the value returned are [atof] of it, the read request is sent, and
    what followed the carriage return stays in the buffer for the next
    call. *)
Theorem getORPdata_reads_line (l rest : string) (s : state) :
  ~ In CR (list_ascii_of_string l) ->
  (String.length l < 20)%nat ->
  orp_rx s = (l ++ String CR rest)%string ->
  getORPdata s
  = (atof l,
     set_ORP (atof l)
       (set_string_received 1
          (set_sensor_data l
             (set_received_from_sensor (Z.of_nat (String.length l))
                (set_orp_rx rest s)))),
     [OrpPrint (cmd "R")]).
Proof.
  intros Hin Hlen Hrx. rewrite getORPdata_available.
  - rewrite Hrx, (readBytesUntil_line CR 20 l rest Hin Hlen).
    unfold wrap_byte. rewrite Z.mod_small by lia. reflexivity.
  - rewrite Hrx. destruct l; discriminate.
Qed.

End SensorLine.

Lemma getORPdata_takes_one_line_witness :
  (String.length
     (sensor_data (exec (T := Binary32.target) getORPdata
                     (holding (line "123.4")))) < 20)%nat.
Proof.
  refine (proj1 (getORPdata_takes_one_line (T := Binary32.target)
                   (holding (line "123.4")) _ _)).
  - discriminate.
  - left. exists "123.4"%string, EmptyString. split; [reflexivity |].
    cbn. lia.
Defined.

Lemma getORPdata_reads_line_witness :
  value (T := Binary32.target) getORPdata (holding (line "123.4"))
  = Binary32.parse "123.4".
Proof.
  unfold value.
  rewrite (getORPdata_reads_line (T := Binary32.target) "123.4" EmptyString
             (holding (line "123.4"))).
  - reflexivity.
  - cbn. intros H. repeat destruct H as [H | H]; try discriminate H.
    exact H.
  - cbn. lia.
  - reflexivity.
Defined.

(** ** The console pass-through *)

Lemma c_str_whole (l : string) :
  ~ In NUL (list_ascii_of_string l) -> c_str l = l.
Proof.
  induction l as [| c l IH]; intros Hin; [reflexivity |].
  cbn in *.
  match goal with
  | |- context [Ascii.eqb c ?z] => destruct (Ascii.eqb_spec c z) as [-> | Hc]
  end.
  - exfalso. apply Hin. left. reflexivity.
  - rewrite IH; [reflexivity | tauto].
Qed.

(** Storing a line without NUL and its terminator in an array that has
    room for both leaves the line as the C string of the array. *)
Lemma c_str_stored (l array : string) :
  ~ In NUL (list_ascii_of_string l) ->
  (String.length l < String.length array)%nat ->
  c_str (put (String.length l) NUL (store l array)) = l
  /\ String.length (put (String.length l) NUL (store l array))
     = String.length array.
Proof.
  revert array. induction l as [| c l IH]; intros array Hin Hlen.
  - destruct array as [| x array]; [cbn in Hlen; lia |].
    split; reflexivity.
  - destruct array as [| x array]; [cbn in Hlen; lia |].
    cbn [String.length store put c_str].
    destruct (IH array) as [E L]; [cbn in Hin; tauto | cbn in Hlen; lia |].
    change (ascii_of_nat 0) with NUL.
    destruct (Ascii.eqb_spec c NUL) as [-> | Hc].
    + exfalso. apply Hin. left. reflexivity.
    + rewrite E, L. split; reflexivity.
Qed.

(** X3: [serialEvent] hands a console line over to the sensor as it is:
    a line with no NUL in it, of fewer than 20 characters and ended by a
    carriage return, is stored in [computerdata] with its terminator,
    [received_from_computer] is its length, the line is sent followed by a
    carriage return, and what followed it stays on the console; the
    globals of the rest of the sketch do not change.  When 20 characters
    come with no carriage return among them, the terminator falls at index
    20, past the 20 characters of the array, and nothing is promised from
    there. *)
Theorem serialEvent_forwards {T : Target} (l rest : string) (g : console)
  (s : state) :
  ~ In CR (list_ascii_of_string l) ->
  ~ In NUL (list_ascii_of_string l) ->
  String.length (computerdata g) = 20%nat ->
  ((String.length l < 20)%nat ->
   exists data,
     serialEvent (l ++ String CR rest)%string g s
     = (Some (rest, mkConsole (Z.of_nat (String.length l)) data), s,
        [OrpPrint l; OrpPrint (String CR EmptyString)])
     /\ c_str data = l
     /\ String.length data = 20%nat)
  /\ (String.length l = 20%nat ->
      serialEvent (l ++ rest)%string g s = (None, s, [])).
Proof.
  intros Hcr Hnul Harr. unfold serialEvent. cbn [pc_debug Z.eqb Pos.eqb].
  split; intros Hlen.
  - rewrite (readBytesUntil_line CR 20 l rest Hcr Hlen).
    unfold wrap_byte. rewrite Z.mod_small by lia.
    destruct (Z.ltb_spec (Z.of_nat (String.length l)) 20); [| lia].
    rewrite Nat2Z.id.
    destruct (c_str_stored l (computerdata g) Hnul ltac:(lia)) as [E L].
    exists (put (String.length l) NUL (store l (computerdata g))).
    change (ascii_of_nat 0) with NUL. rewrite E.
    split; [reflexivity |]. split; [reflexivity | congruence].
  - pose proof (readBytesUntil_full CR l rest Hcr) as E.
    rewrite Hlen in E. rewrite E, Hlen. reflexivity.
Qed.

Lemma serialEvent_forwards_witness :
  sensor_tx
    (trace (T := Binary32.target) (serialEvent (line "C") cleared) init)
  = ["C"%string; String CR EmptyString]
  /\ value (T := Binary32.target) (serialEvent (line twenty) cleared) init
     = None.
Proof.
  unfold trace, value.
  destruct (serialEvent_forwards (T := Binary32.target) "C" EmptyString
              cleared init)
    as [H _].
  - cbn. intros H. repeat destruct H as [H | H]; try discriminate H. exact H.
  - cbn. intros H. repeat destruct H as [H | H]; try discriminate H. exact H.
  - reflexivity.
  - destruct H as (data & H & _); [cbn; lia |].
    change (line "C") with ("C" ++ String CR EmptyString)%string.
    rewrite H. split; reflexivity.
Defined.

(** ** Buttons and edge flags *)

(** X4: whatever the globals are, [ReadButtons] answers with the button
    whose band holds the reading, the bands being apart from each other:
    RIGHT below 10, UP in 135..155, DOWN in 319..339, LEFT in 495..515,
    SELECT in 731..751 and BUTTON_NONE everywhere else; the answer is what
    [buttonWas] remembers. *)
Theorem ReadButtons_classifies {T : Target} (a0 : Z) (s : state) :
  (value (ReadButtons a0) s = RIGHT <-> wrap_uint a0 < 10)
  /\ (value (ReadButtons a0) s = UP <-> 135 <= wrap_uint a0 <= 155)
  /\ (value (ReadButtons a0) s = DOWN <-> 319 <= wrap_uint a0 <= 339)
  /\ (value (ReadButtons a0) s = LEFT <-> 495 <= wrap_uint a0 <= 515)
  /\ (value (ReadButtons a0) s = SELECT <-> 731 <= wrap_uint a0 <= 751)
  /\ (value (ReadButtons a0) s = BUTTON_NONE <->
      10 <= wrap_uint a0 < 135 \/ 155 < wrap_uint a0 < 319
      \/ 339 < wrap_uint a0 < 495 \/ 515 < wrap_uint a0 < 731
      \/ 751 < wrap_uint a0)
  /\ buttonWas (exec (ReadButtons a0) s) = value (ReadButtons a0) s.
Proof.
  assert (Hw : buttonWas (exec (ReadButtons a0) s)
               = button_of_voltage (wrap_uint a0))
    by (unfold ReadButtons; crunch; reflexivity).
  rewrite Hw, ReadButtons_value.
  assert (H0 : 0 <= wrap_uint a0)
    by (unfold wrap_uint; apply Z.mod_pos_bound; lia).
  unfold button_of_voltage, RIGHT_10BIT, UP_10BIT, DOWN_10BIT, LEFT_10BIT,
    SELECT_10BIT, HYSTERESIS, RIGHT, UP, DOWN, LEFT, SELECT, BUTTON_NONE.
  repeat match goal with
         | |- context [?a <? ?b] => destruct (Z.ltb_spec a b)
         | |- context [?a <=? ?b] => destruct (Z.leb_spec a b)
         end; cbn [andb]; repeat split; intros; try lia; try discriminate.
Qed.

(** ** Invariants of the whole sketch *)

Section WholeSketch.

Context {T : Target}.

(** A property kept by the few places that write globals is kept by the
    whole sketch. *)
Variable I : state -> Prop.
Hypothesis I_arrive : forall bytes, keeps I (serial_arrive bytes).
Hypothesis I_read : forall a0, keeps I (ReadButtons a0).
Hypothesis I_average : keeps I average_ORP.
Hypothesis I_logfreq : forall p, keeps I (logfreq_pass p).
Hypothesis I_toggle : forall now sub, keeps I (dispatch SELECT now sub).
Hypothesis I_check : forall now, keeps I (check_logging now).

Ltac kept := repeat (step_rules ltac:(fail)).

Lemma kept_calibration_loop (ps : list poll) : keeps I (calibration_loop ps).
Proof.
  induction ps as [| p ps IH]; cbn [calibration_loop]; [kept |].
  apply keeps_bind; [unfold calibration_pass, show_ORPvalue; kept |].
  intros b. destruct (negb _); [exact IH | kept].
Qed.

Lemma kept_logfreq_loop (ps : list poll) : keeps I (logfreq_loop ps).
Proof.
  induction ps as [| p ps IH]; cbn [logfreq_loop]; [kept |].
  apply keeps_bind; [apply I_logfreq |].
  intros b. destruct (negb _); [exact IH | kept].
Qed.

Lemma kept_dispatch (button : Z) (now : DateTime) (sub : list poll) :
  keeps I (dispatch button now sub).
Proof.
  pose proof kept_calibration_loop. pose proof kept_logfreq_loop.
  destruct (Z.eq_dec button SELECT) as [-> | Hs]; [apply I_toggle |].
  unfold dispatch.
  destruct (button =? BUTTON_NONE); [kept |].
  destruct (button =? RIGHT); [unfold startCalibration; kept |].
  destruct (button =? UP); [kept |].
  destruct (button =? DOWN); [kept |].
  destruct (button =? LEFT); [unfold setLogFreq; kept |].
  destruct (Z.eqb_spec button SELECT); [contradiction | kept].
Qed.

Lemma kept_loop (c : cycle) : keeps I (loop c).
Proof.
  unfold loop. apply keeps_bind.
  - unfold loop_head, print_date, print_time, print_padded_digit. kept.
  - intros b. apply keeps_bind; [apply kept_dispatch |].
    intros back. destruct back; [| kept].
    unfold loop_tail, show_ORPvalue. kept.
Qed.

Lemma kept_run (cs : list cycle) : keeps I (run cs).
Proof.
  induction cs as [| c cs IH]; cbn [run]; [kept |].
  apply keeps_bind; [apply kept_loop |].
  intros back. destruct back; [exact IH | kept].
Qed.

Lemma kept_reachable (s : state) : I init -> reachable s -> I s.
Proof.
  intros H0 [cs <-]. rewrite exec_bind.
  apply kept_run. unfold setup.
  assert (K : keeps I setup) by (unfold setup; kept).
  apply K, H0.
Qed.

End WholeSketch.

Section EdgeFlags.

Context {T : Target}.

(** The two flags after a poll, as lines 216-225 set them. *)
Lemma ReadButtons_flags (a0 : Z) (s : state) :
  let button := button_of_voltage (wrap_uint a0) in
  let press := (buttonWas s =? BUTTON_NONE) && negb (button =? BUTTON_NONE) in
  let release :=
    negb (buttonWas s =? BUTTON_NONE) && (button =? BUTTON_NONE) in
  buttonJustPressed (exec (ReadButtons a0) s)
  = (if press then true else if release then false else buttonJustPressed s)
  /\ buttonJustReleased (exec (ReadButtons a0) s)
     = (if press then false else if release then true
        else buttonJustReleased s)
  /\ buttonWas (exec (ReadButtons a0) s) = button.
Proof.
  cbv zeta. unfold ReadButtons. autorewrite with run.
  destruct (buttonWas s =? BUTTON_NONE) eqn:Ew;
    destruct (button_of_voltage (wrap_uint a0) =? BUTTON_NONE) eqn:Eb;
    cbn [andb negb when]; autorewrite with run; fields;
    rewrite ?Ew; cbn [andb negb when]; autorewrite with run; fields;
    repeat split; reflexivity.
Qed.

Lemma ReadButtons_follow (a0 : Z) : keeps flags_follow_level (ReadButtons a0).
Proof.
  intros s [Hp Hr]. unfold flags_follow_level.
  destruct (ReadButtons_flags a0 s) as (-> & -> & ->).
  cbv zeta.
  destruct (Z.eqb_spec (buttonWas s) BUTTON_NONE) as [Hw | Hw];
    destruct (Z.eqb_spec (button_of_voltage (wrap_uint a0)) BUTTON_NONE)
      as [Hb | Hb];
    cbn [andb negb];
    (split;
     [ first [reflexivity | assumption]
     | intros H;
       first [discriminate H | assumption | exfalso; apply Hw, Hr, H] ]).
Qed.

Lemma ReadButtons_flagged (a0 : Z) : keeps flagged (ReadButtons a0).
Proof.
  intros s H. unfold flagged in *.
  destruct (ReadButtons_flags a0 s) as (-> & -> & _).
  cbv zeta.
  destruct (_ && _); [reflexivity |]. destruct (_ && _); [reflexivity |].
  exact H.
Qed.

Ltac button_frames :=
  repeat (step_rules
            ltac:(unfold flags_follow_level, flagged in *; fields;
                  assumption)).

(** X5: the edge flags are never lowered once the poll has set them, so at
    the end of every polling iteration they show a level, not an edge: the
    press flag is up exactly when a button was down at the last poll, the
    release flag is up only when none was, and the two are never up
    together. *)
Theorem flags_show_level (s : state) :
  reachable s ->
  buttonJustPressed s = negb (buttonWas s =? BUTTON_NONE)
  /\ (buttonJustReleased s = true -> buttonWas s = BUTTON_NONE)
  /\ buttonJustPressed s && buttonJustReleased s = false.
Proof.
  intros Hr.
  assert (H : flags_follow_level s).
  { pose proof ReadButtons_follow.
    apply kept_reachable; try assumption.
    - intros b. unfold serial_arrive. button_frames.
    - unfold average_ORP, getORPdata. button_frames.
    - intros p. unfold logfreq_pass, serial_arrive, show_logFreq.
      button_frames.
    - intros now sub. unfold dispatch.
      cbn [Z.eqb SELECT BUTTON_NONE RIGHT UP DOWN LEFT Pos.eqb].
      unfold LogData. button_frames.
    - intros now. unfold check_logging, LogData. button_frames.
    - split; [reflexivity | discriminate]. }
  destruct H as [Hp Hrel]. repeat split; try assumption.
  rewrite Hp. destruct (buttonJustReleased s); [| apply andb_false_r].
  rewrite (Hrel eq_refl). reflexivity.
Qed.

(** X6: once a button has been pressed, one of the two edge flags is up
    at the end of every polling iteration that follows, in the main loop as
    in the sub-loops, and every main-loop cycle blanks the feedback row. *)
Theorem feedback_row_blanked_for_good (cs : list cycle) (c : cycle)
  (s : state) :
  flagged s ->
  flagged (exec (run cs) s)
  /\ In (LcdPrint "       ") (trace (loop_head c) (exec (run cs) s)).
Proof.
  intros H.
  assert (K : forall cs', keeps flagged (run cs')).
  { pose proof ReadButtons_flagged. intros cs'.
    apply kept_run; try assumption.
    - intros b. unfold serial_arrive. button_frames.
    - unfold average_ORP, getORPdata. button_frames.
    - intros p. unfold logfreq_pass, serial_arrive, show_logFreq.
      button_frames.
    - intros now sub. unfold dispatch.
      cbn [Z.eqb SELECT BUTTON_NONE RIGHT UP DOWN LEFT Pos.eqb].
      unfold LogData. button_frames.
    - intros now. unfold check_logging, LogData. button_frames. }
  pose proof (K cs s H) as Hs. split; [exact Hs |].
  set (s' := exec (run cs) s) in *.
  unfold loop_head. rewrite !trace_bind.
  assert (Hf : flagged
                 (exec (ReadButtons (adc (c_poll c)))
                    (exec (print_time (c_now c))
                       (exec (print_date (c_now c))
                          (exec (emit LcdClear)
                             (exec (serial_arrive (rx (c_poll c))) s')))))).
  { apply ReadButtons_flagged.
    assert (Kp : keeps flagged
                   (serial_arrive (rx (c_poll c)) ;; emit LcdClear ;;
                    print_date (c_now c) ;; print_time (c_now c)))
      by (unfold serial_arrive, print_date, print_time, print_padded_digit;
          button_frames).
    specialize (Kp s' Hs). autorewrite with run in Kp. exact Kp. }
  autorewrite with run. autorewrite with run in Hf.
  unfold flagged in Hf. rewrite Hf. cbn [when]. autorewrite with run.
  rewrite !in_app_iff. cbn [In]. auto 15.
Qed.

End EdgeFlags.

Lemma flags_show_level_witness :
  buttonJustPressed (T := Binary32.target)
    (exec (setup ;; run [select_cycle]) init) = true.
Proof.
  apply (flags_show_level (T := Binary32.target)
           (exec (setup ;; run [select_cycle]) init)).
  exists [select_cycle]. reflexivity.
Defined.

Lemma feedback_row_blanked_for_good_witness :
  flagged (T := Binary32.target)
    (exec (run [quiet_cycle; quiet_cycle])
       (exec (loop select_cycle) init)).
Proof.
  refine (proj1 (feedback_row_blanked_for_good (T := Binary32.target)
                   [quiet_cycle; quiet_cycle] quiet_cycle
                   (exec (loop select_cycle) init) _)).
  vm_compute. reflexivity.
Defined.

(** ** The stored line and the logging interval *)

Section StoredLine.

Context {T : Target}.

Lemma lines_app (ls1 ls2 : list string) :
  lines (ls1 ++ ls2) = (lines ls1 ++ lines ls2)%string.
Proof.
  induction ls1 as [| l ls1 IH]; cbn [app lines]; [reflexivity |].
  rewrite IH, append_assoc. reflexivity.
Qed.

Lemma framed_app (a b : string) :
  framed a -> framed b -> framed (a ++ b)%string.
Proof.
  intros (la & Ha & ->) (lb & Hb & ->). exists (la ++ lb).
  split; [apply Forall_app; split; assumption | symmetry; apply lines_app].
Qed.

Ltac line_frames :=
  repeat (step_rules ltac:(unfold line_in_bounds in *; fields; assumption)).

Lemma arrive_in_bounds (bytes : string) :
  framed bytes -> keeps line_in_bounds (serial_arrive bytes).
Proof.
  intros Hb s (Hf & H). unfold serial_arrive. rewrite exec_modify.
  unfold line_in_bounds. fields. split; [| exact H].
  apply framed_app; assumption.
Qed.

Lemma getORPdata_in_bounds : keeps line_in_bounds getORPdata.
Proof.
  intros s ((ls & Hls & Hrx) & Hlen & Hrec & Hsr & H0).
  unfold line_in_bounds. destruct ls as [| l ls].
  - cbn [lines] in Hrx.
    unfold getORPdata. autorewrite with run. rewrite Hrx.
    cbn [String.length Z.of_nat Z.ltb Z.compare when].
    autorewrite with run.
    assert (Hf : framed EmptyString)
      by (exists []; split; [constructor | reflexivity]).
    destruct (Z.eqb_spec (string_received s) 1) as [H1 | H1]; cbn [when];
      autorewrite with run; fields; rewrite ?Hrx.
    + split; [exact Hf |]. split; [exact Hlen |]. split; [exact Hrec |].
      split; [exact Hsr |]. intros C; lia.
    + split; [exact Hf |]. split; [exact Hlen |]. split; [exact Hrec |].
      split; [exact Hsr | exact H0].
  - apply Forall_cons_iff in Hls as [[Hcr Hl] Hls].
    assert (Hrx' : orp_rx s = (l ++ String CR (lines ls))%string).
    { rewrite Hrx. cbn [lines]. unfold line. rewrite append_assoc.
      reflexivity. }
    unfold exec. rewrite getORPdata_available
      by (rewrite Hrx'; destruct l; discriminate).
    rewrite Hrx', (readBytesUntil_line CR 20 l (lines ls) Hcr Hl).
    cbn [fst snd]. fields. unfold wrap_byte. rewrite Z.mod_small by lia.
    split; [exists ls; split; [exact Hls | reflexivity] |].
    split; [exact Hl |]. split; [reflexivity |].
    split; [right; reflexivity |]. intros C; discriminate C.
Qed.

Lemma average_in_bounds : keeps line_in_bounds average_ORP.
Proof.
  pose proof getORPdata_in_bounds. unfold average_ORP. line_frames.
Qed.

Lemma calibration_loop_in_bounds (ps : list poll) :
  Forall (fun p => framed (rx p)) ps ->
  keeps line_in_bounds (calibration_loop ps).
Proof.
  pose proof average_in_bounds.
  induction 1 as [| p ps Hp _ IH]; cbn [calibration_loop];
    [line_frames |].
  pose proof (arrive_in_bounds (rx p) Hp).
  apply keeps_bind;
    [unfold calibration_pass, show_ORPvalue, ReadButtons; line_frames |].
  intros b. destruct (negb _); [exact IH | line_frames].
Qed.

Lemma logfreq_loop_in_bounds (ps : list poll) :
  Forall (fun p => framed (rx p)) ps ->
  keeps line_in_bounds (logfreq_loop ps).
Proof.
  induction 1 as [| p ps Hp _ IH]; cbn [logfreq_loop]; [line_frames |].
  pose proof (arrive_in_bounds (rx p) Hp).
  apply keeps_bind;
    [unfold logfreq_pass, show_logFreq, ReadButtons; line_frames |].
  intros b. destruct (negb _); [exact IH | line_frames].
Qed.

Lemma loop_in_bounds (c : cycle) :
  in_protocol c -> keeps line_in_bounds (loop c).
Proof.
  intros [Hrx Hsub].
  pose proof average_in_bounds.
  pose proof (arrive_in_bounds _ Hrx).
  pose proof (calibration_loop_in_bounds _ Hsub).
  pose proof (logfreq_loop_in_bounds _ Hsub).
  unfold loop, loop_head, dispatch, loop_tail, startCalibration, setLogFreq,
    print_date, print_time, print_padded_digit, ReadButtons, show_ORPvalue,
    check_logging, LogData.
  line_frames.
Qed.

Lemma run_in_bounds (cs : list cycle) :
  Forall in_protocol cs -> keeps line_in_bounds (run cs).
Proof.
  induction 1 as [| c cs Hc _ IH]; cbn [run]; [line_frames |].
  apply keeps_bind; [apply loop_in_bounds, Hc |].
  intros back. destruct back; [exact IH | line_frames].
Qed.

End StoredLine.

Section StoredLineFacts.

Context {T : Target}.

(** X7: as long as the sensor keeps to its protocol, sending whole
    lines shorter than 20 characters, every terminator is written inside
    [sensor_data]: at the end of every polling iteration the stored
    response has fewer than 20 characters and [received_from_sensor] is
    their number, whole lines wait in the receive buffer,
    [string_received] is 0 or 1, and while it is 0 nothing is stored and
    the reading [ORP] is still the initial 0. *)
Theorem stored_line_fits (cs : list cycle) :
  Forall in_protocol cs ->
  (String.length (sensor_data (exec (setup ;; run cs) init)) < 20)%nat
  /\ received_from_sensor (exec (setup ;; run cs) init)
     = Z.of_nat (String.length (sensor_data (exec (setup ;; run cs) init)))
  /\ framed (orp_rx (exec (setup ;; run cs) init))
  /\ (string_received (exec (setup ;; run cs) init) = 0
      \/ string_received (exec (setup ;; run cs) init) = 1)
  /\ (string_received (exec (setup ;; run cs) init) = 0 ->
      sensor_data (exec (setup ;; run cs) init) = EmptyString
      /\ ORP (exec (setup ;; run cs) init) = f_of_Z 0).
Proof.
  intros Hcs.
  assert (H : line_in_bounds (exec (setup ;; run cs) init)).
  { rewrite exec_bind. apply run_in_bounds; [exact Hcs |].
    assert (K : keeps line_in_bounds setup)
      by (unfold setup;
          repeat (step_rules ltac:(unfold line_in_bounds in *; fields;
                                   assumption))).
    apply K. unfold line_in_bounds. cbn.
    split; [exists []; split; [constructor | reflexivity] |].
    split; [lia |]. split; [reflexivity |]. split; [left; reflexivity |].
    intros _. split; reflexivity. }
  destruct H as (Hf & Hlen & Hrec & Hsr & H0).
  split; [exact Hlen |]. split; [exact Hrec |]. split; [exact Hf |].
  split; [exact Hsr | exact H0].
Qed.

(** X8: [string_received] is never taken back to 0: once a response has
    been received it stays 1 through every cycle and sub-loop pass, so
    [getORPdata] goes on parsing the stored line whether or not a new one
    came in, and the reading it holds is the one parsed from that line. *)
Theorem string_received_for_good (cs : list cycle) (s : state) :
  string_received s = 1 ->
  string_received (exec (run cs) s) = 1
  /\ (orp_rx (exec (run cs) s) = EmptyString ->
      value getORPdata (exec (run cs) s)
      = atof (sensor_data (exec (run cs) s))).
Proof.
  intros H1.
  assert (Kg : keeps (fun s => string_received s = 1) getORPdata).
  { intros s0 H. destruct (string_dec (orp_rx s0) EmptyString) as [Hrx | Hrx].
    - unfold getORPdata. autorewrite with run. rewrite Hrx.
      cbn [String.length Z.of_nat Z.ltb Z.compare when].
      autorewrite with run. rewrite H. cbn [Z.eqb Pos.eqb when].
      autorewrite with run. fields. exact H.
    - unfold exec. rewrite (getORPdata_available s0 Hrx).
      destruct (readBytesUntil CR 20 (orp_rx s0)). reflexivity. }
  assert (K : keeps (fun s => string_received s = 1) (run cs)).
  { apply kept_run.
    - intros b. unfold serial_arrive. stepwise.
    - intros a0. unfold ReadButtons. stepwise.
    - unfold average_ORP. stepwise.
    - intros p. unfold logfreq_pass, serial_arrive, ReadButtons,
        show_logFreq. stepwise.
    - intros now sub. unfold dispatch.
      cbn [Z.eqb SELECT BUTTON_NONE RIGHT UP DOWN LEFT Pos.eqb].
      unfold LogData. stepwise.
    - intros now. unfold check_logging, LogData. stepwise. }
  pose proof (K s H1) as Hs. split; [exact Hs |].
  intros Hrx. unfold getORPdata. autorewrite with run. rewrite Hrx.
  cbn [String.length Z.of_nat Z.ltb Z.compare when].
  autorewrite with run. rewrite Hs. cbn [Z.eqb Pos.eqb when].
  autorewrite with run. reflexivity.
Qed.

Lemma wrap_long_range (z : Z) : - 2 ^ 31 <= wrap_long z <= LONG_MAX.
Proof.
  unfold wrap_long, LONG_MAX.
  pose proof (Z.mod_pos_bound (z + 2 ^ 31) (2 ^ 32) ltac:(lia)). lia.
Qed.

(** X9: at the end of every polling iteration the logging interval is at
    least 5 seconds (and within [long]): nothing but [setLogFreq] writes
    it, and every pass of [setLogFreq] ends above the floor. *)
Theorem interval_never_below_5 (s : state) :
  reachable s -> 5 <= logFreq s <= LONG_MAX.
Proof.
  apply (kept_reachable interval_in_range).
  - intros b. unfold serial_arrive. stepwise.
  - intros a0. unfold ReadButtons. stepwise.
  - unfold average_ORP, getORPdata. stepwise.
  - intros p s0 H. unfold interval_in_range in *.
    rewrite logfreq_pass_logFreq. cbv zeta.
    pose proof (wrap_long_range (logFreq s0 + 5)).
    pose proof (wrap_long_range (logFreq s0 - 5)).
    pose proof (wrap_long_range (wrap_long (logFreq s0 + 5) - 5)).
    unfold LONG_MAX in *.
    repeat match goal with
           | |- context [if ?b then _ else _] => destruct b eqn:?
           end;
      repeat match goal with
             | E : (_ <? _) = _ |- _ =>
                 first [apply Z.ltb_lt in E | apply Z.ltb_ge in E]
             end; lia.
  - intros now sub. unfold dispatch.
    cbn [Z.eqb SELECT BUTTON_NONE RIGHT UP DOWN LEFT Pos.eqb].
    unfold LogData. stepwise.
  - intros now. unfold check_logging, LogData. stepwise.
  - unfold interval_in_range, LONG_MAX. cbn. lia.
Qed.

End StoredLineFacts.

(** ** A round of the averaging block *)

Section Round.

Context {T : Target}.

(** A pass that finds a whole response in the buffer and the counter
    below 4 folds that response. *)
Lemma pass_folds_response (l : string) (s : state) :
  response l -> orp_rx s = EmptyString -> 1 <= counter s < 4 ->
  avgORP (exec (serial_arrive (line l) ;; average_ORP) s)
  = fdiv (fadd (avgORP s) (atof l)) (f_of_Z (counter s))
  /\ counter (exec (serial_arrive (line l) ;; average_ORP) s) = counter s + 1
  /\ orp_rx (exec (serial_arrive (line l) ;; average_ORP) s) = EmptyString
  /\ ORPvalue (exec (serial_arrive (line l) ;; average_ORP) s) = ORPvalue s.
Proof.
  intros [Hcr Hlen] Hrx Hc.
  assert (Hg : getORPdata (exec (serial_arrive (line l)) s)
               = (atof l,
                  set_ORP (atof l)
                    (set_string_received 1
                       (set_sensor_data l
                          (set_received_from_sensor
                             (Z.of_nat (String.length l))
                             (set_orp_rx EmptyString
                                (exec (serial_arrive (line l)) s))))),
                  [OrpPrint (cmd "R")])).
  { rewrite getORPdata_available.
    - unfold serial_arrive. autorewrite with run. fields. rewrite Hrx.
      change (EmptyString ++ line l)%string
        with (l ++ String CR EmptyString)%string.
      rewrite (readBytesUntil_line CR 20 l EmptyString Hcr Hlen).
      unfold wrap_byte. rewrite Z.mod_small by lia. reflexivity.
    - unfold serial_arrive. autorewrite with run. fields. rewrite Hrx.
      unfold line. destruct l; discriminate. }
  assert (Hcs : counter (exec (serial_arrive (line l)) s) = counter s)
    by reflexivity.
  assert (Has : avgORP (exec (serial_arrive (line l)) s) = avgORP s)
    by reflexivity.
  assert (Hvs : ORPvalue (exec (serial_arrive (line l)) s) = ORPvalue s)
    by reflexivity.
  rewrite !exec_bind.
  set (s0 := exec (serial_arrive (line l)) s) in *. clearbody s0.
  unfold average_ORP. autorewrite with run. rewrite Hcs.
  destruct (Z.ltb_spec (counter s) 4); [| lia].
  autorewrite with run. unfold value, exec. rewrite Hg. cbn [fst snd].
  fields. rewrite Has, Hvs. unfold wrap_byte. rewrite Z.mod_small by lia.
  repeat split; reflexivity.
Qed.

(** A pass that finds the counter at 4 publishes and reads nothing. *)
Lemma pass_publishes (bytes : string) (s : state) :
  counter s = 4 ->
  exec (serial_arrive bytes ;; average_ORP) s
  = set_ORPvalue (avgORP s)
      (set_counter 1 (set_orp_rx (orp_rx s ++ bytes)%string s)).
Proof.
  intros Hc. rewrite exec_bind. unfold average_ORP, serial_arrive.
  autorewrite with run. fields. rewrite Hc. cbn [Z.ltb Z.compare Pos.compare
    Pos.compare_cont]. autorewrite with run. reflexivity.
Qed.

(** X10: a round that starts with the counter at 1 and an empty receive
    buffer, and is sent three whole responses r1, r2, r3, one per pass,
    folds them with the divisors 1, 2 and 3 and publishes on the fourth
    pass (((a + r1) / 1 + r2) / 2 + r3) / 3, every operation being the
    target's own (binary32 with its rounding on the AVR), where a is the
    average left by the round before: the running average is never reset.
    The published value does not change during the three folds; the
    fourth pass reads nothing, so what arrives then waits in the buffer;
    the round ends with the counter back at 1 and the running average
    equal to the published value. *)
Theorem round_of_three_folds (l1 l2 l3 bytes : string) (s : state) :
  response l1 -> response l2 -> response l3 ->
  orp_rx s = EmptyString -> counter s = 1 ->
  ORPvalue (folded [line l1; line l2; line l3; bytes] s)
  = fdiv (fadd (fdiv (fadd (fdiv (fadd (avgORP s) (atof l1)) (f_of_Z 1))
                        (atof l2)) (f_of_Z 2))
            (atof l3)) (f_of_Z 3)
  /\ avgORP (folded [line l1; line l2; line l3; bytes] s)
     = ORPvalue (folded [line l1; line l2; line l3; bytes] s)
  /\ counter (folded [line l1; line l2; line l3; bytes] s) = 1
  /\ orp_rx (folded [line l1; line l2; line l3; bytes] s) = bytes
  /\ ORPvalue (folded [line l1; line l2; line l3] s) = ORPvalue s.
Proof.
  intros R1 R2 R3 Hrx Hc. unfold folded. cbn [fold_left].
  destruct (pass_folds_response l1 s R1 Hrx ltac:(lia)) as (A1 & C1 & X1 & V1).
  set (s1 := exec (serial_arrive (line l1) ;; average_ORP) s) in *.
  destruct (pass_folds_response l2 s1 R2 X1 ltac:(lia)) as (A2 & C2 & X2 & V2).
  set (s2 := exec (serial_arrive (line l2) ;; average_ORP) s1) in *.
  destruct (pass_folds_response l3 s2 R3 X2 ltac:(lia)) as (A3 & C3 & X3 & V3).
  set (s3 := exec (serial_arrive (line l3) ;; average_ORP) s2) in *.
  rewrite (pass_publishes bytes s3) by lia. fields.
  rewrite A3, A2, A1, C2, C1, Hc, X3, V3, V2, V1.
  repeat split; reflexivity.
Qed.

End Round.

(** ** The cadence of read requests *)

Section Requests.

Context {T : Target}.

Lemma getORPdata_trace (s : state) :
  trace getORPdata s = [OrpPrint (cmd "R")].
Proof. unfold getORPdata. crunch; reflexivity. Qed.

Lemma average_ORP_tx (s : state) :
  sensor_tx (trace average_ORP s)
  = if counter s <? 4 then [cmd "R"] else [].
Proof.
  unfold average_ORP. autorewrite with run.
  destruct (counter s <? 4); autorewrite with run;
    rewrite ?getORPdata_trace; reflexivity.
Qed.

Lemma sensor_tx_emits {A : Type} (m : M A) (s : state) :
  emits not_to_sensor m -> sensor_tx (trace m s) = [].
Proof. intros H. apply sensor_tx_none, H. Qed.

(** The switch when no sub-loop is entered. *)
Lemma dispatch_plain (button : Z) (now : DateTime) (sub : list poll)
  (s : state) :
  button <> RIGHT -> button <> LEFT ->
  value (dispatch button now sub) s = true
  /\ sensor_tx (trace (dispatch button now sub) s) = []
  /\ counter (exec (dispatch button now sub) s) = counter s.
Proof.
  intros Hr Hl. unfold dispatch.
  destruct (button =? BUTTON_NONE); [repeat split |].
  destruct (Z.eqb_spec button RIGHT); [contradiction |].
  destruct (button =? UP); [repeat split |].
  destruct (button =? DOWN); [repeat split |].
  destruct (Z.eqb_spec button LEFT); [contradiction |].
  destruct (button =? SELECT); [| repeat split].
  split; [autorewrite with run; reflexivity |]. split.
  - apply sensor_tx_emits. unfold LogData. stepwise.
  - assert (K : forall k,
               keeps (fun s => counter s = k)
                 (modify (fun s => set_logData (negb (logData s)) s) ;;
                  active <- gets logData ;;
                  (if active : bool then
                     emit (DigitalWrite logPin true) ;;
                     v <- gets ORPvalue ;;
                     LogData v now ;;
                     freq <- gets logFreq ;;
                     modify (set_nextDataPoint
                               (wrap_ulong (unixtime now + freq)))
                   else emit (DigitalWrite logPin false)) ;;
                  ret true))
      by (intros k; unfold LogData; stepwise).
    apply K. reflexivity.
Qed.

Lemma plain_cycle (c : cycle) (s : state) :
  plain c -> 1 <= counter s <= 4 ->
  value (loop c) s = true
  /\ sensor_tx (trace (loop c) s) = (if counter s <? 4 then [cmd "R"] else [])
  /\ counter (exec (loop c) s) = (if counter s <? 4 then counter s + 1 else 1).
Proof.
  intros [Hr Hl] Hc. unfold loop. autorewrite with run.
  rewrite loop_head_value.
  assert (Hh : counter (exec (loop_head c) s) = counter s).
  { assert (K : keeps (fun s0 => counter s0 = counter s) (loop_head c))
      by (unfold loop_head, serial_arrive, print_date, print_time,
            print_padded_digit, ReadButtons; stepwise).
    apply K. reflexivity. }
  set (s1 := exec (loop_head c) s) in *.
  destruct (dispatch_plain (sampled (c_poll c)) (c_now c) (c_sub c) s1 Hr Hl)
    as (Hv & Ht & Hk).
  rewrite Hv. set (s2 := exec (dispatch _ _ _) s1) in *.
  rewrite !sensor_tx_app, Ht.
  rewrite (sensor_tx_emits (loop_head c)) by apply loop_head_quiet.
  split; [apply loop_tail_value |].
  unfold loop_tail. autorewrite with run.
  rewrite !sensor_tx_app, average_ORP_tx.
  rewrite (sensor_tx_emits show_ORPvalue)
    by (unfold show_ORPvalue; stepwise).
  rewrite (sensor_tx_emits (check_logging (c_now c)))
    by (unfold check_logging, LogData; stepwise).
  assert (Kc : keeps (fun s0 => counter s0 = counter (exec average_ORP s2))
                (check_logging (c_now c)))
    by (unfold check_logging, LogData; stepwise).
  assert (Ks : keeps (fun s0 => counter s0 = counter (exec average_ORP s2))
                show_ORPvalue)
    by (unfold show_ORPvalue; stepwise).
  rewrite (Kc _ (Ks _ eq_refl)).
  rewrite average_ORP_counter, Hk, Hh.
  destruct (Z.ltb_spec (counter s) 4).
  - unfold wrap_byte. rewrite Z.mod_small by lia. split; reflexivity.
  - split; reflexivity.
Qed.

(** X11: a cycle asks the sensor for a reading only when it folds: among
    any four consecutive main-loop cycles that enter no sub-loop, exactly
    three send the read request and one, the cycle that publishes, sends
    nothing to the sensor; after the four the counter is where it was. *)
Theorem three_requests_in_four_cycles (c1 c2 c3 c4 : cycle) (s : state) :
  plain c1 -> plain c2 -> plain c3 -> plain c4 ->
  1 <= counter s <= 4 ->
  value (run [c1; c2; c3; c4]) s = true
  /\ sensor_tx (trace (run [c1; c2; c3; c4]) s)
     = [cmd "R"; cmd "R"; cmd "R"]
  /\ counter (exec (run [c1; c2; c3; c4]) s) = counter s.
Proof.
  intros P1 P2 P3 P4 Hc. cbn [run].
  destruct (plain_cycle c1 s P1 Hc) as (V1 & T1 & K1).
  set (s1 := exec (loop c1) s) in *.
  assert (H1 : 1 <= counter s1 <= 4)
    by (rewrite K1; destruct (Z.ltb_spec (counter s) 4); lia).
  destruct (plain_cycle c2 s1 P2 H1) as (V2 & T2 & K2).
  set (s2 := exec (loop c2) s1) in *.
  assert (H2 : 1 <= counter s2 <= 4)
    by (rewrite K2; destruct (Z.ltb_spec (counter s1) 4); lia).
  destruct (plain_cycle c3 s2 P3 H2) as (V3 & T3 & K3).
  set (s3 := exec (loop c3) s2) in *.
  assert (H3 : 1 <= counter s3 <= 4)
    by (rewrite K3; destruct (Z.ltb_spec (counter s2) 4); lia).
  destruct (plain_cycle c4 s3 P4 H3) as (V4 & T4 & K4).
  autorewrite with run. fold s1. rewrite V1. autorewrite with run.
  fold s2. rewrite V2. autorewrite with run. fold s3. rewrite V3.
  autorewrite with run. rewrite V4. autorewrite with run.
  rewrite !sensor_tx_app, T1, T2, T3, T4, K4. cbn [trace ret sensor_tx
    flat_map snd app].
  rewrite app_nil_r.
  revert K1 K2 K3.
  destruct (Z.ltb_spec (counter s) 4);
    destruct (Z.ltb_spec (counter s1) 4);
    destruct (Z.ltb_spec (counter s2) 4);
    destruct (Z.ltb_spec (counter s3) 4);
    intros K1 K2 K3; repeat split; try reflexivity; lia.
Qed.

End Requests.

(** ** Who writes to the logger *)

Section Logger.

Context {T : Target}.

Lemma schedule_arrive (k : bool * Z) (bytes : string) :
  keeps (fun s => schedule s = k) (serial_arrive bytes).
Proof. unfold serial_arrive. stepwise. Qed.

Lemma schedule_ReadButtons (k : bool * Z) (a0 : Z) :
  keeps (fun s => schedule s = k) (ReadButtons a0).
Proof. unfold ReadButtons. stepwise. Qed.

Lemma schedule_average (k : bool * Z) :
  keeps (fun s => schedule s = k) average_ORP.
Proof. unfold average_ORP, getORPdata. stepwise. Qed.

Lemma schedule_show (k : bool * Z) :
  keeps (fun s => schedule s = k) show_ORPvalue.
Proof. unfold show_ORPvalue. stepwise. Qed.

Lemma schedule_logfreq_pass (k : bool * Z) (p : poll) :
  keeps (fun s => schedule s = k) (logfreq_pass p).
Proof.
  pose proof (schedule_arrive k). pose proof (schedule_ReadButtons k).
  unfold logfreq_pass, show_logFreq. stepwise.
Qed.

Lemma schedule_calibration_loop (k : bool * Z) (ps : list poll) :
  keeps (fun s => schedule s = k) (calibration_loop ps).
Proof.
  apply kept_calibration_loop;
    auto using schedule_arrive, schedule_ReadButtons, schedule_average.
Qed.

Lemma schedule_logfreq_loop (k : bool * Z) (ps : list poll) :
  keeps (fun s => schedule s = k) (logfreq_loop ps).
Proof. apply kept_logfreq_loop. apply schedule_logfreq_pass. Qed.

Lemma calibration_loop_no_record (ps : list poll) :
  emits not_to_logger (calibration_loop ps).
Proof.
  induction ps as [| p ps IH]; cbn [calibration_loop]; [stepwise |].
  apply emits_bind;
    [unfold calibration_pass, serial_arrive, average_ORP, getORPdata,
       show_ORPvalue, ReadButtons; stepwise |].
  intros b. destruct (negb _); [exact IH | stepwise].
Qed.

Lemma logfreq_loop_no_record (ps : list poll) :
  emits not_to_logger (logfreq_loop ps).
Proof.
  induction ps as [| p ps IH]; cbn [logfreq_loop]; [stepwise |].
  apply emits_bind;
    [unfold logfreq_pass, serial_arrive, show_logFreq, ReadButtons;
     stepwise |].
  intros b. destruct (negb _); [exact IH | stepwise].
Qed.

Lemma measurement_logfreq_loop
  (k : string * float * float * float * Z * Z) (ps : list poll) :
  keeps (fun s => measurement s = k) (logfreq_loop ps).
Proof.
  apply kept_logfreq_loop. intros p.
  unfold logfreq_pass, serial_arrive, show_logFreq, ReadButtons. stepwise.
Qed.

Lemma logFreq_calibration_loop (k : Z) (ps : list poll) :
  keeps (fun s => logFreq s = k) (calibration_loop ps).
Proof.
  apply kept_calibration_loop; intros;
    unfold serial_arrive, ReadButtons, average_ORP, getORPdata; stepwise.
Qed.

(** X12: the two sub-loops suspend logging and do nothing to its
    schedule: however long a calibration session or a setting of the
    interval lasts, and whether or not a record is due, nothing is written
    to the logger port and [logData] and [nextDataPoint] come out as they
    went in.  Setting the interval also leaves the measurement chain alone
    (stored line, reading, average, published value, counter), and a
    calibration session leaves the interval alone. *)
Theorem sub_loops_suspend_logging (ps : list poll) (s : state) :
  Forall not_to_logger (trace (startCalibration ps) s)
  /\ Forall not_to_logger (trace (setLogFreq ps) s)
  /\ schedule (exec (startCalibration ps) s) = schedule s
  /\ schedule (exec (setLogFreq ps) s) = schedule s
  /\ measurement (exec (setLogFreq ps) s) = measurement s
  /\ logFreq (exec (startCalibration ps) s) = logFreq s.
Proof.
  pose proof calibration_loop_no_record as Hc.
  pose proof logfreq_loop_no_record as Hl.
  split; [| split; [| split; [| split; [| split]]]].
  - revert s. change (emits not_to_logger (startCalibration ps)).
    unfold startCalibration. stepwise.
  - apply Hl.
  - assert (K : keeps (fun s0 => schedule s0 = schedule s)
                  (startCalibration ps)).
    { pose proof (schedule_calibration_loop (schedule s)).
      unfold startCalibration. stepwise. }
    apply K. reflexivity.
  - apply (schedule_logfreq_loop (schedule s) ps s). reflexivity.
  - apply (measurement_logfreq_loop (measurement s) ps s). reflexivity.
  - assert (K : keeps (fun s0 => logFreq s0 = logFreq s)
                  (startCalibration ps)).
    { pose proof (logFreq_calibration_loop (logFreq s)).
      unfold startCalibration. stepwise. }
    apply K. reflexivity.
Qed.

(** The switch when SELECT was not sampled. *)
Lemma dispatch_no_toggle (button : Z) (now : DateTime) (sub : list poll)
  (s : state) :
  button <> SELECT ->
  Forall not_to_logger (trace (dispatch button now sub) s)
  /\ schedule (exec (dispatch button now sub) s) = schedule s.
Proof.
  intros Hs.
  pose proof calibration_loop_no_record as Hc.
  pose proof logfreq_loop_no_record as Hl.
  pose proof (schedule_calibration_loop (schedule s)) as Kc.
  pose proof (schedule_logfreq_loop (schedule s)) as Kl.
  assert (E : emits not_to_logger (dispatch button now sub)).
  { unfold dispatch.
    destruct (button =? BUTTON_NONE); [stepwise |].
    destruct (button =? RIGHT); [unfold startCalibration; stepwise |].
    destruct (button =? UP); [stepwise |].
    destruct (button =? DOWN); [stepwise |].
    destruct (button =? LEFT); [unfold setLogFreq; stepwise |].
    destruct (Z.eqb_spec button SELECT); [contradiction | stepwise]. }
  assert (K : keeps (fun s0 => schedule s0 = schedule s)
                (dispatch button now sub)).
  { unfold dispatch.
    destruct (button =? BUTTON_NONE); [stepwise |].
    destruct (button =? RIGHT); [unfold startCalibration; stepwise |].
    destruct (button =? UP); [stepwise |].
    destruct (button =? DOWN); [stepwise |].
    destruct (button =? LEFT); [unfold setLogFreq; stepwise |].
    destruct (Z.eqb_spec button SELECT); [contradiction | stepwise]. }
  split; [apply E | apply K; reflexivity].
Qed.

Lemma check_logging_off (now : DateTime) (s : state) :
  logData s = false ->
  trace (check_logging now) s = [] /\ exec (check_logging now) s = s.
Proof.
  intros H. unfold check_logging. autorewrite with run. rewrite H.
  split; reflexivity.
Qed.

Lemma loop_off (c : cycle) (s : state) :
  sampled (c_poll c) <> SELECT -> logData s = false ->
  Forall not_to_logger (trace (loop c) s)
  /\ schedule (exec (loop c) s) = schedule s.
Proof.
  intros Hs Hoff. unfold loop. autorewrite with run.
  rewrite loop_head_value.
  assert (Hh : schedule (exec (loop_head c) s) = schedule s).
  { assert (K : keeps (fun s0 => schedule s0 = schedule s) (loop_head c))
      by (pose proof (schedule_arrive (schedule s));
          pose proof (schedule_ReadButtons (schedule s));
          unfold loop_head, print_date, print_time, print_padded_digit;
          stepwise).
    apply K. reflexivity. }
  assert (Eh : emits not_to_logger (loop_head c))
    by (unfold loop_head, serial_arrive, print_date, print_time,
          print_padded_digit, ReadButtons; stepwise).
  assert (Ea : emits not_to_logger average_ORP)
    by (unfold average_ORP, getORPdata; stepwise).
  assert (Ew : emits not_to_logger show_ORPvalue)
    by (unfold show_ORPvalue; stepwise).
  specialize (Eh s).
  set (s1 := exec (loop_head c) s) in *.
  destruct (dispatch_no_toggle (sampled (c_poll c)) (c_now c) (c_sub c) s1 Hs)
    as [Ed Hd].
  set (s2 := exec (dispatch _ _ _) s1) in *.
  destruct (value (dispatch _ _ _) s1).
  - unfold loop_tail. autorewrite with run.
    assert (Ha : schedule (exec average_ORP s2) = schedule s)
      by (apply schedule_average; congruence).
    set (s3 := exec average_ORP s2) in *.
    assert (Hw : schedule (exec show_ORPvalue s3) = schedule s)
      by (apply schedule_show; exact Ha).
    set (s4 := exec show_ORPvalue s3) in *.
    assert (Hoff4 : logData s4 = false)
      by (change (fst (schedule s4) = false); rewrite Hw; exact Hoff).
    destruct (check_logging_off (c_now c) s4 Hoff4) as [Ec Hc].
    rewrite Ec, Hc. split; [| exact Hw].
    rewrite !Forall_app. repeat split; auto.
    repeat constructor.
  - autorewrite with run. split; [| congruence].
    rewrite !Forall_app. repeat split; auto.
Qed.

(** X13: only the SELECT key starts logging.  From a state in which
    logging is off, cycles that do not sample SELECT, sub-loops and all,
    write nothing to the logger port, and leave [logData] off and
    [nextDataPoint] as it was. *)
Theorem logger_silent_while_off (cs : list cycle) (s : state) :
  Forall (fun c => sampled (c_poll c) <> SELECT) cs ->
  logData s = false ->
  Forall not_to_logger (trace (run cs) s)
  /\ logData (exec (run cs) s) = false
  /\ nextDataPoint (exec (run cs) s) = nextDataPoint s.
Proof.
  intros Hcs Hoff.
  assert (H : Forall not_to_logger (trace (run cs) s)
              /\ schedule (exec (run cs) s) = schedule s).
  { revert s Hoff. induction Hcs as [| c cs Hc _ IH]; intros s Hoff.
    - split; [constructor | reflexivity].
    - destruct (loop_off c s Hc Hoff) as [E K].
      cbn [run]. autorewrite with run.
      destruct (value (loop c) s).
      + assert (Hoff1 : logData (exec (loop c) s) = false)
          by (change (fst (schedule (exec (loop c) s)) = false);
              rewrite K; exact Hoff).
        destruct (IH _ Hoff1) as [E1 K1].
        split; [apply Forall_app; split; assumption | congruence].
      + autorewrite with run. rewrite app_nil_r. split; assumption. }
  destruct H as [E K]. split; [exact E |].
  unfold schedule in K. injection K as K1 K2. split; congruence.
Qed.

End Logger.

(** ** Decimal digits *)

(** The digits are put in front of what is already there. *)
Lemma printNumber_loop_app (fuel : nat) (n : Z) (str : string) :
  printNumber_loop fuel n str
  = (printNumber_loop fuel n EmptyString ++ str)%string.
Proof.
  revert n str. induction fuel as [| fuel IH]; intros n str;
    cbn [printNumber_loop]; [reflexivity |].
  destruct (n / 10 =? 0); [reflexivity |].
  rewrite IH, (IH _ (String _ EmptyString)), append_assoc. reflexivity.
Qed.

(** Any fuel above the binary logarithm of [n] gives the same digits. *)
Lemma printNumber_loop_fuel (f1 f2 : nat) (n : Z) (str : string) :
  0 <= n < 2 ^ Z.of_nat (S f1) -> 0 <= n < 2 ^ Z.of_nat (S f2) ->
  printNumber_loop (S f1) n str = printNumber_loop (S f2) n str.
Proof.
  revert f2 n str. induction f1 as [| f1 IH]; intros f2 n str H1 H2.
  - cbn [printNumber_loop].
    assert (E : n / 10 = 0)
      by (apply Z.div_small; change (2 ^ Z.of_nat 1) with 2 in H1; lia).
    rewrite E. reflexivity.
  - cbn [printNumber_loop]. fold (printNumber_loop (S f1)).
    destruct (Z.eqb_spec (n / 10) 0) as [E | E]; [reflexivity |].
    assert (Hn : 10 <= n).
    { destruct (Z_lt_le_dec n 10) as [L | L]; [| exact L].
      exfalso. apply E, Z.div_small. lia. }
    destruct f2 as [| f2].
    { change (2 ^ Z.of_nat 1) with 2 in H2. lia. }
    fold (printNumber_loop (S f2)).
    assert (P : forall f, 0 <= n < 2 ^ Z.of_nat (S (S f)) ->
                          0 <= n / 10 < 2 ^ Z.of_nat (S f)).
    { intros f [_ Hf]. split; [apply Z.div_pos; lia |].
      apply Z.div_lt_upper_bound; [lia |].
      replace (Z.of_nat (S (S f))) with (Z.of_nat (S f) + 1) in Hf by lia.
      rewrite Z.pow_add_r in Hf by lia. lia. }
    apply IH; apply P; assumption.
Qed.

Lemma printNumber_fuel (n : Z) :
  0 <= n -> 0 <= n < 2 ^ Z.of_nat (S (Z.to_nat (Z.log2 n))).
Proof.
  intros H. split; [exact H |].
  destruct (Z.eq_dec n 0) as [-> | N]; [reflexivity |].
  pose proof (Z.log2_spec n ltac:(lia)) as [_ L].
  pose proof (Z.log2_nonneg n).
  replace (Z.of_nat (S (Z.to_nat (Z.log2 n)))) with (Z.succ (Z.log2 n))
    by lia.
  exact L.
Qed.

Lemma printNumber_digit (n : Z) :
  0 <= n < 10 -> printNumber n = String (digit_char n) EmptyString.
Proof.
  intros H. unfold printNumber. cbn [printNumber_loop].
  rewrite Z.div_small, Z.mod_small by lia. reflexivity.
Qed.

(** The digits of [n] are those of [n / 10] and then the last one: the
    fuel of [printNumber] is enough. *)
Lemma printNumber_step (n : Z) :
  10 <= n ->
  printNumber n
  = (printNumber (n / 10)
     ++ String (digit_char (n mod 10)) EmptyString)%string.
Proof.
  intros H. unfold printNumber at 1. cbn [printNumber_loop].
  destruct (Z.eqb_spec (n / 10) 0) as [E | _].
  { pose proof (Z.div_le_lower_bound n 10 1). lia. }
  pose proof (printNumber_fuel n ltac:(lia)) as Hf.
  destruct (Z.to_nat (Z.log2 n)) as [| k] eqn:Ek.
  { change (2 ^ Z.of_nat 1) with 2 in Hf. lia. }
  rewrite printNumber_loop_app. f_equal.
  apply printNumber_loop_fuel.
  - destruct Hf as [_ Hf]. split; [apply Z.div_pos; lia |].
    apply Z.div_lt_upper_bound; [lia |].
    replace (Z.of_nat (S (S k))) with (Z.of_nat (S k) + 1) in Hf by lia.
    rewrite Z.pow_add_r in Hf by lia. lia.
  - apply printNumber_fuel, Z.div_pos; lia.
Qed.

Lemma printNumber_length_step (n : Z) :
  10 <= n ->
  String.length (printNumber n) = S (String.length (printNumber (n / 10))).
Proof.
  intros H. rewrite printNumber_step, length_append by exact H.
  cbn. lia.
Qed.

Lemma decimal_nonneg (n : Z) : 0 <= n -> decimal n = printNumber n.
Proof.
  intros H. unfold decimal. destruct (Z.ltb_spec n 0); [lia | reflexivity].
Qed.

(** The padding of [print_padded_digit]: two digits for a number below
    100. *)
Lemma padded (n : Z) :
  0 <= n < 100 ->
  ((if (n <? 10)%Z then "0" else "") ++ decimal n)%string = two_digits n.
Proof.
  intros H. rewrite decimal_nonneg by lia. unfold two_digits.
  destruct (Z.ltb_spec n 10).
  - rewrite printNumber_digit, Z.div_small, Z.mod_small by lia. reflexivity.
  - assert (0 <= n / 10 < 10)
      by (split; [apply Z.div_pos; lia | apply Z.div_lt_upper_bound; lia]).
    rewrite printNumber_step by lia. rewrite printNumber_digit by lia.
    reflexivity.
Qed.

Lemma decimal_length (n : Z) :
  0 <= n ->
  (n < 10 -> String.length (decimal n) = 1%nat)
  /\ (10 <= n < 100 -> String.length (decimal n) = 2%nat)
  /\ (100 <= n < 1000 -> String.length (decimal n) = 3%nat)
  /\ (1000 <= n < 10000 -> String.length (decimal n) = 4%nat)
  /\ (10000 <= n -> (5 <= String.length (decimal n))%nat).
Proof.
  intros H. rewrite decimal_nonneg by exact H.
  assert (D : forall a b, 0 <= a -> a < 10 * b -> a / 10 < b)
    by (intros a b _ L; apply Z.div_lt_upper_bound; lia).
  assert (G : forall a b, 10 * b <= a -> b <= a / 10)
    by (intros a b L; apply Z.div_le_lower_bound; lia).
  assert (L1 : forall m, 0 <= m < 10 -> String.length (printNumber m) = 1%nat)
    by (intros m Hm; rewrite printNumber_digit by exact Hm; reflexivity).
  assert (L2 : forall m, 10 <= m < 100 ->
                         String.length (printNumber m) = 2%nat).
  { intros m Hm. rewrite printNumber_length_step by lia. f_equal.
    apply L1. split; [apply G | apply D]; lia. }
  assert (L3 : forall m, 100 <= m < 1000 ->
                         String.length (printNumber m) = 3%nat).
  { intros m Hm. rewrite printNumber_length_step by lia. f_equal.
    apply L2. split; [apply G | apply D]; lia. }
  assert (L4 : forall m, 1000 <= m < 10000 ->
                         String.length (printNumber m) = 4%nat).
  { intros m Hm. rewrite printNumber_length_step by lia. f_equal.
    apply L3. split; [apply G | apply D]; lia. }
  split; [intros Hn; apply L1; lia |].
  split; [exact (L2 n) |]. split; [exact (L3 n) |]. split; [exact (L4 n) |].
  intros Hn. rewrite printNumber_length_step by lia.
  destruct (Z_lt_le_dec (n / 10) 10000) as [Lt | Ge].
  - rewrite L4; [lia |]. split; [apply G; lia | exact Lt].
  - assert (1000 <= n / 10 / 10) by (apply G; lia).
    assert (100 <= n / 10 / 10 / 10) by (apply G; lia).
    assert (10 <= n / 10 / 10 / 10 / 10) by (apply G; lia).
    rewrite (printNumber_length_step (n / 10)) by lia.
    rewrite (printNumber_length_step (n / 10 / 10)) by lia.
    rewrite (printNumber_length_step (n / 10 / 10 / 10)) by lia.
    rewrite (printNumber_length_step (n / 10 / 10 / 10 / 10)) by lia.
    lia.
Qed.

(** ** The SELECT key *)

Section Select.

Context {T : Target}.

Lemma logger_tx_app (t1 t2 : list event) :
  logger_tx (t1 ++ t2) = logger_tx t1 ++ logger_tx t2.
Proof. apply filter_app. Qed.

Lemma logger_tx_none (t : list event) :
  Forall not_to_logger t -> logger_tx t = [].
Proof.
  induction 1 as [| e t He _ IH]; [reflexivity |].
  destruct e; cbn in *; auto; contradiction.
Qed.

Lemma logger_tx_LogData (v : float) (now : DateTime) (s : state) :
  logger_tx (trace (LogData v now) s) = trace (LogData v now) s.
Proof.
  unfold LogData, when.
  repeat match goal with
         | |- context [if ?b then _ else _] => destruct b
         end; reflexivity.
Qed.

Lemma LogData_trace_any (v : float) (now : DateTime) (s s' : state) :
  trace (LogData v now) s = trace (LogData v now) s'.
Proof.
  unfold LogData, when.
  repeat match goal with
         | |- context [if ?b then _ else _] => destruct b
         end; reflexivity.
Qed.

Lemma records_logger_tx (t : list event) : records (logger_tx t) = records t.
Proof.
  unfold records, logger_tx. induction t as [| e t IH]; [reflexivity |].
  destruct e; cbn [filter]; try exact IH.
  cbn [filter]. destruct (String.eqb _ _); cbn [List.length]; now rewrite ?IH.
Qed.

Lemma toggle_on (now : DateTime) (sub : list poll) (s : state) :
  logData s = false ->
  exec (dispatch SELECT now sub) s
  = set_nextDataPoint (wrap_ulong (unixtime now + logFreq s))
      (set_logData true s)
  /\ logger_tx (trace (dispatch SELECT now sub) s)
     = trace (LogData (ORPvalue s) now) s.
Proof.
  intros Hoff.
  change (dispatch SELECT now sub) with
    (modify (fun s => set_logData (negb (logData s)) s) ;;
     active <- gets logData ;;
     (if active : bool then
        emit (DigitalWrite logPin true) ;;
        v <- gets ORPvalue ;;
        LogData v now ;;
        freq <- gets logFreq ;;
        modify (set_nextDataPoint (wrap_ulong (unixtime now + freq)))
      else emit (DigitalWrite logPin false)) ;;
     ret true).
  autorewrite with run. cbn [logData set_logData]. rewrite Hoff.
  cbn [negb]. autorewrite with run. rewrite !LogData_exec.
  cbn [ORPvalue logFreq set_logData]. split; [reflexivity |].
  cbn [app]. rewrite !app_nil_r.
  change (logger_tx (DigitalWrite logPin true :: ?t)) with (logger_tx t).
  rewrite logger_tx_LogData. apply LogData_trace_any.
Qed.

Lemma toggle_off (now : DateTime) (sub : list poll) (s : state) :
  logData s = true ->
  exec (dispatch SELECT now sub) s = set_logData false s
  /\ trace (dispatch SELECT now sub) s = [DigitalWrite logPin false].
Proof.
  intros Hon.
  change (dispatch SELECT now sub) with
    (modify (fun s => set_logData (negb (logData s)) s) ;;
     active <- gets logData ;;
     (if active : bool then
        emit (DigitalWrite logPin true) ;;
        v <- gets ORPvalue ;;
        LogData v now ;;
        freq <- gets logFreq ;;
        modify (set_nextDataPoint (wrap_ulong (unixtime now + freq)))
      else emit (DigitalWrite logPin false)) ;;
     ret true).
  autorewrite with run. cbn [logData set_logData]. rewrite Hon.
  cbn [negb]. autorewrite with run. split; reflexivity.
Qed.

Lemma loop_head_settings (c : cycle) (s : state) :
  schedule (exec (loop_head c) s) = schedule s
  /\ logFreq (exec (loop_head c) s) = logFreq s
  /\ ORPvalue (exec (loop_head c) s) = ORPvalue s.
Proof.
  assert (K : forall (A : Type) (f : state -> A),
             (forall b x, f (set_orp_rx b x) = f x) ->
             (forall b x, f (set_buttonJustPressed b x) = f x) ->
             (forall b x, f (set_buttonJustReleased b x) = f x) ->
             (forall b x, f (set_buttonWas b x) = f x) ->
             f (exec (loop_head c) s) = f s).
  { intros A f F1 F2 F3 F4.
    assert (K : keeps (fun s0 => f s0 = f s) (loop_head c))
      by (unfold loop_head, serial_arrive, print_date, print_time,
            print_padded_digit, ReadButtons;
          repeat (step_rules ltac:(congruence))).
    apply K. reflexivity. }
  split; [| split]; apply K; reflexivity.
Qed.

(** The averaging and the display block write nothing to the logger and
    leave the schedule alone. *)
Lemma measuring_no_record (s : state) :
  logger_tx (trace average_ORP s) = []
  /\ logger_tx (trace show_ORPvalue (exec average_ORP s)) = []
  /\ schedule (exec show_ORPvalue (exec average_ORP s)) = schedule s.
Proof.
  split; [| split].
  - apply logger_tx_none. revert s.
    change (emits not_to_logger average_ORP).
    unfold average_ORP, getORPdata. stepwise.
  - apply logger_tx_none. generalize (exec average_ORP s).
    change (emits not_to_logger show_ORPvalue).
    unfold show_ORPvalue. stepwise.
  - apply schedule_show, schedule_average. reflexivity.
Qed.

(** X14: a cycle that samples SELECT while logging is off starts it:
    all the cycle writes to the logger is one record, which ends with the
    value published before this cycle's averaging, printed with two
    decimals, and a line feed, the stamp before them holding no value and
    no line feed; the next record is scheduled [logFreq] seconds after the
    clock (the logging check of the same cycle writes no second record).  A cycle that samples SELECT while
    logging is on stops it: nothing goes to the logger, [logData] is off
    and [nextDataPoint] stays. *)
Theorem select_starts_and_stops_logging (c : cycle) (s : state) :
  sampled (c_poll c) = SELECT ->
  0 <= unixtime (c_now c) -> 0 < logFreq s ->
  unixtime (c_now c) + logFreq s <= ULONG_MAX ->
  (logData s = false ->
     logger_tx (trace (loop c) s) = trace (LogData (ORPvalue s) (c_now c)) s
     /\ records (trace (loop c) s) = 1%nat
     /\ schedule (exec (loop c) s)
        = (true, unixtime (c_now c) + logFreq s)
     /\ exists stamp,
          logger_tx (trace (loop c) s)
          = stamp ++ [SerialPrintFloat (ORPvalue s) 2;
                      SerialPrint (String LF EmptyString)]
          /\ logged stamp = [] /\ records stamp = 0%nat)
  /\ (logData s = true ->
     logger_tx (trace (loop c) s) = []
     /\ schedule (exec (loop c) s) = (false, nextDataPoint s)).
Proof.
  intros Hs H0 Hf Hmax.
  destruct (loop_head_settings c s) as (Kh & Kf & Kv).
  assert (Eh : logger_tx (trace (loop_head c) s) = []).
  { apply logger_tx_none.
    assert (E : emits not_to_logger (loop_head c))
      by (unfold loop_head, serial_arrive, print_date, print_time,
            print_padded_digit, ReadButtons; stepwise).
    apply E. }
  set (s1 := exec (loop_head c) s) in *.
  set (s2 := exec (dispatch SELECT (c_now c) (c_sub c)) s1).
  destruct (measuring_no_record s2) as (Ea & Ew & Km).
  set (s4 := exec show_ORPvalue (exec average_ORP s2)) in *.
  assert (Hloop : logger_tx (trace (loop c) s)
                  = logger_tx (trace (dispatch SELECT (c_now c) (c_sub c)) s1)
                    ++ logger_tx (trace (check_logging (c_now c)) s4)
                  /\ exec (loop c) s = exec (check_logging (c_now c)) s4).
  { unfold loop. autorewrite with run. rewrite loop_head_value, Hs.
    fold s1. destruct (dispatch_SELECT (c_now c) (c_sub c) s1) as [Hv _].
    rewrite Hv. unfold loop_tail. autorewrite with run. fold s2.
    rewrite !logger_tx_app, Eh, Ea. fold s4. rewrite Ew. cbn [app].
    rewrite app_nil_r. split; reflexivity. }
  destruct Hloop as [Lt Lx].
  rewrite <- records_logger_tx, Lt, Lx.
  split; intros Hl0.
  - destruct (toggle_on (c_now c) (c_sub c) s1) as [Hx Ht].
    { change (fst (schedule s1) = false). rewrite Kh. exact Hl0. }
    assert (Hw : wrap_ulong (unixtime (c_now c) + logFreq s)
                 = unixtime (c_now c) + logFreq s)
      by (unfold wrap_ulong, ULONG_MAX in *; apply Z.mod_small; lia).
    assert (K4 : schedule s4 = (true, unixtime (c_now c) + logFreq s)).
    { rewrite Km. subst s2. rewrite Hx, Kf, Hw. reflexivity. }
    assert (Ec : trace (check_logging (c_now c)) s4
                 = [LcdSetCursor 0 1; LcdPrint "Logging"]
                 /\ exec (check_logging (c_now c)) s4 = s4).
    { unfold schedule in K4. injection K4 as K41 K42.
      unfold check_logging. autorewrite with run. rewrite K41.
      cbn [when]. autorewrite with run. rewrite K42.
      destruct (Z.leb_spec (unixtime (c_now c) + logFreq s)
                  (unixtime (c_now c))); [lia |].
      cbn [when]. autorewrite with run. split; reflexivity. }
    destruct Ec as [Ec Ex]. rewrite Ec, Ex, Ht, Kv.
    change (logger_tx [LcdSetCursor 0 1; LcdPrint "Logging"]) with (@nil event).
    rewrite app_nil_r, (LogData_trace_any _ _ s1 s).
    split; [reflexivity |]. split; [apply LogData_one_record |].
    split; [exact K4 |].
    destruct (LogData_record (ORPvalue s) (c_now c) s)
      as (stamp & Hst & Hlg & Hrc).
    exists stamp. rewrite Hst. repeat split; assumption.
  - destruct (toggle_off (c_now c) (c_sub c) s1) as [Hx Ht].
    { change (fst (schedule s1) = true). rewrite Kh. exact Hl0. }
    assert (K4 : schedule s4 = (false, nextDataPoint s)).
    { rewrite Km. subst s2. rewrite Hx.
      change (snd (schedule s1)) with (nextDataPoint s1).
      unfold schedule. cbn [logData nextDataPoint set_logData].
      change (nextDataPoint s1) with (snd (schedule s1)).
      rewrite Kh. reflexivity. }
    assert (Hoff4 : logData s4 = false)
      by (change (fst (schedule s4) = false); rewrite K4; reflexivity).
    destruct (check_logging_off (c_now c) s4 Hoff4) as [Ec Ex].
    rewrite Ec, Ex, Ht. split; [reflexivity | exact K4].
Qed.

End Select.

(** ** What the display and the logger show *)

Section Layout.

Context {T : Target}.

Lemma text_of_app (t1 t2 : list event) :
  text_of (t1 ++ t2) = (text_of t1 ++ text_of t2)%string.
Proof.
  induction t1 as [| e t1 IH]; cbn [app text_of fold_right];
    [reflexivity |].
  fold (text_of (t1 ++ t2)). fold (text_of t1).
  rewrite IH, append_assoc. reflexivity.
Qed.

Lemma print_padded_digit_text (v : Z) (s : state) :
  0 <= v < 100 ->
  text_of (trace (print_padded_digit v) s) = two_digits v
  /\ Forall at_cursor (trace (print_padded_digit v) s).
Proof.
  intros H. pose proof (padded v H) as P.
  unfold print_padded_digit. autorewrite with run.
  destruct (v <? 10); cbn [when]; autorewrite with run.
  - split; [| repeat constructor].
    cbn [app text_of fold_right text]. rewrite append_empty_r. exact P.
  - split; [| repeat constructor].
    cbn [app text_of fold_right text]. rewrite append_empty_r. exact P.
Qed.

(** X15: with clock fields of two digits at most, [print_time] moves
    the cursor once, to column 0 of row 0, and prints there the eight
    characters HH:MM:SS; [print_date] moves it once, to column 11 of the
    same row, and prints the five characters MM/DD, every field padded to
    two digits.  The clock ends before the date begins, and the date ends
    in the last of the 16 columns. *)
Theorem clock_and_date_layout (now : DateTime) (s : state) :
  two_digit_fields now ->
  (exists t,
      trace (print_time now) s = LcdSetCursor 0 0 :: t
      /\ Forall at_cursor t
      /\ text_of t
         = (two_digits (hour now) ++ ":" ++ two_digits (minute now) ++ ":"
            ++ two_digits (second now))%string
      /\ String.length (text_of t) = 8%nat)
  /\ (exists t,
      trace (print_date now) s = LcdSetCursor 11 0 :: t
      /\ Forall at_cursor t
      /\ text_of t
         = (two_digits (month now) ++ "/" ++ two_digits (day now))%string
      /\ String.length (text_of t) = 5%nat).
Proof.
  intros (Hmo & Hd & Hh & Hmi & Hs).
  split.
  - destruct (print_padded_digit_text (hour now) s Hh) as [T1 C1].
    destruct (print_padded_digit_text (minute now) s Hmi) as [T2 C2].
    destruct (print_padded_digit_text (second now) s Hs) as [T3 C3].
    exists (trace (print_padded_digit (hour now)) s
            ++ [LcdPrint ":"] ++ trace (print_padded_digit (minute now)) s
            ++ [LcdPrint ":"] ++ trace (print_padded_digit (second now)) s).
    assert (E : forall v s1 s2, trace (print_padded_digit v) s1
                                = trace (print_padded_digit v) s2)
      by (intros v s1 s2; unfold print_padded_digit; autorewrite with run;
          destruct (v <? 10); reflexivity).
    split; [| split; [| split]].
    + unfold print_time. autorewrite with run. cbn [app].
      repeat (f_equal; try apply E).
    + rewrite !Forall_app. repeat split; auto; repeat constructor.
    + rewrite !text_of_app, T1, T2, T3. reflexivity.
    + rewrite !text_of_app, T1, T2, T3. reflexivity.
  - destruct (print_padded_digit_text (month now) s Hmo) as [T1 C1].
    destruct (print_padded_digit_text (day now) s Hd) as [T2 C2].
    exists (trace (print_padded_digit (month now)) s
            ++ [LcdPrint "/"] ++ trace (print_padded_digit (day now)) s).
    assert (E : forall v s1 s2, trace (print_padded_digit v) s1
                                = trace (print_padded_digit v) s2)
      by (intros v s1 s2; unfold print_padded_digit; autorewrite with run;
          destruct (v <? 10); reflexivity).
    split; [| split; [| split]].
    + unfold print_date. autorewrite with run. cbn [app].
      repeat (f_equal; try apply E).
    + rewrite !Forall_app. repeat split; auto; repeat constructor.
    + rewrite !text_of_app, T1, T2. reflexivity.
    + rewrite !text_of_app, T1, T2. reflexivity.
Qed.

(** X16: a record of [LogData] is the stamp MM/DD/YYYY,HH:MM:SS, with a
    comma after it, then the value with two decimals and a line feed:
    month, day, hour, minute and second are padded to two digits as on
    the display, the year is printed as it is; with a year of four digits
    the stamp takes 20 characters, so that the value starts at the same
    place in every record. *)
Theorem LogData_stamp (v : float) (now : DateTime) (s : state) :
  two_digit_fields now -> 0 <= year now ->
  exists stamp,
    trace (LogData v now) s
    = stamp ++ [SerialPrintFloat v 2; SerialPrint (String LF EmptyString)]
    /\ text_of stamp
       = (two_digits (month now) ++ "/" ++ two_digits (day now) ++ "/"
          ++ decimal (year now) ++ ","
          ++ two_digits (hour now) ++ ":" ++ two_digits (minute now) ++ ":"
          ++ two_digits (second now) ++ ",")%string
    /\ (1000 <= year now < 10000 -> String.length (text_of stamp) = 20%nat).
Proof.
  intros (Hmo & Hd & Hh & Hmi & Hs) Hy.
  pose proof (padded _ Hmo) as Pmo. pose proof (padded _ Hd) as Pd.
  pose proof (padded _ Hh) as Ph. pose proof (padded _ Hmi) as Pmi.
  pose proof (padded _ Hs) as Ps.
  exists (removelast (removelast (trace (LogData v now) s))).
  assert (L2 : forall x, String.length (two_digits x) = 2%nat)
    by reflexivity.
  assert (E : text_of (removelast (removelast (trace (LogData v now) s)))
              = (two_digits (month now) ++ "/" ++ two_digits (day now) ++ "/"
                 ++ decimal (year now) ++ ","
                 ++ two_digits (hour now) ++ ":" ++ two_digits (minute now)
                 ++ ":" ++ two_digits (second now) ++ ",")%string).
  { rewrite <- Pmo, <- Pd, <- Ph, <- Pmi, <- Ps.
    unfold LogData, when.
    destruct (month now <? 10), (day now <? 10), (hour now <? 10),
      (minute now <? 10), (second now <? 10);
      cbn [trace bind emit ret fst snd app removelast text_of fold_right
             text];
      rewrite ?append_assoc; reflexivity. }
  split; [| split; [exact E |]].
  - unfold LogData, when.
    destruct (month now <? 10), (day now <? 10), (hour now <? 10),
      (minute now <? 10), (second now <? 10); reflexivity.
  - intros Hy4. rewrite E. rewrite !length_append, !L2.
    destruct (decimal_length (year now) Hy) as (_ & _ & _ & L4 & _).
    rewrite (L4 Hy4). reflexivity.
Qed.

(** X17: the interval shown by [setLogFreq] is right-aligned: below
    1000 its last digit stands in column 11, one blank before the unit
    printed at column 13; from 10000 on the number, printed from column 9
    after the unit, runs over it. *)
Theorem show_logFreq_right_aligned (s : state) :
  5 <= logFreq s ->
  exists col,
    trace show_logFreq s
    = [LcdClear; LcdSetCursor 0 0; LcdPrint "Set log freq";
       LcdSetCursor 0 1; LcdPrint "RT=EXIT";
       LcdSetCursor 13 1; LcdPrint "sec";
       LcdSetCursor col 1; LcdPrintInt (logFreq s)]
    /\ (logFreq s < 1000 ->
        col + Z.of_nat (String.length (decimal (logFreq s))) = 12)
    /\ (10000 <= logFreq s ->
        13 < col + Z.of_nat (String.length (decimal (logFreq s)))).
Proof.
  intros H5.
  destruct (decimal_length (logFreq s) ltac:(lia))
    as (L1 & L2 & L3 & _ & L5).
  unfold show_logFreq. autorewrite with run.
  destruct (Z.ltb_spec (logFreq s) 10);
    [| destruct (Z.ltb_spec (logFreq s) 100)].
  - exists 11. split; [reflexivity |]. split; intros; [| lia].
    rewrite L1 by lia. reflexivity.
  - exists 10. split; [reflexivity |]. split; intros; [| lia].
    rewrite L2 by lia. reflexivity.
  - exists 9. split; [reflexivity |]. split; intros Hn.
    + rewrite L3 by lia. reflexivity.
    + specialize (L5 Hn). lia.
Qed.

End Layout.

(** ** The further properties on the example inputs *)

Lemma stored_line_fits_witness :
  (String.length
     (sensor_data (T := Binary32.target)
        (exec (setup ;; run [reading_cycle; quiet_cycle]) init)) < 20)%nat.
Proof.
  assert (F0 : framed EmptyString)
    by (exists []; split; [constructor | reflexivity]).
  assert (F1 : framed (line "30")).
  { exists ["30"%string]. split; [| reflexivity].
    constructor; [| constructor]. split; [| cbn; lia].
    cbn. intros [H | [H | []]]; discriminate H. }
  refine (proj1 (stored_line_fits (T := Binary32.target)
                   [reading_cycle; quiet_cycle] _)).
  repeat constructor; assumption.
Defined.

Lemma string_received_for_good_witness :
  string_received (T := Binary32.target)
    (exec (run [quiet_cycle; quiet_cycle]) (exec (loop reading_cycle) init))
  = 1.
Proof.
  refine (proj1 (string_received_for_good (T := Binary32.target)
                   [quiet_cycle; quiet_cycle]
                   (exec (loop reading_cycle) init) _)).
  vm_compute. reflexivity.
Defined.

Lemma interval_never_below_5_witness :
  5 <= logFreq (T := Binary32.target)
         (exec (setup ;; run [quiet_cycle]) init).
Proof.
  refine (proj1 (interval_never_below_5 (T := Binary32.target)
                   (exec (setup ;; run [quiet_cycle]) init) _)).
  exists [quiet_cycle]. reflexivity.
Defined.

Lemma round_of_three_folds_witness :
  ORPvalue (T := Binary32.target)
    (folded [line "10"; line "20"; line "30"; line "40"] init)
  = Binary32.of_Z 15
  /\ orp_rx (T := Binary32.target)
       (folded [line "10"; line "20"; line "30"; line "40"] init)
     = line "40".
Proof.
  assert (R : forall d1 d2 : ascii,
             d1 <> CR -> d2 <> CR ->
             response (String d1 (String d2 EmptyString))).
  { intros d1 d2 H1 H2. split; [| cbn; lia].
    cbn. intros [H | [H | []]]; [exact (H1 H) | exact (H2 H)]. }
  destruct (round_of_three_folds (T := Binary32.target)
              "10" "20" "30" (line "40") init)
    as (Hv & _ & _ & Hrx & _);
    try (apply R; discriminate); try reflexivity.
  split; [rewrite Hv; vm_compute; reflexivity | exact Hrx].
Defined.

Lemma three_requests_in_four_cycles_witness :
  sensor_tx
    (trace (T := Binary32.target)
       (run [quiet_cycle; quiet_cycle; quiet_cycle; quiet_cycle]) init)
  = [cmd "R"; cmd "R"; cmd "R"].
Proof.
  assert (P : plain quiet_cycle)
    by (split; vm_compute; intros E; discriminate E).
  refine (proj1 (proj2 (three_requests_in_four_cycles (T := Binary32.target)
                          quiet_cycle quiet_cycle quiet_cycle quiet_cycle
                          init P P P P _))).
  cbn. lia.
Defined.

Lemma logger_silent_while_off_witness :
  logData (T := Binary32.target)
    (exec (run [quiet_cycle; calibration_cycle]) init) = false.
Proof.
  refine (proj1 (proj2 (logger_silent_while_off (T := Binary32.target)
                          [quiet_cycle; calibration_cycle] init _ _))).
  - repeat constructor; vm_compute; intros E; discriminate E.
  - reflexivity.
Defined.

Lemma select_starts_and_stops_logging_witness :
  records (trace (T := Binary32.target) (loop select_cycle) init) = 1%nat.
Proof.
  refine (proj1 (proj2 (proj1 (select_starts_and_stops_logging
                                 (T := Binary32.target) select_cycle init
                                 _ _ _ _) _))).
  - reflexivity.
  - cbn. lia.
  - cbn. lia.
  - cbn. unfold ULONG_MAX. lia.
  - reflexivity.
Defined.

Lemma clock_and_date_layout_witness :
  exists t,
    trace (T := Binary32.target) (print_time some_morning) init
    = LcdSetCursor 0 0 :: t
    /\ Forall at_cursor t
    /\ text_of t = "07:05:00"
    /\ String.length (text_of t) = 8%nat.
Proof.
  refine (proj1 (clock_and_date_layout (T := Binary32.target)
                   some_morning init _)).
  unfold two_digit_fields. cbn. lia.
Defined.

Lemma LogData_stamp_witness :
  exists stamp,
    trace (T := Binary32.target) (LogData (ORPvalue init) some_morning) init
    = stamp ++ [SerialPrintFloat (ORPvalue init) 2;
                SerialPrint (String LF EmptyString)]
    /\ text_of stamp = "03/09/2014,07:05:00,"
    /\ (1000 <= 2014 < 10000 -> String.length (text_of stamp) = 20%nat).
Proof.
  refine (LogData_stamp (T := Binary32.target) (ORPvalue init)
            some_morning init _ _).
  - unfold two_digit_fields. cbn. lia.
  - cbn. lia.
Defined.

Lemma show_logFreq_right_aligned_witness :
  exists col,
    trace (T := Binary32.target) show_logFreq init
    = [LcdClear; LcdSetCursor 0 0; LcdPrint "Set log freq";
       LcdSetCursor 0 1; LcdPrint "RT=EXIT";
       LcdSetCursor 13 1; LcdPrint "sec";
       LcdSetCursor col 1; LcdPrintInt 5]
    /\ (5 < 1000 -> col + 1 = 12)
    /\ (10000 <= 5 -> 13 < col + 1).
Proof.
  refine (show_logFreq_right_aligned (T := Binary32.target) init _).
  cbn. lia.
Defined.
